(** * Radio.c of the MC13213 SRB SMAC example: a shallow embedding

    The development follows [Examples/MC13213_SRB/SRB_SMAC/Common/Radio.c].
    The module is embedded for the build with [PL_HAS_CONTEST] set (the
    contest code is what most of the statements below are about); the other
    compile-time switches and constants of headers that are not part of the
    sources are fields of the record [Platform].

    Conventions.
    - A [cstr] is the text of a NUL terminated C string: the characters
      before the terminator.  Reading at the end of the list reads the
      terminator.
    - Raw memory (queue slots, the receive buffer) is a [list ascii] that may
      hold NUL characters; [cstring] takes the C string that starts at its
      first cell.
    - Every call that leaves the module (SMAC driver, LEDs, event flags, shell
      and console output) is appended to the [trace] of the state, in program
      order.  The driver's answers are given by a [Driver], a function of the
      trace up to and including the request.
    - The two dump loops of the sniff branch keep the loads they make through
      the message pointer: the index read and the byte the load gave. *)

From Stdlib Require Import ZArith List String Ascii Bool Arith Lia.
Import ListNotations.
Open Scope Z_scope.

(** ** Characters and C strings *)

Definition cstr := list ascii.

Definition lit (s : string) : cstr := list_ascii_of_string s.

Definition code (c : ascii) : Z := Z.of_N (N_of_ascii c).

Definition chr (z : Z) : ascii := ascii_of_N (Z.to_N (z mod 256)).

Definition NUL : ascii := zero.

Definition is_NUL (c : ascii) : bool := Ascii.eqb c NUL.

(** [*p] and [p++] on a pointer into a C string. *)
Definition peek (p : cstr) : ascii := hd NUL p.
Definition next (p : cstr) : cstr := tl p.

(** The C string stored at the beginning of a piece of raw memory. *)
Fixpoint cstring (mem : list ascii) : cstr :=
  match mem with
  | [] => []
  | c :: rest => if is_NUL c then [] else c :: cstring rest
  end.

(** ** Fixed width integers *)

Definition int8 (z : Z) : Z := (z + 128) mod 256 - 128.
Definition uint8 (z : Z) : Z := z mod 256.
Definition uint32 (z : Z) : Z := z mod 2 ^ 32.
Definition int32 (z : Z) : Z := (z + 2 ^ 31) mod 2 ^ 32 - 2 ^ 31.

Definition is_int8 (z : Z) : Prop := -128 <= z <= 127.

(** C's [/] on [int] operands: undefined for a zero divisor, truncating
    otherwise. *)
Definition c_div (a b : Z) : option Z :=
  if b =? 0 then None else Some (Z.quot a b).

(** ** The string utilities (UTIL1) *)

Module UTIL1.

(** Modelled from the spec: UTIL1.c is not part of the sources.  [strlen],
    [strcmp] and [strncmp] are the C library functions (UTIL1.h maps the names
    onto them); the result of a comparison is the difference of the first two
    characters that differ, zero when there is none ("bounded comparison"). *)
Definition strlen (s : cstr) : nat := List.length s.

Fixpoint strcmp (s1 s2 : cstr) : Z :=
  match s1, s2 with
  | [], [] => 0
  | [], c2 :: _ => 0 - code c2
  | c1 :: _, [] => code c1
  | c1 :: r1, c2 :: r2 =>
      if Ascii.eqb c1 c2 then strcmp r1 r2 else code c1 - code c2
  end.

Fixpoint strncmp (s1 s2 : cstr) (n : nat) : Z :=
  match n with
  | O => 0
  | S n' =>
      match s1, s2 with
      | [], [] => 0
      | [], c2 :: _ => 0 - code c2
      | c1 :: _, [] => code c1
      | c1 :: r1, c2 :: r2 =>
          if Ascii.eqb c1 c2 then strncmp r1 r2 n' else code c1 - code c2
      end
  end.

(** Modelled from the spec: the copying routines of UTIL1.c, which is not part
    of the sources.  Each takes the capacity [dstSize] of the destination and
    never writes more than [dstSize - 1] characters and the terminator ("no
    payload-length validation beyond destination capacity"; "buffer capacity
    exceeded -> truncated silently"). *)
Definition strcpy (dstSize : nat) (src : cstr) : cstr :=
  firstn (dstSize - 1) src.

Definition strcat (dst : cstr) (dstSize : nat) (src : cstr) : cstr :=
  firstn (dstSize - 1) (dst ++ src).

Definition chcat (dst : cstr) (dstSize : nat) (ch : ascii) : cstr :=
  if is_NUL ch then firstn (dstSize - 1) dst
  else firstn (dstSize - 1) (dst ++ [ch]).

(** Modelled from the spec: the number formatting routines of UTIL1.c, which is
    not part of the sources.  A number is written in decimal, with a leading
    minus sign when negative (the [<int8>] of the frame formats), into the
    given capacity; the [strcatNum] variants format into a temporary that is
    large enough for the type and append it. *)
Definition digit (d : Z) : ascii :=
  if d <? 10 then chr (48 + d) else chr (55 + d).

Fixpoint udec (fuel : nat) (n : Z) (acc : cstr) : cstr :=
  match fuel with
  | O => acc
  | S fuel' =>
      let acc' := digit (n mod 10) :: acc in
      if n / 10 =? 0 then acc' else udec fuel' (n / 10) acc'
  end.

Definition sdec (z : Z) : cstr :=
  if z <? 0 then "-"%char :: udec 10 (- z) [] else udec 10 z [].

Definition Num8sToStr (dstSize : nat) (val : Z) : cstr :=
  strcpy dstSize (sdec (int8 val)).

Definition strcatNum8s (dst : cstr) (dstSize : nat) (val : Z) : cstr :=
  strcat dst dstSize (Num8sToStr 5 val).

Definition strcatNum16s (dst : cstr) (dstSize : nat) (val : Z) : cstr :=
  strcat dst dstSize (strcpy 7 (sdec val)).

Definition strcatNum8Hex (dst : cstr) (dstSize : nat) (num : Z) : cstr :=
  strcat dst dstSize [digit (uint8 num / 16); digit (uint8 num mod 16)].

(** Modelled from the spec: [UTIL1_xatoi] of UTIL1.c, which is not part of the
    sources.  It reads one number at [*str] and leaves [*str] behind it:
    leading blanks are skipped ("internal whitespace around operator/operands
    is tolerated"), a minus sign may follow, then digits (decimal; [0x], [0b]
    and a leading [0] select other radices); the number ends at a blank, at a
    control character, at the terminator or at a dot, and any other character
    makes the call fail.  [None] is [ERR_FAILED]; [Some (val, rest)] is
    [ERR_OK] with the value stored through [res] and the new [*str]. *)
Fixpoint skip_spaces (p : cstr) : cstr :=
  match p with
  | c :: rest => if Ascii.eqb c " " then skip_spaces rest else p
  | [] => p
  end.

Fixpoint xatoi_digits (r : Z) (val : Z) (p : cstr) : option (Z * cstr) :=
  match p with
  | [] => Some (val, p)
  | ch :: rest =>
      let c := code ch in
      if (c >? 32) && negb (c =? 46) then
        let c := if c >=? 97 then c - 32 else c in
        let c := uint8 (c - 48) in
        if c >=? 17 then
          let c := c - 7 in
          if c <=? 9 then None
          else if c >=? r then None
          else xatoi_digits r (uint32 (val * r + c)) rest
        else
          if c >=? r then None
          else xatoi_digits r (uint32 (val * r + c)) rest
      else Some (val, p)
  end.

Definition xatoi (str : cstr) : option (Z * cstr) :=
  let p := skip_spaces str in
  let s := Ascii.eqb (peek p) "-" in
  let p := if s then next p else p in
  let c := code (peek p) in
  let number r p :=
    match xatoi_digits r 0 p with
    | None => None
    | Some (val, rest) =>
        Some (int32 (if s then uint32 (0 - val) else val), rest)
    end in
  if c =? 48 then
    let p := next p in
    let c := code (peek p) in
    if c =? 120 then number 16 (next p)
    else if c =? 98 then number 2 (next p)
    else if (c <=? 32) || (c =? 46) then Some (0, p)
    else if (c <? 48) || (c >? 57) then None
    else number 8 p
  else if (c <? 48) || (c >? 57) then None
  else number 10 p.

End UTIL1.

(** ** Types of the module and of its collaborators *)

(** Radio state definitions. *)
Inductive RADIO_AppStatusKind :=
| RADIO_INITIAL_STATE
| RADIO_RESET_STATE
| RADIO_RECEIVER_ALWAYS_ON
| RADIO_TRANSMIT_DATA
| RADIO_WAITING_FOR_ACK
| RADIO_TRANSMIT_ACK
| RADIO_READY_FOR_TX_RX_DATA.

Definition RADIO_QUEUE_NOF_ITEMS : nat := 8.
Definition RADIO_QUEUE_ITEM_SIZE : nat := 32.

Inductive RADIO_QueueMsgKind :=
| RADIO_QUEUE_MSG_SNIFF
| RADIO_QUEUE_MSG_CONTEST_QUESTION
| RADIO_QUEUE_MSG_CONTEST_ANSWER
| RADIO_QUEUE_MSG_ACCEL.

(** The value of an enumerator, as stored in the first byte of a slot. *)
Definition kind_value (k : RADIO_QueueMsgKind) : Z :=
  match k with
  | RADIO_QUEUE_MSG_SNIFF => 0
  | RADIO_QUEUE_MSG_CONTEST_QUESTION => 1
  | RADIO_QUEUE_MSG_CONTEST_ANSWER => 2
  | RADIO_QUEUE_MSG_ACCEL => 3
  end.

Definition RADIO_PREFIX_STR : cstr := lit "EST".
Definition RADIO_ACK_STR : cstr := lit "ack".
Definition RADIO_TIMEOUT_COUNT : Z := 45056.

Definition CRLF : cstr := [chr 13; chr 10].

(** Event.h is not part of the sources: the six radio events are the ones
    Radio.c names; [EVNT_OTHER] stands for the handles of the other modules,
    for which the [switch] of [RADIO_AppHandleEvent] has no case. *)
Inductive EVNT_Handle :=
| EVNT_RADIO_RESET
| EVNT_RADIO_TIMEOUT
| EVNT_RADIO_ACK
| EVNT_RADIO_OVERFLOW
| EVNT_RADIO_DATA
| EVNT_RADIO_UNKNOWN
| EVNT_OTHER.

(** Status codes of the SMAC driver (SMAC1.h is not part of the sources): the
    ones Radio.c names, and [SMAC1_ERROR] for any other code. *)
Inductive SMAC1_Status :=
| SMAC1_SUCCESS
| SMAC1_TIMEOUT
| SMAC1_OVERFLOW
| TRSVR1_INITIAL_VALUE
| SMAC1_ERROR.

Definition is_SUCCESS (st : SMAC1_Status) : bool :=
  match st with SMAC1_SUCCESS => true | _ => false end.

(** What [pu8Data] of a transmit packet can point to. *)
Inductive TxBuffer := NULL | RADIO_TxDataBuffer_ | ackTxDataBuffer_.

Record tTxPacket := { tx_u8DataLength : Z; tx_pu8Data : TxBuffer }.

(** A receive packet as the driver hands it to the callback: [pu8Data] is the
    memory of the receive buffer. *)
Record tRxPacket := {
  u8Status : SMAC1_Status;
  u8DataLength : Z;
  pu8Data : list ascii
}.

Inductive Stream := io_stdOut | io_stdErr | Stdio_stdOut.

(** The calls that leave the module. *)
Inductive Call :=
| SMAC1_MLMERXEnableRequest (timeout : Z)
| SMAC1_MLMERXDisableRequest
| SMAC1_MCPSDataRequest (packet : tTxPacket) (data : cstr)
| SMAC1_RadioInit
| SMAC1_MLMESetChannelRequest (ch : Z)
| SMAC1_MLMEMC13192PAOutputAdjust (power : Z)
| SMAC1_MLMELinkQuality
| LED1_Neg
| LED2_Neg
| EVNT_SetEvent (event : EVNT_Handle)
| SHELL_SendMessage (msg : cstr)
| CLS1_SendStr (str : cstr) (io : Stream)
| CLS1_SendHelpStr (cmd descr : cstr) (io : Stream)
| CLS1_SendStatusStr (name value : cstr) (io : Stream)
| CLS1_SendNum16s (val : Z) (io : Stream)
| CLS1_SendNum16u (val : Z) (io : Stream)
| CLS1_SendNum8u (val : Z) (io : Stream)
| REMOTE_ParseMsg (msg : cstr) (size : Z).

(** The driver seen from Radio.c: the status a request returns and the link
    quality it reports, given the calls made so far (the request included). *)
Record Driver := {
  smac_answer : list Call -> SMAC1_Status;
  link_quality : list Call -> Z
}.

(** Compile-time configuration taken from headers that are not part of the
    sources (Platform.h, SMAC1.h, Remote.h, CLS1.h). *)
Record Platform := {
  PL_HAS_REMOTE : bool;
  PL_HAS_MOTOR : bool;
  REMOTE_ACCEL_PREFIX : cstr;
  SMAC1_RADIO_BUF_SIZE : nat;
  CLS1_CMD_HELP : cstr;
  CLS1_CMD_STATUS : cstr
}.

(** The indeterminate contents of an uninitialised local array, cell by
    cell. *)
Definition Stack := nat -> ascii.

(** ** The state of the module *)

Record Radio := {
  RADIO_isContest : bool;
  RADIO_isContestSender : bool;
  ContestCalcExpectedResultStr : cstr;
  RADIO_contestNo : Z;
  RADIO_AppStatus : RADIO_AppStatusKind;
  RADIO_Channel : Z;
  RADIO_OutputPower : Z;
  RADIO_isOn : bool;
  RADIO_isSniffing : bool;
  RADIO_TxPacket : tTxPacket;
  RADIO_TxDataBuffer : cstr;
  ackTxDataBuffer : cstr;
  RADIO_MsgQueue : list (list ascii);
  trace : list Call
}.

(** The static initialisers, with the message queue created and empty. *)
Definition Radio_static : Radio := {|
  RADIO_isContest := false;
  RADIO_isContestSender := false;
  ContestCalcExpectedResultStr := [];
  RADIO_contestNo := 0;
  RADIO_AppStatus := RADIO_INITIAL_STATE;
  RADIO_Channel := 5;
  RADIO_OutputPower := 15;
  RADIO_isOn := true;
  RADIO_isSniffing := false;
  RADIO_TxPacket := {| tx_u8DataLength := 0; tx_pu8Data := NULL |};
  RADIO_TxDataBuffer := [];
  ackTxDataBuffer := [];
  RADIO_MsgQueue := [];
  trace := []
|}.

Definition set_isContest (v : bool) (s : Radio) : Radio :=
  {| RADIO_isContest := v;
     RADIO_isContestSender := RADIO_isContestSender s;
     ContestCalcExpectedResultStr := ContestCalcExpectedResultStr s;
     RADIO_contestNo := RADIO_contestNo s;
     RADIO_AppStatus := RADIO_AppStatus s;
     RADIO_Channel := RADIO_Channel s;
     RADIO_OutputPower := RADIO_OutputPower s;
     RADIO_isOn := RADIO_isOn s;
     RADIO_isSniffing := RADIO_isSniffing s;
     RADIO_TxPacket := RADIO_TxPacket s;
     RADIO_TxDataBuffer := RADIO_TxDataBuffer s;
     ackTxDataBuffer := ackTxDataBuffer s;
     RADIO_MsgQueue := RADIO_MsgQueue s;
     trace := trace s |}.

Definition set_ExpectedResultStr (v : cstr) (s : Radio) : Radio :=
  {| RADIO_isContest := RADIO_isContest s;
     RADIO_isContestSender := RADIO_isContestSender s;
     ContestCalcExpectedResultStr := v;
     RADIO_contestNo := RADIO_contestNo s;
     RADIO_AppStatus := RADIO_AppStatus s;
     RADIO_Channel := RADIO_Channel s;
     RADIO_OutputPower := RADIO_OutputPower s;
     RADIO_isOn := RADIO_isOn s;
     RADIO_isSniffing := RADIO_isSniffing s;
     RADIO_TxPacket := RADIO_TxPacket s;
     RADIO_TxDataBuffer := RADIO_TxDataBuffer s;
     ackTxDataBuffer := ackTxDataBuffer s;
     RADIO_MsgQueue := RADIO_MsgQueue s;
     trace := trace s |}.

Definition set_contestNo (v : Z) (s : Radio) : Radio :=
  {| RADIO_isContest := RADIO_isContest s;
     RADIO_isContestSender := RADIO_isContestSender s;
     ContestCalcExpectedResultStr := ContestCalcExpectedResultStr s;
     RADIO_contestNo := v;
     RADIO_AppStatus := RADIO_AppStatus s;
     RADIO_Channel := RADIO_Channel s;
     RADIO_OutputPower := RADIO_OutputPower s;
     RADIO_isOn := RADIO_isOn s;
     RADIO_isSniffing := RADIO_isSniffing s;
     RADIO_TxPacket := RADIO_TxPacket s;
     RADIO_TxDataBuffer := RADIO_TxDataBuffer s;
     ackTxDataBuffer := ackTxDataBuffer s;
     RADIO_MsgQueue := RADIO_MsgQueue s;
     trace := trace s |}.

Definition set_AppStatus (v : RADIO_AppStatusKind) (s : Radio) : Radio :=
  {| RADIO_isContest := RADIO_isContest s;
     RADIO_isContestSender := RADIO_isContestSender s;
     ContestCalcExpectedResultStr := ContestCalcExpectedResultStr s;
     RADIO_contestNo := RADIO_contestNo s;
     RADIO_AppStatus := v;
     RADIO_Channel := RADIO_Channel s;
     RADIO_OutputPower := RADIO_OutputPower s;
     RADIO_isOn := RADIO_isOn s;
     RADIO_isSniffing := RADIO_isSniffing s;
     RADIO_TxPacket := RADIO_TxPacket s;
     RADIO_TxDataBuffer := RADIO_TxDataBuffer s;
     ackTxDataBuffer := ackTxDataBuffer s;
     RADIO_MsgQueue := RADIO_MsgQueue s;
     trace := trace s |}.

Definition set_Channel (v : Z) (s : Radio) : Radio :=
  {| RADIO_isContest := RADIO_isContest s;
     RADIO_isContestSender := RADIO_isContestSender s;
     ContestCalcExpectedResultStr := ContestCalcExpectedResultStr s;
     RADIO_contestNo := RADIO_contestNo s;
     RADIO_AppStatus := RADIO_AppStatus s;
     RADIO_Channel := v;
     RADIO_OutputPower := RADIO_OutputPower s;
     RADIO_isOn := RADIO_isOn s;
     RADIO_isSniffing := RADIO_isSniffing s;
     RADIO_TxPacket := RADIO_TxPacket s;
     RADIO_TxDataBuffer := RADIO_TxDataBuffer s;
     ackTxDataBuffer := ackTxDataBuffer s;
     RADIO_MsgQueue := RADIO_MsgQueue s;
     trace := trace s |}.

Definition set_OutputPower (v : Z) (s : Radio) : Radio :=
  {| RADIO_isContest := RADIO_isContest s;
     RADIO_isContestSender := RADIO_isContestSender s;
     ContestCalcExpectedResultStr := ContestCalcExpectedResultStr s;
     RADIO_contestNo := RADIO_contestNo s;
     RADIO_AppStatus := RADIO_AppStatus s;
     RADIO_Channel := RADIO_Channel s;
     RADIO_OutputPower := v;
     RADIO_isOn := RADIO_isOn s;
     RADIO_isSniffing := RADIO_isSniffing s;
     RADIO_TxPacket := RADIO_TxPacket s;
     RADIO_TxDataBuffer := RADIO_TxDataBuffer s;
     ackTxDataBuffer := ackTxDataBuffer s;
     RADIO_MsgQueue := RADIO_MsgQueue s;
     trace := trace s |}.

Definition set_isOn (v : bool) (s : Radio) : Radio :=
  {| RADIO_isContest := RADIO_isContest s;
     RADIO_isContestSender := RADIO_isContestSender s;
     ContestCalcExpectedResultStr := ContestCalcExpectedResultStr s;
     RADIO_contestNo := RADIO_contestNo s;
     RADIO_AppStatus := RADIO_AppStatus s;
     RADIO_Channel := RADIO_Channel s;
     RADIO_OutputPower := RADIO_OutputPower s;
     RADIO_isOn := v;
     RADIO_isSniffing := RADIO_isSniffing s;
     RADIO_TxPacket := RADIO_TxPacket s;
     RADIO_TxDataBuffer := RADIO_TxDataBuffer s;
     ackTxDataBuffer := ackTxDataBuffer s;
     RADIO_MsgQueue := RADIO_MsgQueue s;
     trace := trace s |}.

Definition set_isSniffing (v : bool) (s : Radio) : Radio :=
  {| RADIO_isContest := RADIO_isContest s;
     RADIO_isContestSender := RADIO_isContestSender s;
     ContestCalcExpectedResultStr := ContestCalcExpectedResultStr s;
     RADIO_contestNo := RADIO_contestNo s;
     RADIO_AppStatus := RADIO_AppStatus s;
     RADIO_Channel := RADIO_Channel s;
     RADIO_OutputPower := RADIO_OutputPower s;
     RADIO_isOn := RADIO_isOn s;
     RADIO_isSniffing := v;
     RADIO_TxPacket := RADIO_TxPacket s;
     RADIO_TxDataBuffer := RADIO_TxDataBuffer s;
     ackTxDataBuffer := ackTxDataBuffer s;
     RADIO_MsgQueue := RADIO_MsgQueue s;
     trace := trace s |}.

Definition set_TxPacket (v : tTxPacket) (s : Radio) : Radio :=
  {| RADIO_isContest := RADIO_isContest s;
     RADIO_isContestSender := RADIO_isContestSender s;
     ContestCalcExpectedResultStr := ContestCalcExpectedResultStr s;
     RADIO_contestNo := RADIO_contestNo s;
     RADIO_AppStatus := RADIO_AppStatus s;
     RADIO_Channel := RADIO_Channel s;
     RADIO_OutputPower := RADIO_OutputPower s;
     RADIO_isOn := RADIO_isOn s;
     RADIO_isSniffing := RADIO_isSniffing s;
     RADIO_TxPacket := v;
     RADIO_TxDataBuffer := RADIO_TxDataBuffer s;
     ackTxDataBuffer := ackTxDataBuffer s;
     RADIO_MsgQueue := RADIO_MsgQueue s;
     trace := trace s |}.

Definition set_TxDataBuffer (v : cstr) (s : Radio) : Radio :=
  {| RADIO_isContest := RADIO_isContest s;
     RADIO_isContestSender := RADIO_isContestSender s;
     ContestCalcExpectedResultStr := ContestCalcExpectedResultStr s;
     RADIO_contestNo := RADIO_contestNo s;
     RADIO_AppStatus := RADIO_AppStatus s;
     RADIO_Channel := RADIO_Channel s;
     RADIO_OutputPower := RADIO_OutputPower s;
     RADIO_isOn := RADIO_isOn s;
     RADIO_isSniffing := RADIO_isSniffing s;
     RADIO_TxPacket := RADIO_TxPacket s;
     RADIO_TxDataBuffer := v;
     ackTxDataBuffer := ackTxDataBuffer s;
     RADIO_MsgQueue := RADIO_MsgQueue s;
     trace := trace s |}.

Definition set_ackTxDataBuffer (v : cstr) (s : Radio) : Radio :=
  {| RADIO_isContest := RADIO_isContest s;
     RADIO_isContestSender := RADIO_isContestSender s;
     ContestCalcExpectedResultStr := ContestCalcExpectedResultStr s;
     RADIO_contestNo := RADIO_contestNo s;
     RADIO_AppStatus := RADIO_AppStatus s;
     RADIO_Channel := RADIO_Channel s;
     RADIO_OutputPower := RADIO_OutputPower s;
     RADIO_isOn := RADIO_isOn s;
     RADIO_isSniffing := RADIO_isSniffing s;
     RADIO_TxPacket := RADIO_TxPacket s;
     RADIO_TxDataBuffer := RADIO_TxDataBuffer s;
     ackTxDataBuffer := v;
     RADIO_MsgQueue := RADIO_MsgQueue s;
     trace := trace s |}.

Definition set_MsgQueue (v : list (list ascii)) (s : Radio) : Radio :=
  {| RADIO_isContest := RADIO_isContest s;
     RADIO_isContestSender := RADIO_isContestSender s;
     ContestCalcExpectedResultStr := ContestCalcExpectedResultStr s;
     RADIO_contestNo := RADIO_contestNo s;
     RADIO_AppStatus := RADIO_AppStatus s;
     RADIO_Channel := RADIO_Channel s;
     RADIO_OutputPower := RADIO_OutputPower s;
     RADIO_isOn := RADIO_isOn s;
     RADIO_isSniffing := RADIO_isSniffing s;
     RADIO_TxPacket := RADIO_TxPacket s;
     RADIO_TxDataBuffer := RADIO_TxDataBuffer s;
     ackTxDataBuffer := ackTxDataBuffer s;
     RADIO_MsgQueue := v;
     trace := trace s |}.

(** An external call, recorded at the end of the trace. *)
Definition call (c : Call) (s : Radio) : Radio :=
  {| RADIO_isContest := RADIO_isContest s;
     RADIO_isContestSender := RADIO_isContestSender s;
     ContestCalcExpectedResultStr := ContestCalcExpectedResultStr s;
     RADIO_contestNo := RADIO_contestNo s;
     RADIO_AppStatus := RADIO_AppStatus s;
     RADIO_Channel := RADIO_Channel s;
     RADIO_OutputPower := RADIO_OutputPower s;
     RADIO_isOn := RADIO_isOn s;
     RADIO_isSniffing := RADIO_isSniffing s;
     RADIO_TxPacket := RADIO_TxPacket s;
     RADIO_TxDataBuffer := RADIO_TxDataBuffer s;
     ackTxDataBuffer := ackTxDataBuffer s;
     RADIO_MsgQueue := RADIO_MsgQueue s;
     trace := trace s ++ [c] |}.

(** The text a transmit packet points to. *)
Definition tx_data (p : tTxPacket) (s : Radio) : cstr :=
  match tx_pu8Data p with
  | NULL => []
  | RADIO_TxDataBuffer_ => RADIO_TxDataBuffer s
  | ackTxDataBuffer_ => ackTxDataBuffer s
  end.

(** A request to the driver whose status the caller looks at. *)
Definition request (drv : Driver) (c : Call) (s : Radio) : SMAC1_Status * Radio :=
  let s' := call c s in (smac_answer drv (trace s'), s').

(** ** Results of code that can loop or go wrong *)

Inductive Res (A : Type) :=
| Ok (a : A)
| OutOfFuel
| DivisionByZero.
Arguments Ok {A} a.
Arguments OutOfFuel {A}.
Arguments DivisionByZero {A}.

Definition bind {A B : Type} (m : Res A) (k : A -> Res B) : Res B :=
  match m with
  | Ok a => k a
  | OutOfFuel => OutOfFuel
  | DivisionByZero => DivisionByZero
  end.

Notation "x <- m ;; k" := (bind m (fun x => k))
  (at level 61, m at next level, right associativity).

(** ** Radio.c *)

(** [RADIO_HandleState]: a simple state machine iterating through the
    transceiver states; one call is one step. *)
Definition RADIO_HandleState (pl : Platform) (drv : Driver) (s : Radio) : Radio :=
  match RADIO_AppStatus s with
  | RADIO_INITIAL_STATE =>
      set_AppStatus RADIO_RECEIVER_ALWAYS_ON s
  | RADIO_RECEIVER_ALWAYS_ON =>
      let s := set_AppStatus RADIO_READY_FOR_TX_RX_DATA s in
      call (SMAC1_MLMERXEnableRequest 0) s
  | RADIO_READY_FOR_TX_RX_DATA => s
  | RADIO_TRANSMIT_DATA =>
      let (st, s) := request drv SMAC1_MLMERXDisableRequest s in
      if negb (is_SUCCESS st) then
        set_AppStatus RADIO_TRANSMIT_DATA s
      else
        let s := call LED1_Neg s in
        let (st, s) :=
          request drv
            (SMAC1_MCPSDataRequest (RADIO_TxPacket s) (tx_data (RADIO_TxPacket s) s)) s in
        if is_SUCCESS st then
          let s :=
            if RADIO_isContest s
            then set_AppStatus RADIO_RECEIVER_ALWAYS_ON s
            else set_AppStatus RADIO_WAITING_FOR_ACK s in
          call (SMAC1_MLMERXEnableRequest RADIO_TIMEOUT_COUNT) s
        else
          set_AppStatus RADIO_RECEIVER_ALWAYS_ON s
  | RADIO_TRANSMIT_ACK =>
      let s :=
        set_ackTxDataBuffer
          (UTIL1.strcpy (SMAC1_RADIO_BUF_SIZE pl) (RADIO_PREFIX_STR ++ RADIO_ACK_STR)) s in
      let ackTxPacket :=
        {| tx_u8DataLength := uint8 (Z.of_nat (UTIL1.strlen (ackTxDataBuffer s)) + 1);
           tx_pu8Data := ackTxDataBuffer_ |} in
      let s := call (SMAC1_MCPSDataRequest ackTxPacket (tx_data ackTxPacket s)) s in
      set_AppStatus RADIO_RECEIVER_ALWAYS_ON s
  | RADIO_RESET_STATE =>
      let s := call SMAC1_RadioInit s in
      set_AppStatus RADIO_INITIAL_STATE s
  | RADIO_WAITING_FOR_ACK => s
  end.

(** Writing [buf[i] = v]; the guards of the source keep [i] inside the
    array. *)
Fixpoint store {A : Type} (i : nat) (v : A) (l : list A) : list A :=
  match l, i with
  | [], _ => []
  | _ :: t, O => v :: t
  | h :: t, S i' => h :: store i' v t
  end.

(** Modelled from the spec: the queue of FRTOS1 (FreeRTOS), which is not part
    of the sources: a FIFO of [RADIO_QUEUE_NOF_ITEMS] slots of
    [RADIO_QUEUE_ITEM_SIZE] bytes; sending to a full queue from the ISR fails
    at once, receiving with a zero block time fails at once on an empty
    queue. *)
Definition FRTOS1_xQueueSendToBackFromISR (q : list (list ascii)) (item : list ascii)
  : bool * list (list ascii) :=
  if (List.length q <? RADIO_QUEUE_NOF_ITEMS)%nat
  then (true, q ++ [firstn RADIO_QUEUE_ITEM_SIZE item])
  else (false, q).

Definition FRTOS1_xQueueReceive (q : list (list ascii))
  : option (list ascii * list (list ascii)) :=
  match q with
  | [] => None
  | item :: rest => Some (item, rest)
  end.

(** The copy loop of [QueueMessage]:
    [while(msgSize>0 && i<sizeof(buf)) { buf[i++] = *msg; msg++; msgSize--; }].
    The result is the array and the final [i]. *)
Fixpoint QueueMessage_loop (fuel : nat) (buf : list ascii) (i : nat)
    (msg : list ascii) (msgSize : Z) : list ascii * nat :=
  match fuel with
  | O => (buf, i)
  | S fuel' =>
      if (0 <? msgSize) && (i <? RADIO_QUEUE_ITEM_SIZE)%nat then
        QueueMessage_loop fuel' (store i (peek msg) buf) (S i) (next msg) (msgSize - 1)
      else (buf, i)
  end.

(** The slot [QueueMessage] builds in its local array [buf], whose cells hold
    [stack] on entry; the format is kind(8bit) dataSize(8bit) data. *)
Definition QueueMessage_buf (stack : Stack) (kind : RADIO_QueueMsgKind)
    (msg : list ascii) (msgSize : Z) : list ascii * nat :=
  let buf := map stack (seq 0 RADIO_QUEUE_ITEM_SIZE) in
  let buf := store 0 (chr (kind_value kind)) buf in
  let buf := store 1 (chr msgSize) buf in
  QueueMessage_loop RADIO_QUEUE_ITEM_SIZE buf 2 msg (uint8 msgSize).

Definition QueueMessage (stack : Stack) (kind : RADIO_QueueMsgKind)
    (msg : list ascii) (msgSize : Z) (s : Radio) : Radio :=
  let buf := fst (QueueMessage_buf stack kind msg msgSize) in
  let (sent, q) := FRTOS1_xQueueSendToBackFromISR (RADIO_MsgQueue s) buf in
  if sent then set_MsgQueue q s
  else s (* was not able to send to the queue *).

(** What [IsContestMessage] stores through its pointers when it returns
    [TRUE]; [None] is [FALSE]. *)
Record ContestMessage := {
  isQuestion : bool;
  ap : Z;
  bp : Z;
  op : ascii
}.

Definition is_base_operation (c : ascii) : bool :=
  Ascii.eqb c "+" || Ascii.eqb c "-" || Ascii.eqb c "*" || Ascii.eqb c "/".

(** [IsContestMessage]: must be of format "number op number = ?" or
    "number op number = number". *)
Definition IsContestMessage (msg : cstr) : option ContestMessage :=
  match UTIL1.xatoi msg with
  | None => None
  | Some (val, p) =>
      let a := int8 val in
      let p := UTIL1.skip_spaces p in
      if negb (is_base_operation (peek p)) then None
      else
        let o := peek p in
        let p := next p in
        match UTIL1.xatoi p with
        | None => None
        | Some (val, p) =>
            let b := int8 val in
            let p := UTIL1.skip_spaces p in
            if negb (Ascii.eqb (peek p) "=") then None
            else
              let p := next p in
              let p := UTIL1.skip_spaces p in
              if Ascii.eqb (peek p) "?" then
                Some {| isQuestion := true; ap := a; bp := b; op := o |}
              else
                match UTIL1.xatoi p with
                | None => None
                | Some _ =>
                    Some {| isQuestion := false; ap := a; bp := b; op := o |}
                end
        end
  end.

Definition RADIO_PREFIX_ACK_STR : cstr := RADIO_PREFIX_STR ++ RADIO_ACK_STR.

(** [RADIO_DataIndicationPacket]: the callback of the driver on a completed
    receive.  [stack k] is what the local array of the [QueueMessage] call for
    kind [k] holds on entry. *)
Definition RADIO_DataIndicationPacket (pl : Platform)
    (stack : RADIO_QueueMsgKind -> Stack) (sRxPacket : tRxPacket) (s : Radio) : Radio :=
  let data := pu8Data sRxPacket in
  let len := u8DataLength sRxPacket in
  match u8Status sRxPacket with
  | SMAC1_TIMEOUT =>
      let s := call LED1_Neg s in
      let s := call LED2_Neg s in
      call (EVNT_SetEvent EVNT_RADIO_TIMEOUT) s
  | SMAC1_SUCCESS =>
      let s :=
        if RADIO_isSniffing s
        then QueueMessage (stack RADIO_QUEUE_MSG_SNIFF) RADIO_QUEUE_MSG_SNIFF data len s
        else s in
      let waiting :=
        match RADIO_AppStatus s with RADIO_WAITING_FOR_ACK => true | _ => false end in
      if waiting
         && (UTIL1.strncmp (cstring data) RADIO_PREFIX_ACK_STR
               (List.length RADIO_PREFIX_ACK_STR) =? 0)
      then call (EVNT_SetEvent EVNT_RADIO_ACK) s
      else
        match (if RADIO_isContest s then IsContestMessage (cstring data) else None) with
        | Some m =>
            let s :=
              if isQuestion m
              then QueueMessage (stack RADIO_QUEUE_MSG_CONTEST_QUESTION)
                     RADIO_QUEUE_MSG_CONTEST_QUESTION data len s
              else QueueMessage (stack RADIO_QUEUE_MSG_CONTEST_ANSWER)
                     RADIO_QUEUE_MSG_CONTEST_ANSWER data len s in
            call (EVNT_SetEvent EVNT_RADIO_DATA) s
        | None =>
            if UTIL1.strncmp (cstring data) RADIO_PREFIX_STR
                 (List.length RADIO_PREFIX_STR) =? 0
            then
              let s :=
                if PL_HAS_REMOTE pl && PL_HAS_MOTOR pl then
                  if UTIL1.strncmp (cstring data)
                       (RADIO_PREFIX_STR ++ REMOTE_ACCEL_PREFIX pl)
                       (List.length (RADIO_PREFIX_STR ++ REMOTE_ACCEL_PREFIX pl)) =? 0
                  then QueueMessage (stack RADIO_QUEUE_MSG_ACCEL)
                         RADIO_QUEUE_MSG_ACCEL data len s
                  else s
                else s in
              call (EVNT_SetEvent EVNT_RADIO_DATA) s
            else call (EVNT_SetEvent EVNT_RADIO_UNKNOWN) s
        end
  | SMAC1_OVERFLOW =>
      let s := call (EVNT_SetEvent EVNT_RADIO_OVERFLOW) s in
      let s := call LED1_Neg s in
      call LED2_Neg s
  | _ => s
  end.

Definition RADIO_ResetIndication (s : Radio) : Radio :=
  call (EVNT_SetEvent EVNT_RADIO_RESET) s.

Definition RADIO_AppHandleEvent (event : EVNT_Handle) (s : Radio) : Radio :=
  match event with
  | EVNT_RADIO_RESET =>
      let s := call (SHELL_SendMessage (lit "RADIO reset" ++ CRLF)) s in
      set_AppStatus RADIO_RESET_STATE s
  | EVNT_RADIO_TIMEOUT =>
      let s := call (SHELL_SendMessage (lit "RADIO timeout" ++ CRLF)) s in
      set_AppStatus RADIO_RECEIVER_ALWAYS_ON s
  | EVNT_RADIO_ACK =>
      let s := call (SHELL_SendMessage (lit "RADIO rx ack" ++ CRLF)) s in
      set_AppStatus RADIO_RECEIVER_ALWAYS_ON s
  | EVNT_RADIO_OVERFLOW =>
      let s := call (SHELL_SendMessage (lit "RADIO overflow" ++ CRLF)) s in
      set_AppStatus RADIO_RECEIVER_ALWAYS_ON s
  | EVNT_RADIO_DATA =>
      let s := call (SHELL_SendMessage (lit "RADIO rx data, going to tx ACK" ++ CRLF)) s in
      set_AppStatus RADIO_TRANSMIT_ACK s
  | EVNT_RADIO_UNKNOWN =>
      let s := call (SHELL_SendMessage (lit "RADIO unknown" ++ CRLF)) s in
      set_AppStatus RADIO_RECEIVER_ALWAYS_ON s
  | EVNT_OTHER => s
  end.

Definition TRAILER : cstr := lit " Joe TheBest!".

(** [CalcResultString]: the text left in [buf]; the operands are [int8_t], and
    what is computed from them is converted to [signed char] where it is
    passed on. *)
Definition CalcResultString (bufSize : nat) (opA opB : Z) (op : ascii) : Res cstr :=
  let buf := UTIL1.Num8sToStr bufSize opA in
  let buf := UTIL1.chcat buf bufSize " " in
  let buf := UTIL1.chcat buf bufSize op in
  let buf := UTIL1.chcat buf bufSize " " in
  let buf := UTIL1.strcatNum8s buf bufSize opB in
  let buf := UTIL1.strcat buf bufSize (lit " = ") in
  buf <-
    (if Ascii.eqb op "+" then Ok (UTIL1.strcatNum8s buf bufSize (opA + opB))
     else if Ascii.eqb op "-" then Ok (UTIL1.strcatNum8s buf bufSize (opA - opB))
     else if Ascii.eqb op "*" then Ok (UTIL1.strcatNum8s buf bufSize (opA * opB))
     else if Ascii.eqb op "/" then
       if negb (opB =? 0) then
         match c_div opA opB with
         | Some q => Ok (UTIL1.strcatNum8s buf bufSize q)
         | None => DivisionByZero
         end
       else Ok (UTIL1.strcat buf bufSize (lit "ERROR"))
     else Ok buf) ;;
  Ok (UTIL1.strcat buf bufSize TRAILER).

(** [while (RADIO_AppStatus != RADIO_READY_FOR_TX_RX_DATA) RADIO_HandleState();]
    the busy loop of the send operations; [fuel] bounds its iterations. *)
Fixpoint drain (pl : Platform) (drv : Driver) (fuel : nat) (s : Radio) : Res Radio :=
  match RADIO_AppStatus s with
  | RADIO_READY_FOR_TX_RX_DATA => Ok s
  | _ =>
      match fuel with
      | O => OutOfFuel
      | S fuel' => drain pl drv fuel' (RADIO_HandleState pl drv s)
      end
  end.

(** [RADIO_SendString]: sends a data packet through the radio. *)
Definition RADIO_SendString (pl : Platform) (drv : Driver) (fuel : nat)
    (data : cstr) (s : Radio) : Res Radio :=
  if negb (RADIO_isOn s) then Ok s
  else
    s <- drain pl drv fuel s ;;
    let buf := UTIL1.strcpy (SMAC1_RADIO_BUF_SIZE pl) RADIO_PREFIX_STR in
    let buf := UTIL1.strcat buf (SMAC1_RADIO_BUF_SIZE pl) data in
    let s := set_TxDataBuffer buf s in
    let s :=
      set_TxPacket
        {| tx_u8DataLength := uint8 (Z.of_nat (UTIL1.strlen (RADIO_TxDataBuffer s)) + 1);
           tx_pu8Data := RADIO_TxDataBuffer_ |} s in
    let s := set_AppStatus RADIO_TRANSMIT_DATA s in
    Ok (RADIO_HandleState pl drv s).

Definition RADIO_SendStringRaw (pl : Platform) (drv : Driver) (fuel : nat)
    (data : cstr) (s : Radio) : Res Radio :=
  if negb (RADIO_isOn s) then Ok s
  else
    s <- drain pl drv fuel s ;;
    let buf := UTIL1.strcpy (SMAC1_RADIO_BUF_SIZE pl) data in
    let s := set_TxDataBuffer buf s in
    let s :=
      set_TxPacket
        {| tx_u8DataLength := uint8 (Z.of_nat (UTIL1.strlen (RADIO_TxDataBuffer s)) + 1);
           tx_pu8Data := RADIO_TxDataBuffer_ |} s in
    let s := set_AppStatus RADIO_TRANSMIT_DATA s in
    Ok (RADIO_HandleState pl drv s).

Definition RespondWithAnswer (pl : Platform) (drv : Driver) (fuel : nat)
    (msg : cstr) (s : Radio) : Res Radio :=
  match IsContestMessage msg with
  | Some m =>
      if isQuestion m then
        buf <- CalcResultString 36 (ap m) (bp m) (op m) ;;
        let s := call (CLS1_SendStr (lit "Contest answer: ") Stdio_stdOut) s in
        let s := call (CLS1_SendStr buf Stdio_stdOut) s in
        let s := call (CLS1_SendStr CRLF Stdio_stdOut) s in
        RADIO_SendStringRaw pl drv fuel buf s
      else Ok s
  | None => Ok s
  end.

(** [RADIO_SetChannel], [RADIO_SetOutputPower]: the value remains in the range
    0..15. *)
Definition RADIO_SetChannel (ch : Z) (s : Radio) : Radio :=
  let s := set_Channel (Z.land ch 15) s in
  call (SMAC1_MLMESetChannelRequest (RADIO_Channel s)) s.

Definition RADIO_SetOutputPower (power : Z) (s : Radio) : Radio :=
  let s := set_OutputPower (Z.land power 15) s in
  call (SMAC1_MLMEMC13192PAOutputAdjust (RADIO_OutputPower s)) s.

Definition RADIO_PrintHelp (s : Radio) : Radio :=
  let s := call (CLS1_SendHelpStr (lit "radio") (lit "Group of radio commands" ++ CRLF) io_stdOut) s in
  let s := call (CLS1_SendHelpStr (lit "  help|status") (lit "Shows radio help or status" ++ CRLF) io_stdOut) s in
  let s := call (CLS1_SendHelpStr (lit "  on|off") (lit "Turns the radio on or off" ++ CRLF) io_stdOut) s in
  let s := call (CLS1_SendHelpStr (lit "  sniff on|off") (lit "Turns packet sniffing on or off" ++ CRLF) io_stdOut) s in
  let s := call (CLS1_SendHelpStr (lit "  channel <number>") (lit "Switches to the given channel. Channel must be in the range 0..15" ++ CRLF) io_stdOut) s in
  let s := call (CLS1_SendHelpStr (lit "  power <number>") (lit "Changes the output power. Power must be in the range 0..15" ++ CRLF) io_stdOut) s in
  let s := call (CLS1_SendHelpStr (lit "  send <string>") (lit "Send a string using the wireless transceiver" ++ CRLF) io_stdOut) s in
  let s := call (CLS1_SendHelpStr (lit "  challenge a op b = ?") (lit "Send a contest using the wireless transceiver" ++ CRLF) io_stdOut) s in
  call (CLS1_SendHelpStr (lit "  contest on|off|<nr>") (lit "Turns the radio contest on or off or specifies contest number" ++ CRLF) io_stdOut) s.

Definition on_off (b : bool) : cstr :=
  if b then lit "on" ++ CRLF else lit "off" ++ CRLF.

Definition RADIO_PrintStatus (drv : Driver) (s : Radio) : Radio :=
  let s := call (CLS1_SendStatusStr (lit "Radio") CRLF io_stdOut) s in
  let s := call (CLS1_SendStatusStr (lit "  transceiver") (on_off (RADIO_isOn s)) io_stdOut) s in
  let s := call (CLS1_SendStatusStr (lit "  sniffing") (on_off (RADIO_isSniffing s)) io_stdOut) s in
  let s := call SMAC1_MLMELinkQuality s in
  let link_quality := uint8 (link_quality drv (trace s)) in
  let dBm := - (link_quality / 2) in
  let s := call (CLS1_SendStatusStr (lit "  LQ") [] io_stdOut) s in
  let s := call (CLS1_SendNum16s dBm io_stdOut) s in
  let s := call (CLS1_SendStr (lit " dBm" ++ CRLF) io_stdOut) s in
  let s := call (CLS1_SendStatusStr (lit "  channel") [] io_stdOut) s in
  let s := call (CLS1_SendNum16u (RADIO_Channel s) io_stdOut) s in
  let s := call (CLS1_SendStr CRLF io_stdOut) s in
  let s := call (CLS1_SendStatusStr (lit "  outputPower") [] io_stdOut) s in
  let s := call (CLS1_SendNum16u (RADIO_OutputPower s) io_stdOut) s in
  let s := call (CLS1_SendStr CRLF io_stdOut) s in
  let s := call (CLS1_SendStatusStr (lit "  PAIND") RADIO_PREFIX_STR io_stdOut) s in
  let s := call (CLS1_SendStr CRLF io_stdOut) s in
  let s := call (CLS1_SendStatusStr (lit "  ACK") RADIO_ACK_STR io_stdOut) s in
  let s := call (CLS1_SendStr CRLF io_stdOut) s in
  let s :=
    call (CLS1_SendStatusStr (lit "  contest")
            (if RADIO_isContest s then lit "yes, #:" else lit "no, #:") io_stdOut) s in
  let s := call (CLS1_SendNum8u (RADIO_contestNo s) io_stdOut) s in
  call (CLS1_SendStr CRLF io_stdOut) s.

Inductive ErrCode := ERR_OK | ERR_FAILED.

Definition str_eq (a b : cstr) : bool := UTIL1.strcmp a b =? 0.

Definition has_prefix (cmd : cstr) (prefix : string) : bool :=
  UTIL1.strncmp cmd (lit prefix) (List.length (lit prefix)) =? 0.

(** [cmd + sizeof(prefix)]: one character more than the prefix is skipped,
    the separator behind the keyword.  For a command that ends with the
    keyword that character is the terminator, and the pointer is behind the
    text, in the memory that follows it: a [cmd] that is to show what is read
    there holds the terminator as a [NUL] cell, followed by the cells behind
    it. *)
Definition after_sizeof (cmd : cstr) (prefix : string) : cstr :=
  skipn (List.length (lit prefix) + 1) cmd.

(** [RADIO_ParseCommand]: the result is the error code, [*handled] and the
    state; [handled] is [*handled] on entry. *)
Definition RADIO_ParseCommand (pl : Platform) (drv : Driver) (fuel : nat)
    (cmd : cstr) (handled : bool) (s : Radio) : Res (ErrCode * bool * Radio) :=
  if str_eq cmd (CLS1_CMD_HELP pl) || str_eq cmd (lit "radio help") then
    Ok (ERR_OK, true, RADIO_PrintHelp s)
  else if str_eq cmd (CLS1_CMD_STATUS pl) || str_eq cmd (lit "radio status") then
    Ok (ERR_OK, true, RADIO_PrintStatus drv s)
  else if str_eq cmd (lit "radio on") then
    Ok (ERR_OK, true, set_isOn true s)
  else if str_eq cmd (lit "radio off") then
    Ok (ERR_OK, true, set_isOn false s)
  else if str_eq cmd (lit "radio sniff on") then
    Ok (ERR_OK, true, set_isSniffing true s)
  else if str_eq cmd (lit "radio sniff off") then
    Ok (ERR_OK, true, set_isSniffing false s)
  else if str_eq cmd (lit "radio contest on") then
    Ok (ERR_OK, true, set_isContest true s)
  else if str_eq cmd (lit "radio contest off") then
    Ok (ERR_OK, true, set_isContest false s)
  else if has_prefix cmd "radio contest " then
    let p := skipn (List.length (lit "radio contest ")) cmd in
    Ok (ERR_OK, true, set_contestNo (uint8 (code (peek p) - 48)) s)
  else if has_prefix cmd "radio challenge" then
    let p := after_sizeof cmd "radio challenge" in
    match IsContestMessage p with
    | Some m =>
        let buf := UTIL1.Num8sToStr 16 (ap m) in
        let buf := UTIL1.chcat buf 16 " " in
        let buf := UTIL1.chcat buf 16 (op m) in
        let buf := UTIL1.chcat buf 16 " " in
        let buf := UTIL1.strcatNum8s buf 16 (bp m) in
        let buf := UTIL1.strcat buf 16 (lit " = ?") in
        s <- RADIO_SendStringRaw pl drv fuel buf s ;;
        expected <- CalcResultString 16 (ap m) (bp m) (op m) ;;
        Ok (ERR_OK, true, set_ExpectedResultStr expected s)
    | None => Ok (ERR_OK, true, s)
    end
  else if has_prefix cmd "radio channel" then
    let p := after_sizeof cmd "radio channel" in
    match UTIL1.xatoi p with
    | Some (val, _) =>
        if (0 <=? val) && (val <=? 15)
        then Ok (ERR_OK, true, RADIO_SetChannel (uint8 val) s)
        else
          Ok (ERR_FAILED, handled,
              call (CLS1_SendStr (lit "Wrong argument, must be in the range 0..15" ++ CRLF) io_stdErr) s)
    | None =>
        Ok (ERR_FAILED, handled,
            call (CLS1_SendStr (lit "Wrong argument, must be in the range 0..15" ++ CRLF) io_stdErr) s)
    end
  else if has_prefix cmd "radio power" then
    let p := after_sizeof cmd "radio power" in
    match UTIL1.xatoi p with
    | Some (val, _) =>
        if (0 <=? val) && (val <=? 15)
        then Ok (ERR_OK, true, RADIO_SetOutputPower (uint8 val) s)
        else
          Ok (ERR_FAILED, handled,
              call (CLS1_SendStr (lit "Wrong argument, must be in the range 0..15" ++ CRLF) io_stdErr) s)
    | None =>
        Ok (ERR_FAILED, handled,
            call (CLS1_SendStr (lit "Wrong argument, must be in the range 0..15" ++ CRLF) io_stdErr) s)
    end
  else if has_prefix cmd "radio send" then
    let p := after_sizeof cmd "radio send" in
    s <- RADIO_SendString pl drv fuel p s ;;
    Ok (ERR_OK, true, s)
  else Ok (ERR_OK, handled, s).

(** A load through a pointer: the index that is read and the byte the load
    gives. *)
Definition Load : Type := (nat * ascii)%type.

(** [msg[i]]: the byte at index [i] from the pointer [msg], and the loads made
    so far with this one added. *)
Definition load (msg : list ascii) (i : nat) (loads : list Load) : ascii * list Load :=
  (nth i msg NUL, loads ++ [(i, nth i msg NUL)]).

(** The two dump loops of the sniff branch of [RADIO_HandleMessage].  A loop
    state is the text in [buf] and the loads made through [msg] so far; the
    byte an iteration appends is the one its load gives. *)
Definition ascii_step (msg : list ascii) (st : cstr * list Load) (i : nat)
  : cstr * list Load :=
  let (c, loads) := load msg i (snd st) in
  (UTIL1.chcat (fst st) 32 c, loads).

(** [for(i=0;i<size && i<sizeof(buf);i++)] *)
Definition sniff_ascii_dump (msg : list ascii) (size : Z) : cstr * list Load :=
  fold_left (ascii_step msg) (seq 0 (Z.to_nat (Z.min size 32))) ([], []).

Definition hex_step (msg : list ascii) (st : cstr * list Load) (i : nat)
  : cstr * list Load :=
  let (c, loads) := load msg i (snd st) in
  let buf := UTIL1.strcatNum8Hex (fst st) 32 (code c) in
  (UTIL1.strcat buf 32 (lit " "), loads).

(** [for(i=0; i<size;i++)] *)
Definition sniff_hex_dump (msg : list ascii) (size : Z) : cstr * list Load :=
  fold_left (hex_step msg) (seq 0 (Z.to_nat size))
    (UTIL1.strcat [] 32 (lit " hex: "), []).

(** [RADIO_HandleMessage]: [msg] is the memory at the pointer the function is
    called with: the 32 byte copy of the slot, followed by whatever lies
    behind it. *)
Definition RADIO_HandleMessage (pl : Platform) (drv : Driver) (fuel : nat)
    (msg : list ascii) (s : Radio) : Res Radio :=
  let kind := code (peek msg) in
  let size := code (peek (next msg)) in
  let msg := next (next msg) in
  if RADIO_isSniffing s && (kind =? kind_value RADIO_QUEUE_MSG_SNIFF) then
    let buf := UTIL1.strcpy 32 (CRLF ++ lit "ch #:") in
    let buf := UTIL1.strcatNum16s buf 32 (RADIO_Channel s) in
    let buf := UTIL1.strcat buf 32 (lit " size:") in
    let buf := UTIL1.strcatNum16s buf 32 size in
    let buf := UTIL1.strcat buf 32 (lit " ASCII: ") in
    let s := call (SHELL_SendMessage buf) s in
    let s := call (SHELL_SendMessage (fst (sniff_ascii_dump msg size))) s in
    let s := call (SHELL_SendMessage (fst (sniff_hex_dump msg size))) s in
    Ok (call (SHELL_SendMessage CRLF) s)
  else if kind =? kind_value RADIO_QUEUE_MSG_CONTEST_QUESTION then
    let s := call (CLS1_SendStr (CRLF ++ lit "Contest question: ") Stdio_stdOut) s in
    let s := call (CLS1_SendStr (cstring msg) Stdio_stdOut) s in
    let s := call (CLS1_SendStr CRLF Stdio_stdOut) s in
    RespondWithAnswer pl drv fuel (cstring msg) s
  else if kind =? kind_value RADIO_QUEUE_MSG_CONTEST_ANSWER then
    if negb (UTIL1.strncmp (cstring msg) (ContestCalcExpectedResultStr s)
               (UTIL1.strlen (ContestCalcExpectedResultStr s)) =? 0)
    then
      let s := call (CLS1_SendStr (CRLF ++ lit "****FOUND A WINNER!!!!!!" ++ CRLF) Stdio_stdOut) s in
      let s := call (CLS1_SendStr (cstring msg) Stdio_stdOut) s in
      Ok (call (CLS1_SendStr CRLF Stdio_stdOut) s)
    else Ok s
  else if PL_HAS_REMOTE pl && PL_HAS_MOTOR pl
          && (kind =? kind_value RADIO_QUEUE_MSG_ACCEL) then
    Ok (call (REMOTE_ParseMsg
                (cstring (skipn (List.length RADIO_PREFIX_STR) msg))
                (size - (Z.of_nat (List.length RADIO_PREFIX_STR) + 1) - 1)) s)
  else Ok s.

(** [RADIO_Handle]: the radio application state machine, polled by the task.
    [after] is the memory behind the local array the slot is copied to. *)
Definition RADIO_Handle (pl : Platform) (drv : Driver) (fuel : nat)
    (after : list ascii) (s : Radio) : Res Radio :=
  let s := if RADIO_isOn s then RADIO_HandleState pl drv s else s in
  match FRTOS1_xQueueReceive (RADIO_MsgQueue s) with
  | Some (buf, q) =>
      RADIO_HandleMessage pl drv fuel (buf ++ after) (set_MsgQueue q s)
  | None => Ok s
  end.

(** ** Inputs at which the code is run, and notions used in the statements *)

Definition SRB_platform : Platform := {|
  PL_HAS_REMOTE := true;
  PL_HAS_MOTOR := false;
  REMOTE_ACCEL_PREFIX := lit "xyz";
  SMAC1_RADIO_BUF_SIZE := 125;
  CLS1_CMD_HELP := lit "help";
  CLS1_CMD_STATUS := lit "status"
|}.

(** A driver that accepts every request. *)
Definition willing_driver : Driver := {|
  smac_answer := fun _ => SMAC1_SUCCESS;
  link_quality := fun _ => 0
|}.

(** A driver that refuses to leave the receive mode. *)
Definition rx_stuck_driver : Driver := {|
  smac_answer := fun t =>
    match last t LED1_Neg with
    | SMAC1_MLMERXDisableRequest => SMAC1_ERROR
    | _ => SMAC1_SUCCESS
    end;
  link_quality := fun _ => 0
|}.

(** A driver that refuses to transmit. *)
Definition tx_failing_driver : Driver := {|
  smac_answer := fun t =>
    match last t LED1_Neg with
    | SMAC1_MCPSDataRequest _ _ => SMAC1_ERROR
    | _ => SMAC1_SUCCESS
    end;
  link_quality := fun _ => 0
|}.

Definition blank_stack : Stack := fun _ => "."%char.

Definition transmitting (contest : bool) : Radio :=
  set_isContest contest (set_AppStatus RADIO_TRANSMIT_DATA Radio_static).

Definition timeout_packet : tRxPacket :=
  {| u8Status := SMAC1_TIMEOUT; u8DataLength := 0; pu8Data := [] |}.

Definition waiting_for_ack : Radio :=
  set_TxDataBuffer (lit "ESThello")
    (set_TxPacket {| tx_u8DataLength := 9; tx_pu8Data := RADIO_TxDataBuffer_ |}
       (set_AppStatus RADIO_WAITING_FOR_ACK Radio_static)).

Definition radio_off : Radio :=
  set_isOn false (set_AppStatus RADIO_WAITING_FOR_ACK Radio_static).

(** The event a Success completion raises, read off the classification
    chain. *)
Definition success_event (s : Radio) (payload : cstr) : EVNT_Handle :=
  if match RADIO_AppStatus s with RADIO_WAITING_FOR_ACK => true | _ => false end
     && (UTIL1.strncmp payload RADIO_PREFIX_ACK_STR (List.length RADIO_PREFIX_ACK_STR) =? 0)
  then EVNT_RADIO_ACK
  else
    match (if RADIO_isContest s then IsContestMessage payload else None) with
    | Some _ => EVNT_RADIO_DATA
    | None =>
        if UTIL1.strncmp payload RADIO_PREFIX_STR (List.length RADIO_PREFIX_STR) =? 0
        then EVNT_RADIO_DATA
        else EVNT_RADIO_UNKNOWN
    end.

Definition ack_packet : tRxPacket :=
  {| u8Status := SMAC1_SUCCESS; u8DataLength := 7;
     pu8Data := lit "ESTack" ++ [NUL] |}.

Definition forty_bytes : list ascii :=
  lit "0123456789012345678901234567890123456789".

Definition full_queue : Radio :=
  set_MsgQueue (repeat (repeat NUL RADIO_QUEUE_ITEM_SIZE) RADIO_QUEUE_NOF_ITEMS)
    Radio_static.

(** The answer as the frame format has it: ["<a> <op> <b> = <result>"], with
    [ERROR] for the result of a division by zero. *)
Definition result_text (a b : Z) (op : ascii) : cstr :=
  if Ascii.eqb op "+" then UTIL1.sdec (int8 (a + b))
  else if Ascii.eqb op "-" then UTIL1.sdec (int8 (a - b))
  else if Ascii.eqb op "*" then UTIL1.sdec (int8 (a * b))
  else if Ascii.eqb op "/" then
    if b =? 0 then lit "ERROR" else UTIL1.sdec (int8 (Z.quot a b))
  else [].

Definition answer_text (a b : Z) (op : ascii) : cstr :=
  UTIL1.sdec a ++ lit " " ++ (if is_NUL op then [] else [op]) ++ lit " "
    ++ UTIL1.sdec b ++ lit " = " ++ result_text a b op.

Definition WINNER : cstr := CRLF ++ lit "****FOUND A WINNER!!!!!!" ++ CRLF.

(** The state after the command "radio challenge 3 + 4 = ?", given with
    contest mode on to a driver that accepts every request. *)
Definition challenged : Radio :=
  match RADIO_ParseCommand SRB_platform willing_driver 2
          (lit "radio challenge 3 + 4 = ?") false (set_isContest true Radio_static) with
  | Ok (_, _, s) => s
  | _ => Radio_static
  end.

Definition right_answer : list ascii := lit "3 + 4 = 7 Joe TheBest!" ++ [NUL].
Definition wrong_answer : list ascii := lit "3 + 4 = 8 Joe TheBest!" ++ [NUL].

Definition answer_packet (data : list ascii) : tRxPacket :=
  {| u8Status := SMAC1_SUCCESS; u8DataLength := 23; pu8Data := data |}.

(** The slot the callback queues for an answer frame. *)
Definition answer_slot (data : list ascii) : list ascii :=
  fst (QueueMessage_buf blank_stack RADIO_QUEUE_MSG_CONTEST_ANSWER data 23).

(** ** Notions used in the further statements *)

(** Everything of the state but the radio state, the two transmit buffers,
    the transmit packet, the queue and the trace: the flags and settings. *)
Definition settings (s : Radio) : bool * bool * bool * bool * cstr * Z * Z * Z :=
  (RADIO_isOn s, RADIO_isSniffing s, RADIO_isContest s, RADIO_isContestSender s,
   ContestCalcExpectedResultStr s, RADIO_contestNo s, RADIO_Channel s,
   RADIO_OutputPower s).

(** A driver that accepts the two requests of a transmission. *)
Definition accepts_transmission (drv : Driver) (s : Radio) (packet : tTxPacket)
    (data : cstr) : Prop :=
  smac_answer drv (trace s ++ [SMAC1_MLMERXDisableRequest]) = SMAC1_SUCCESS /\
  smac_answer drv (trace s ++ [SMAC1_MLMERXDisableRequest; LED1_Neg;
                               SMAC1_MCPSDataRequest packet data]) = SMAC1_SUCCESS.

Definition ready : Radio := set_AppStatus RADIO_READY_FOR_TX_RX_DATA Radio_static.

(** What the receive callback and the queue operations leave alone: all of
    the state but the queue and the trace. *)
Definition unchanged_but_queue_and_trace (s s' : Radio) : Prop :=
  settings s' = settings s /\
  RADIO_AppStatus s' = RADIO_AppStatus s /\
  RADIO_TxDataBuffer s' = RADIO_TxDataBuffer s /\
  RADIO_TxPacket s' = RADIO_TxPacket s /\
  ackTxDataBuffer s' = ackTxDataBuffer s.

(** The queue as it was created: at most [RADIO_QUEUE_NOF_ITEMS] slots of
    [RADIO_QUEUE_ITEM_SIZE] bytes. *)
Definition queue_ok (s : Radio) : Prop :=
  (List.length (RADIO_MsgQueue s) <= RADIO_QUEUE_NOF_ITEMS)%nat /\
  Forall (fun slot => List.length slot = RADIO_QUEUE_ITEM_SIZE) (RADIO_MsgQueue s).

(** A received packet holding [text], its terminator and whatever the
    receive buffer holds behind it. *)
Definition received (text : cstr) (len : Z) (behind : list ascii) : tRxPacket :=
  {| u8Status := SMAC1_SUCCESS; u8DataLength := len;
     pu8Data := text ++ NUL :: behind |}.

(** The challenge as the frame format has it: ["<a> <op> <b> = ?"]. *)
Definition question_text (a b : Z) (op : ascii) : cstr :=
  UTIL1.sdec a ++ lit " " ++ [op] ++ lit " " ++ UTIL1.sdec b ++ lit " = ?".

(** The values of [int8_t]. *)
Definition int8_values : list Z := map (fun k => Z.of_nat k - 128) (seq 0 256).

Definition no_NUL (text : cstr) : Prop := Forall (fun c => is_NUL c = false) text.

(** The bytes [msg[0]], ..., [msg[n-1]] the dump loops load. *)
Definition loaded (msg : list ascii) (n : nat) : list ascii :=
  map (fun i => nth i msg NUL) (seq 0 n).

(** A byte as the hex dump shows it: two digits and a blank. *)
Definition hex_byte (c : ascii) : cstr :=
  [UTIL1.digit (uint8 (code c) / 16); UTIL1.digit (uint8 (code c) mod 16); " "%char].

Definition WRONG_ARGUMENT : cstr :=
  lit "Wrong argument, must be in the range 0..15" ++ CRLF.

(** ** Inputs and notions of the statements on the sniff dump and the queue *)



(** A radio with sniffing and contest mode on and [n] slots in its queue. *)
Definition queued (n : nat) : Radio :=
  set_isSniffing true
    (set_isContest true
       (set_MsgQueue (repeat (repeat NUL RADIO_QUEUE_ITEM_SIZE) n) Radio_static)).

(** A contest question as the driver hands it to the callback. *)
Definition question_packet : tRxPacket :=
  {| u8Status := SMAC1_SUCCESS; u8DataLength := 10;
     pu8Data := lit "3 + 4 = ?" ++ [NUL] |}.

(** ** Proof steps used more than once *)

(** Reading the fields of a state built by the setters. *)
Ltac fields :=
  cbn [RADIO_isContest RADIO_isContestSender ContestCalcExpectedResultStr
       RADIO_contestNo RADIO_AppStatus RADIO_Channel RADIO_OutputPower RADIO_isOn
       RADIO_isSniffing RADIO_TxPacket RADIO_TxDataBuffer ackTxDataBuffer
       RADIO_MsgQueue trace call set_isContest set_ExpectedResultStr set_contestNo
       set_AppStatus set_Channel set_OutputPower set_isOn set_isSniffing
       set_TxPacket set_TxDataBuffer set_ackTxDataBuffer set_MsgQueue] in *.

(** Flattening a text made of numbers and literal pieces, so that every
    number is followed by the next literal character. *)
Ltac flatten_text :=
  unfold lit; cbn [list_ascii_of_string]; rewrite <- ?app_assoc; cbn [app].

Ltac contest_steps :=
  cbn [UTIL1.skip_spaces peek next hd tl is_base_operation Ascii.eqb Bool.eqb
       negb orb andb isQuestion ap bp op].

Ltac decide_command :=
  repeat match goal with
    | |- context [str_eq ?c (lit ?l)] => change (str_eq c (lit l)) with false
    | |- context [has_prefix ?c ?l] =>
        first [change (has_prefix c l) with false | change (has_prefix c l) with true]
    end.

(** * Properties *)

(** ** Frame lemmas *)

Lemma QueueMessage_cases (stack : Stack) (kind : RADIO_QueueMsgKind)
    (msg : list ascii) (msgSize : Z) (s : Radio) :
  QueueMessage stack kind msg msgSize s = s \/
  exists q, QueueMessage stack kind msg msgSize s = set_MsgQueue q s.
Proof.
  unfold QueueMessage.
  destruct (FRTOS1_xQueueSendToBackFromISR _ _) as [[|] q]; eauto.
Qed.

Lemma QueueMessage_AppStatus stack kind msg msgSize s :
  RADIO_AppStatus (QueueMessage stack kind msg msgSize s) = RADIO_AppStatus s.
Proof.
  destruct (QueueMessage_cases stack kind msg msgSize s) as [-> | [q ->]]; reflexivity.
Qed.

Lemma QueueMessage_trace stack kind msg msgSize s :
  trace (QueueMessage stack kind msg msgSize s) = trace s.
Proof.
  destruct (QueueMessage_cases stack kind msg msgSize s) as [-> | [q ->]]; reflexivity.
Qed.

Lemma QueueMessage_isContest stack kind msg msgSize s :
  RADIO_isContest (QueueMessage stack kind msg msgSize s) = RADIO_isContest s.
Proof.
  destruct (QueueMessage_cases stack kind msg msgSize s) as [-> | [q ->]]; reflexivity.
Qed.

Lemma tx_data_call (p : tTxPacket) (c : Call) (s : Radio) :
  tx_data p (call c s) = tx_data p s.
Proof.
  unfold tx_data. destruct (tx_pu8Data p); reflexivity.
Qed.

Lemma firstn_app_firstn {A : Type} (n : nat) (x y : list A) :
  firstn n (firstn n x ++ y) = firstn n (x ++ y).
Proof.
  revert x. induction n as [| n IH]; intros [| a x]; cbn; try reflexivity.
  f_equal. apply IH.
Qed.

Lemma firstn_firstn_same {A : Type} (n : nat) (x : list A) :
  firstn n (firstn n x) = firstn n x.
Proof.
  rewrite <- (app_nil_r (firstn n x)) at 1. rewrite firstn_app_firstn, app_nil_r.
  reflexivity.
Qed.

(** One step of the state machine writes the radio state, the acknowledge
    buffer and the trace, and nothing else. *)
Lemma RADIO_HandleState_frame (pl : Platform) (drv : Driver) (s : Radio) :
  settings (RADIO_HandleState pl drv s) = settings s /\
  RADIO_MsgQueue (RADIO_HandleState pl drv s) = RADIO_MsgQueue s /\
  RADIO_TxDataBuffer (RADIO_HandleState pl drv s) = RADIO_TxDataBuffer s /\
  RADIO_TxPacket (RADIO_HandleState pl drv s) = RADIO_TxPacket s.
Proof.
  unfold RADIO_HandleState, request, settings.
  destruct (RADIO_AppStatus s); try (repeat split; reflexivity).
  destruct (is_SUCCESS _); cbn [negb]; [| repeat split; reflexivity].
  destruct (is_SUCCESS _); [| repeat split; reflexivity].
  fields.
  destruct (RADIO_isContest s) eqn:E; fields; rewrite ?E; repeat split; reflexivity.
Qed.

(** ** The event handler *)

(** C4. [RADIO_AppHandleEvent] handles each of the six radio events, whatever
    the current state is: it sends its diagnostic message to the shell and
    assigns the state Reset -> Reset, Timeout -> ReceiveAlwaysOn,
    Ack -> ReceiveAlwaysOn, Overflow -> ReceiveAlwaysOn, Data -> TransmitAck,
    Unknown -> ReceiveAlwaysOn. *)
Theorem RADIO_AppHandleEvent_transitions :
  forall s : Radio,
    (RADIO_AppStatus (RADIO_AppHandleEvent EVNT_RADIO_RESET s) = RADIO_RESET_STATE /\
     trace (RADIO_AppHandleEvent EVNT_RADIO_RESET s)
       = trace s ++ [SHELL_SendMessage (lit "RADIO reset" ++ CRLF)]) /\
    (RADIO_AppStatus (RADIO_AppHandleEvent EVNT_RADIO_TIMEOUT s) = RADIO_RECEIVER_ALWAYS_ON /\
     trace (RADIO_AppHandleEvent EVNT_RADIO_TIMEOUT s)
       = trace s ++ [SHELL_SendMessage (lit "RADIO timeout" ++ CRLF)]) /\
    (RADIO_AppStatus (RADIO_AppHandleEvent EVNT_RADIO_ACK s) = RADIO_RECEIVER_ALWAYS_ON /\
     trace (RADIO_AppHandleEvent EVNT_RADIO_ACK s)
       = trace s ++ [SHELL_SendMessage (lit "RADIO rx ack" ++ CRLF)]) /\
    (RADIO_AppStatus (RADIO_AppHandleEvent EVNT_RADIO_OVERFLOW s) = RADIO_RECEIVER_ALWAYS_ON /\
     trace (RADIO_AppHandleEvent EVNT_RADIO_OVERFLOW s)
       = trace s ++ [SHELL_SendMessage (lit "RADIO overflow" ++ CRLF)]) /\
    (RADIO_AppStatus (RADIO_AppHandleEvent EVNT_RADIO_DATA s) = RADIO_TRANSMIT_ACK /\
     trace (RADIO_AppHandleEvent EVNT_RADIO_DATA s)
       = trace s ++ [SHELL_SendMessage (lit "RADIO rx data, going to tx ACK" ++ CRLF)]) /\
    (RADIO_AppStatus (RADIO_AppHandleEvent EVNT_RADIO_UNKNOWN s) = RADIO_RECEIVER_ALWAYS_ON /\
     trace (RADIO_AppHandleEvent EVNT_RADIO_UNKNOWN s)
       = trace s ++ [SHELL_SendMessage (lit "RADIO unknown" ++ CRLF)]).
Proof.
  intros s. repeat split.
Qed.

(** ** The state machine in TransmitData *)

(** C3. One step taken in TransmitData first asks the driver to leave the
    receive mode.  When that fails, the state stays TransmitData and nothing
    else is requested (no transmit).  When it succeeds, LED1 is toggled and the
    transmit packet is handed to the driver: on success a receive bounded by
    [RADIO_TIMEOUT_COUNT] is armed and the state is WaitingForAck with contest
    mode off, ReceiveAlwaysOn with contest mode on; on failure the state is
    ReceiveAlwaysOn and no receive is armed. *)
Theorem RADIO_HandleState_TransmitData :
  forall (pl : Platform) (drv : Driver) (s : Radio),
    RADIO_AppStatus s = RADIO_TRANSMIT_DATA ->
    let s' := RADIO_HandleState pl drv s in
    let t1 := trace s ++ [SMAC1_MLMERXDisableRequest] in
    let t2 := t1 ++ [LED1_Neg] ++
              [SMAC1_MCPSDataRequest (RADIO_TxPacket s) (tx_data (RADIO_TxPacket s) s)] in
    (smac_answer drv t1 <> SMAC1_SUCCESS ->
       RADIO_AppStatus s' = RADIO_TRANSMIT_DATA /\ trace s' = t1) /\
    (smac_answer drv t1 = SMAC1_SUCCESS -> smac_answer drv t2 = SMAC1_SUCCESS ->
       RADIO_AppStatus s' =
         (if RADIO_isContest s then RADIO_RECEIVER_ALWAYS_ON else RADIO_WAITING_FOR_ACK) /\
       trace s' = t2 ++ [SMAC1_MLMERXEnableRequest RADIO_TIMEOUT_COUNT]) /\
    (smac_answer drv t1 = SMAC1_SUCCESS -> smac_answer drv t2 <> SMAC1_SUCCESS ->
       RADIO_AppStatus s' = RADIO_RECEIVER_ALWAYS_ON /\ trace s' = t2).
Proof.
  intros pl drv s Hst s' t1 t2. subst s'.
  unfold RADIO_HandleState. rewrite Hst. unfold request.
  rewrite !tx_data_call. cbn [trace call RADIO_TxPacket].
  fold t1.
  replace ((t1 ++ [LED1_Neg]) ++
           [SMAC1_MCPSDataRequest (RADIO_TxPacket s) (tx_data (RADIO_TxPacket s) s)])
    with t2 by (unfold t2; rewrite app_assoc; reflexivity).
  assert (Ht2 : forall c, ((t1 ++ [LED1_Neg]) ++
             [SMAC1_MCPSDataRequest (RADIO_TxPacket s) (tx_data (RADIO_TxPacket s) s)])
             ++ c = t2 ++ c)
    by (intros c; unfold t2; rewrite <- !app_assoc; reflexivity).
  destruct (smac_answer drv t1) eqn:E1; cbn [is_SUCCESS negb];
    try (split; [intros _; split; reflexivity | split; intros; congruence]).
  split; [intros; congruence |].
  destruct (smac_answer drv t2) eqn:E2; cbn [is_SUCCESS];
    try (split; [intros; congruence |];
         intros _ _; cbn [trace call set_AppStatus RADIO_AppStatus];
         split; [reflexivity | rewrite <- (app_nil_r t2), <- Ht2, app_nil_r; reflexivity]).
  split; [| intros; congruence].
  intros _ _. cbn [RADIO_isContest call].
  destruct (RADIO_isContest s); cbn [trace call set_AppStatus RADIO_AppStatus];
    rewrite Ht2; split; reflexivity.
Qed.

Lemma RADIO_HandleState_TransmitData_witness :
  (RADIO_AppStatus (RADIO_HandleState SRB_platform rx_stuck_driver (transmitting false))
     = RADIO_TRANSMIT_DATA /\
   trace (RADIO_HandleState SRB_platform rx_stuck_driver (transmitting false))
     = [SMAC1_MLMERXDisableRequest]) /\
  (RADIO_AppStatus (RADIO_HandleState SRB_platform willing_driver (transmitting false))
     = RADIO_WAITING_FOR_ACK) /\
  (RADIO_AppStatus (RADIO_HandleState SRB_platform willing_driver (transmitting true))
     = RADIO_RECEIVER_ALWAYS_ON) /\
  (RADIO_AppStatus (RADIO_HandleState SRB_platform tx_failing_driver (transmitting false))
     = RADIO_RECEIVER_ALWAYS_ON).
Proof.
  split; [| split; [| split]].
  - destruct (RADIO_HandleState_TransmitData SRB_platform rx_stuck_driver
                (transmitting false) eq_refl) as [H _].
    apply H. simpl. discriminate.
  - destruct (RADIO_HandleState_TransmitData SRB_platform willing_driver
                (transmitting false) eq_refl) as [_ [H _]].
    apply H; reflexivity.
  - destruct (RADIO_HandleState_TransmitData SRB_platform willing_driver
                (transmitting true) eq_refl) as [_ [H _]].
    apply H; reflexivity.
  - destruct (RADIO_HandleState_TransmitData SRB_platform tx_failing_driver
                (transmitting false) eq_refl) as [_ [_ H]].
    apply H; [reflexivity | simpl; discriminate].
Defined.

(** ** The timeout path *)

(** C8. A receive completion with Timeout status, taken in WaitingForAck,
    toggles both LEDs and raises the Timeout event without touching the
    state; handling that event sets the state to ReceiveAlwaysOn.  Neither
    step changes the transmit buffer or the transmit packet descriptor. *)
Theorem timeout_in_WaitingForAck :
  forall (pl : Platform) (stack : RADIO_QueueMsgKind -> Stack)
         (sRxPacket : tRxPacket) (s : Radio),
    u8Status sRxPacket = SMAC1_TIMEOUT ->
    RADIO_AppStatus s = RADIO_WAITING_FOR_ACK ->
    let s1 := RADIO_DataIndicationPacket pl stack sRxPacket s in
    let s2 := RADIO_AppHandleEvent EVNT_RADIO_TIMEOUT s1 in
    trace s1 = trace s ++ [LED1_Neg; LED2_Neg; EVNT_SetEvent EVNT_RADIO_TIMEOUT] /\
    RADIO_AppStatus s1 = RADIO_WAITING_FOR_ACK /\
    RADIO_AppStatus s2 = RADIO_RECEIVER_ALWAYS_ON /\
    RADIO_TxDataBuffer s1 = RADIO_TxDataBuffer s /\
    RADIO_TxPacket s1 = RADIO_TxPacket s /\
    RADIO_TxDataBuffer s2 = RADIO_TxDataBuffer s /\
    RADIO_TxPacket s2 = RADIO_TxPacket s.
Proof.
  intros pl stack rx s Hstatus Hstate s1 s2. subst s2 s1.
  unfold RADIO_DataIndicationPacket. rewrite Hstatus.
  cbn [RADIO_AppHandleEvent trace call set_AppStatus RADIO_AppStatus
       RADIO_TxDataBuffer RADIO_TxPacket].
  rewrite <- !app_assoc. cbn [app].
  repeat split; assumption.
Qed.

Lemma timeout_in_WaitingForAck_witness :
  let s1 := RADIO_DataIndicationPacket SRB_platform (fun _ => blank_stack)
              timeout_packet waiting_for_ack in
  let s2 := RADIO_AppHandleEvent EVNT_RADIO_TIMEOUT s1 in
  trace s1 = [LED1_Neg; LED2_Neg; EVNT_SetEvent EVNT_RADIO_TIMEOUT] /\
  RADIO_AppStatus s1 = RADIO_WAITING_FOR_ACK /\
  RADIO_AppStatus s2 = RADIO_RECEIVER_ALWAYS_ON /\
  RADIO_TxDataBuffer s1 = lit "ESThello" /\
  RADIO_TxPacket s1 = {| tx_u8DataLength := 9; tx_pu8Data := RADIO_TxDataBuffer_ |} /\
  RADIO_TxDataBuffer s2 = lit "ESThello" /\
  RADIO_TxPacket s2 = {| tx_u8DataLength := 9; tx_pu8Data := RADIO_TxDataBuffer_ |}.
Proof.
  exact (timeout_in_WaitingForAck SRB_platform (fun _ => blank_stack)
           timeout_packet waiting_for_ack eq_refl eq_refl).
Defined.

(** ** Sending with the radio switched off *)

(** C9. With [RADIO_isOn] false, [RADIO_SendString] and [RADIO_SendStringRaw]
    return at once and leave the whole state as it is: no step of the state
    machine is taken (no fuel is needed, nothing is added to the trace), the
    transmit buffer and packet are not written, the radio state stays. *)
Theorem send_when_radio_off :
  forall (pl : Platform) (drv : Driver) (fuel : nat) (data : cstr) (s : Radio),
    RADIO_isOn s = false ->
    RADIO_SendString pl drv fuel data s = Ok s /\
    RADIO_SendStringRaw pl drv fuel data s = Ok s.
Proof.
  intros pl drv fuel data s Hoff.
  unfold RADIO_SendString, RADIO_SendStringRaw. rewrite Hoff. split; reflexivity.
Qed.

Lemma send_when_radio_off_witness :
  RADIO_SendString SRB_platform willing_driver 0 (lit "hello") radio_off = Ok radio_off /\
  RADIO_SendStringRaw SRB_platform willing_driver 0 (lit "hello") radio_off = Ok radio_off.
Proof.
  exact (send_when_radio_off SRB_platform willing_driver 0 (lit "hello") radio_off eq_refl).
Defined.

(** With the radio on and the machine waiting for an acknowledge, the busy
    loop of a send operation does not come to an end by itself. *)
Lemma send_blocks_in_WaitingForAck (pl : Platform) (drv : Driver) (fuel : nat)
    (data : cstr) (s : Radio) :
  RADIO_isOn s = true ->
  RADIO_AppStatus s = RADIO_WAITING_FOR_ACK ->
  RADIO_SendString pl drv fuel data s = OutOfFuel.
Proof.
  intros Hon Hst. unfold RADIO_SendString. rewrite Hon. cbn [negb].
  assert (Hd : drain pl drv fuel s = OutOfFuel).
  { induction fuel as [| fuel IH]; cbn [drain]; rewrite Hst; [reflexivity |].
    unfold RADIO_HandleState. rewrite Hst. exact IH. }
  rewrite Hd. reflexivity.
Qed.

(** ** The classifier *)

Lemma success_trace (pl : Platform) (stack : RADIO_QueueMsgKind -> Stack)
    (sRxPacket : tRxPacket) (s : Radio) :
  u8Status sRxPacket = SMAC1_SUCCESS ->
  trace (RADIO_DataIndicationPacket pl stack sRxPacket s)
    = trace s ++ [EVNT_SetEvent (success_event s (cstring (pu8Data sRxPacket)))].
Proof.
  intros Hstatus.
  unfold RADIO_DataIndicationPacket, success_event. rewrite Hstatus.
  set (payload := cstring (pu8Data sRxPacket)).
  set (s0 := if RADIO_isSniffing s then _ else s).
  assert (Hst : RADIO_AppStatus s0 = RADIO_AppStatus s)
    by (subst s0; destruct (RADIO_isSniffing s);
        [apply QueueMessage_AppStatus | reflexivity]).
  assert (Htr : trace s0 = trace s)
    by (subst s0; destruct (RADIO_isSniffing s);
        [apply QueueMessage_trace | reflexivity]).
  assert (Hco : RADIO_isContest s0 = RADIO_isContest s)
    by (subst s0; destruct (RADIO_isSniffing s);
        [apply QueueMessage_isContest | reflexivity]).
  rewrite Hst, Hco.
  destruct (_ && _).
  - cbn [trace call]. rewrite Htr. reflexivity.
  - destruct (if RADIO_isContest s then IsContestMessage payload else None) as [m |].
    + cbn [trace call]. destruct (isQuestion m); rewrite QueueMessage_trace, Htr; reflexivity.
    + destruct (UTIL1.strncmp payload RADIO_PREFIX_STR _ =? 0).
      * cbn [trace call].
        destruct (PL_HAS_REMOTE pl && PL_HAS_MOTOR pl);
          [destruct (UTIL1.strncmp payload _ _ =? 0) |];
          rewrite ?QueueMessage_trace, Htr; reflexivity.
      * cbn [trace call]. rewrite Htr. reflexivity.
Qed.

(** C2. For a receive completion with Success status the classifier raises
    exactly one event.  It is Ack exactly when the state is WaitingForAck and
    the payload compares equal to the prefix+ack literal over the length of
    the literal.  A payload equal to the literal that arrives in another state
    is no contest message, matches the prefix and raises Data. *)
Theorem classification_of_success :
  forall (pl : Platform) (stack : RADIO_QueueMsgKind -> Stack)
         (sRxPacket : tRxPacket) (s : Radio),
    u8Status sRxPacket = SMAC1_SUCCESS ->
    let payload := cstring (pu8Data sRxPacket) in
    exists event : EVNT_Handle,
      trace (RADIO_DataIndicationPacket pl stack sRxPacket s)
        = trace s ++ [EVNT_SetEvent event] /\
      (event = EVNT_RADIO_ACK <->
         RADIO_AppStatus s = RADIO_WAITING_FOR_ACK /\
         UTIL1.strncmp payload RADIO_PREFIX_ACK_STR
           (List.length RADIO_PREFIX_ACK_STR) = 0) /\
      (payload = RADIO_PREFIX_ACK_STR ->
       RADIO_AppStatus s <> RADIO_WAITING_FOR_ACK ->
         IsContestMessage payload = None /\
         UTIL1.strncmp payload RADIO_PREFIX_STR (List.length RADIO_PREFIX_STR) = 0 /\
         event = EVNT_RADIO_DATA).
Proof.
  intros pl stack rx s Hstatus payload.
  exists (success_event s payload).
  split; [apply success_trace; exact Hstatus |].
  unfold success_event.
  split.
  - destruct (RADIO_AppStatus s); cbn [andb].
    5: { destruct (Z.eqb_spec (UTIL1.strncmp payload RADIO_PREFIX_ACK_STR
                                 (List.length RADIO_PREFIX_ACK_STR)) 0) as [E | E].
         - split; [intros _; split; [reflexivity | exact E] | reflexivity].
         - split; [| intros [_ H]; contradiction].
           destruct (if RADIO_isContest s then _ else _);
             [| destruct (_ =? 0)]; discriminate. }
    all: split; [| intros [H _]; discriminate H];
         destruct (if RADIO_isContest s then _ else _);
           [| destruct (_ =? 0)]; discriminate.
  - intros Hp Hne.
    assert (Hw : match RADIO_AppStatus s with
                 | RADIO_WAITING_FOR_ACK => true | _ => false end = false)
      by (destruct (RADIO_AppStatus s); congruence).
    rewrite Hw, Hp. cbn [andb].
    assert (Hnone : IsContestMessage RADIO_PREFIX_ACK_STR = None) by reflexivity.
    rewrite Hnone.
    split; [reflexivity |]. split; [reflexivity |].
    destruct (RADIO_isContest s); reflexivity.
Qed.

(** The acknowledge frame in WaitingForAck raises Ack, in ReadyForTxRx it
    raises Data. *)
Lemma classification_of_success_witness :
  trace (RADIO_DataIndicationPacket SRB_platform (fun _ => blank_stack) ack_packet
           waiting_for_ack)
    = [EVNT_SetEvent EVNT_RADIO_ACK] /\
  trace (RADIO_DataIndicationPacket SRB_platform (fun _ => blank_stack) ack_packet
           (set_AppStatus RADIO_READY_FOR_TX_RX_DATA Radio_static))
    = [EVNT_SetEvent EVNT_RADIO_DATA].
Proof.
  split.
  - destruct (classification_of_success SRB_platform (fun _ => blank_stack)
                ack_packet waiting_for_ack eq_refl) as [e [Htr [[_ Hack] _]]].
    rewrite Htr, (Hack (conj eq_refl eq_refl)). reflexivity.
  - destruct (classification_of_success SRB_platform (fun _ => blank_stack)
                ack_packet (set_AppStatus RADIO_READY_FOR_TX_RX_DATA Radio_static)
                eq_refl) as [e [Htr [_ Hdata]]].
    destruct Hdata as [_ [_ He]]; [reflexivity | discriminate |].
    rewrite Htr, He. reflexivity.
Defined.

(** ** The queue bridge *)

Lemma store_length {A : Type} (i : nat) (v : A) (l : list A) :
  List.length (store i v l) = List.length l.
Proof.
  revert i. induction l as [| h t IH]; intros [| i]; cbn; auto.
Qed.

Lemma nth_store_eq {A : Type} (i : nat) (v d : A) (l : list A) :
  (i < List.length l)%nat -> nth i (store i v l) d = v.
Proof.
  revert i. induction l as [| h t IH]; intros [| i] H; cbn in *; try lia; auto.
  apply IH. lia.
Qed.

Lemma nth_store_neq {A : Type} (i j : nat) (v d : A) (l : list A) :
  i <> j -> nth j (store i v l) d = nth j l d.
Proof.
  revert i j. induction l as [| h t IH]; intros [| i] [| j] H; cbn; auto;
    try contradiction; try (apply IH; lia).
Qed.

Lemma nth_next (j : nat) (msg : list ascii) :
  nth j (next msg) NUL = nth (S j) msg NUL.
Proof.
  destruct msg; [destruct j |]; reflexivity.
Qed.

Lemma code_chr (z : Z) : 0 <= z < 256 -> code (chr z) = z.
Proof.
  intros H. unfold code, chr.
  rewrite Z.mod_small by lia.
  rewrite N_ascii_embedding by lia.
  lia.
Qed.

(** The copy loop stops when the payload is exhausted or the array is full,
    whichever comes first; it writes the cells it passes and no other. *)
Lemma QueueMessage_loop_spec (fuel : nat) :
  forall (buf : list ascii) (i : nat) (msg : list ascii) (msgSize : Z),
    List.length buf = RADIO_QUEUE_ITEM_SIZE ->
    (i <= RADIO_QUEUE_ITEM_SIZE)%nat ->
    0 <= msgSize ->
    (RADIO_QUEUE_ITEM_SIZE - i <= fuel)%nat ->
    let n := Nat.min (Z.to_nat msgSize) (RADIO_QUEUE_ITEM_SIZE - i) in
    let r := QueueMessage_loop fuel buf i msg msgSize in
    snd r = (i + n)%nat /\
    List.length (fst r) = RADIO_QUEUE_ITEM_SIZE /\
    (forall j, (j < n)%nat -> nth (i + j) (fst r) NUL = nth j msg NUL) /\
    (forall j, (j < i \/ i + n <= j)%nat -> nth j (fst r) NUL = nth j buf NUL).
Proof.
  cbv zeta. unfold RADIO_QUEUE_ITEM_SIZE.
  induction fuel as [| fuel IH]; intros buf i msg msgSize Hlen Hi Hsize Hfuel;
    set (n := Nat.min (Z.to_nat msgSize) (32 - i)).
  - assert (Hn : n = 0%nat) by lia. rewrite Hn.
    cbn [QueueMessage_loop fst snd].
    split; [lia |]. split; [exact Hlen |]. split; [intros j Hj; lia | reflexivity].
  - cbn [QueueMessage_loop]. unfold RADIO_QUEUE_ITEM_SIZE.
    destruct (Z.ltb_spec 0 msgSize) as [Hpos | Hzero];
      [destruct (Nat.ltb_spec i 32) as [Hroom | Hfull] |]; cbn [andb].
    + specialize (IH (store i (peek msg) buf) (S i) (next msg) (msgSize - 1)).
      rewrite store_length in IH.
      destruct IH as [IHi [IHlen [IHcopy IHframe]]]; try lia.
      assert (Hn : n = S (Nat.min (Z.to_nat (msgSize - 1)) (32 - S i))) by lia.
      split; [rewrite IHi; lia |]. split; [exact IHlen |]. split.
      * intros [| j] Hj.
        -- rewrite Nat.add_0_r, IHframe by lia.
           rewrite nth_store_eq by lia. destruct msg; reflexivity.
        -- replace (i + S j)%nat with (S i + j)%nat by lia.
           rewrite IHcopy by lia. apply nth_next.
      * intros j Hj. rewrite IHframe by lia. apply nth_store_neq. lia.
    + assert (Hn : n = 0%nat) by lia. rewrite Hn. cbn [fst snd].
      split; [lia |]. split; [exact Hlen |]. split; [intros j Hj; lia | reflexivity].
    + assert (Hn : n = 0%nat) by lia. rewrite Hn. cbn [fst snd].
      split; [lia |]. split; [exact Hlen |]. split; [intros j Hj; lia | reflexivity].
Qed.

Lemma QueueMessage_buf_spec (stack : Stack) (kind : RADIO_QueueMsgKind)
    (msg : list ascii) (msgSize : Z) :
  0 <= msgSize < 256 ->
  let r := QueueMessage_buf stack kind msg msgSize in
  let n := Nat.min (Z.to_nat msgSize) 30 in
  snd r = (2 + n)%nat /\
  List.length (fst r) = RADIO_QUEUE_ITEM_SIZE /\
  nth 0 (fst r) NUL = chr (kind_value kind) /\
  nth 1 (fst r) NUL = chr msgSize /\
  (forall j, (j < n)%nat -> nth (2 + j) (fst r) NUL = nth j msg NUL) /\
  (forall j, (2 + n <= j < RADIO_QUEUE_ITEM_SIZE)%nat -> nth j (fst r) NUL = stack j).
Proof.
  intros Hsize r n. subst r. unfold QueueMessage_buf.
  set (buf0 := map stack (seq 0 RADIO_QUEUE_ITEM_SIZE)).
  set (buf := store 1 (chr msgSize) (store 0 (chr (kind_value kind)) buf0)).
  assert (Hlen : List.length buf = RADIO_QUEUE_ITEM_SIZE)
    by (subst buf buf0; rewrite !store_length, length_map, length_seq; reflexivity).
  unfold uint8. rewrite Z.mod_small by lia.
  destruct (QueueMessage_loop_spec RADIO_QUEUE_ITEM_SIZE buf 2 msg msgSize)
    as [Hi [Hl [Hcopy Hframe]]]; unfold RADIO_QUEUE_ITEM_SIZE in *; try lia.
  change (32 - 2)%nat with 30%nat in *. fold n in Hi, Hcopy, Hframe.
  split; [exact Hi |]. split; [exact Hl |].
  split; [rewrite Hframe by lia; reflexivity |].
  split; [rewrite Hframe by lia; reflexivity |].
  split; [exact Hcopy |].
  intros j Hj. rewrite Hframe by lia.
  subst buf. rewrite !nth_store_neq by lia.
  subst buf0.
  rewrite (nth_indep _ NUL (stack 0%nat)) by (rewrite length_map, length_seq; lia).
  rewrite map_nth, seq_nth by lia. reflexivity.
Qed.

(** C5. For every kind, payload and length (a [uint8_t]), the slot built by
    [QueueMessage] is the 32 byte array that starts with the kind byte and the
    length byte, followed by the first [min msgSize 30] payload bytes (the
    copy stops there); the cells behind them keep what the array held.  With
    room in the queue the slot is appended to it; with the queue full the call
    returns the state it was given: nothing is queued, nothing else
    happens. *)
Theorem QueueMessage_encoding :
  forall (stack : Stack) (kind : RADIO_QueueMsgKind) (msg : list ascii)
         (msgSize : Z) (s : Radio),
    0 <= msgSize < 256 ->
    let buf := fst (QueueMessage_buf stack kind msg msgSize) in
    let copied := snd (QueueMessage_buf stack kind msg msgSize) in
    let n := Nat.min (Z.to_nat msgSize) (RADIO_QUEUE_ITEM_SIZE - 2) in
    List.length buf = RADIO_QUEUE_ITEM_SIZE /\
    nth 0 buf NUL = chr (kind_value kind) /\
    nth 1 buf NUL = chr msgSize /\
    copied = (2 + n)%nat /\
    (forall j, (j < n)%nat -> nth (2 + j) buf NUL = nth j msg NUL) /\
    (forall j, (2 + n <= j < RADIO_QUEUE_ITEM_SIZE)%nat -> nth j buf NUL = stack j) /\
    ((List.length (RADIO_MsgQueue s) < RADIO_QUEUE_NOF_ITEMS)%nat ->
       QueueMessage stack kind msg msgSize s
         = set_MsgQueue (RADIO_MsgQueue s ++ [buf]) s) /\
    ((RADIO_QUEUE_NOF_ITEMS <= List.length (RADIO_MsgQueue s))%nat ->
       QueueMessage stack kind msg msgSize s = s).
Proof.
  intros stack kind msg msgSize s Hsize buf copied n.
  destruct (QueueMessage_buf_spec stack kind msg msgSize Hsize)
    as [Hi [Hlen [Hkind [Hsz [Hcopy Hframe]]]]].
  fold buf in Hlen, Hkind, Hsz, Hcopy, Hframe. fold copied in Hi.
  change (RADIO_QUEUE_ITEM_SIZE - 2)%nat with 30%nat in n.
  repeat (split; [assumption |]).
  unfold QueueMessage, FRTOS1_xQueueSendToBackFromISR. fold buf.
  split; intros Hq.
  - destruct (Nat.ltb_spec (List.length (RADIO_MsgQueue s)) RADIO_QUEUE_NOF_ITEMS);
      [| lia].
    rewrite firstn_all2 by lia. reflexivity.
  - destruct (Nat.ltb_spec (List.length (RADIO_MsgQueue s)) RADIO_QUEUE_NOF_ITEMS);
      [lia | reflexivity].
Qed.

(** Forty bytes are cut to thirty; a ninth message is dropped. *)
Lemma QueueMessage_encoding_witness :
  0 <= 40 < 256 /\
  List.length (fst (QueueMessage_buf blank_stack RADIO_QUEUE_MSG_SNIFF forty_bytes 40))
    = 32%nat /\
  snd (QueueMessage_buf blank_stack RADIO_QUEUE_MSG_SNIFF forty_bytes 40) = 32%nat /\
  QueueMessage blank_stack RADIO_QUEUE_MSG_SNIFF forty_bytes 40 full_queue = full_queue.
Proof.
  assert (H : 0 <= 40 < 256) by lia.
  split; [exact H |].
  pose proof (QueueMessage_encoding blank_stack RADIO_QUEUE_MSG_SNIFF forty_bytes 40
                full_queue H) as E.
  cbv zeta in E.
  destruct E as [Hlen [_ [_ [Hcopied [_ [_ [_ Hfull]]]]]]].
  split; [exact Hlen |]. split; [exact Hcopied |].
  apply Hfull. apply Nat.leb_le. reflexivity.
Defined.

Lemma ascii_dump_fold (msg : list ascii) (l : list nat) :
  forall (x : cstr) (loads : list Load),
    fst (fold_left (ascii_step msg) l (firstn 31 x, loads))
      = firstn 31 (x ++ filter (fun c => negb (is_NUL c))
                          (map (fun i => nth i msg NUL) l)).
Proof.
  induction l as [| i l IH]; intros x loads; cbn [fold_left map filter].
  - rewrite app_nil_r. reflexivity.
  - unfold ascii_step at 2, load. cbn [fst snd]. unfold UTIL1.chcat.
    change (32 - 1)%nat with 31%nat.
    destruct (is_NUL (nth i msg NUL)); cbn [negb].
    + rewrite firstn_firstn_same. apply IH.
    + rewrite firstn_app_firstn, IH, <- app_assoc. reflexivity.
Qed.

Lemma hex_dump_fold (msg : list ascii) (l : list nat) :
  forall (x : cstr) (loads : list Load),
    fst (fold_left (hex_step msg) l (firstn 31 x, loads))
      = firstn 31 (x ++ flat_map hex_byte (map (fun i => nth i msg NUL) l)).
Proof.
  induction l as [| i l IH]; intros x loads; cbn [fold_left map flat_map].
  - rewrite app_nil_r. reflexivity.
  - unfold hex_step at 2, load. cbn [fst snd].
    unfold UTIL1.strcatNum8Hex, UTIL1.strcat. change (32 - 1)%nat with 31%nat.
    rewrite firstn_app_firstn, <- app_assoc, IH.
    rewrite <- app_assoc, firstn_app_firstn. reflexivity.
Qed.









(** ** The contest protocol *)

Lemma int8_is_int8 (z : Z) : is_int8 (int8 z).
Proof.
  unfold is_int8, int8. pose proof (Z.mod_pos_bound (z + 128) 256). lia.
Qed.

Lemma int8_id (z : Z) : is_int8 z -> int8 z = z.
Proof.
  unfold is_int8, int8. intros H. rewrite Z.mod_small; lia.
Qed.

Lemma sdec_length (z : Z) : is_int8 z -> (List.length (UTIL1.sdec z) <= 4)%nat.
Proof.
  intros H.
  assert (Hall : forallb (fun k => (List.length (UTIL1.sdec (Z.of_nat k - 128)) <=? 4)%nat)
                   (seq 0 256) = true) by (vm_compute; reflexivity).
  rewrite forallb_forall in Hall.
  specialize (Hall (Z.to_nat (z + 128))).
  unfold is_int8 in H.
  replace (Z.of_nat (Z.to_nat (z + 128)) - 128) with z in Hall by lia.
  apply Nat.leb_le, Hall, in_seq. lia.
Qed.

Lemma strcat_fits (dst : cstr) (n : nat) (src : cstr) :
  (List.length dst + List.length src <= n - 1)%nat ->
  UTIL1.strcat dst n src = dst ++ src.
Proof.
  intros H. unfold UTIL1.strcat. apply firstn_all2. rewrite length_app. exact H.
Qed.

Lemma chcat_fits (dst : cstr) (n : nat) (ch : ascii) :
  (List.length dst + 1 <= n - 1)%nat ->
  UTIL1.chcat dst n ch = dst ++ (if is_NUL ch then [] else [ch]).
Proof.
  intros H. unfold UTIL1.chcat. destruct (is_NUL ch).
  - rewrite app_nil_r. apply firstn_all2. lia.
  - apply firstn_all2. rewrite length_app. cbn. lia.
Qed.

Lemma Num8sToStr_fits (n : nat) (v : Z) :
  (5 <= n)%nat -> UTIL1.Num8sToStr n v = UTIL1.sdec (int8 v).
Proof.
  intros H. unfold UTIL1.Num8sToStr, UTIL1.strcpy. apply firstn_all2.
  pose proof (sdec_length (int8 v) (int8_is_int8 v)). lia.
Qed.

Lemma strcatNum8s_fits (dst : cstr) (n : nat) (v : Z) :
  (List.length dst + 4 <= n - 1)%nat ->
  UTIL1.strcatNum8s dst n v = dst ++ UTIL1.sdec (int8 v).
Proof.
  intros H. unfold UTIL1.strcatNum8s. rewrite Num8sToStr_fits by lia.
  apply strcat_fits. pose proof (sdec_length (int8 v) (int8_is_int8 v)). lia.
Qed.

(** The formatter never divides by zero. *)
Lemma CalcResultString_total (bufSize : nat) (a b : Z) (op : ascii) :
  exists body : cstr,
    CalcResultString bufSize a b op = Ok (UTIL1.strcat body bufSize TRAILER).
Proof.
  unfold CalcResultString, c_div.
  destruct (Ascii.eqb op "+"); [eexists; reflexivity |].
  destruct (Ascii.eqb op "-"); [eexists; reflexivity |].
  destruct (Ascii.eqb op "*"); [eexists; reflexivity |].
  destruct (Ascii.eqb op "/"); [| eexists; reflexivity].
  destruct (b =? 0); eexists; reflexivity.
Qed.

(** In a buffer of 32 bytes or more nothing is cut. *)
Lemma CalcResultString_fits (bufSize : nat) (a b : Z) (op : ascii) :
  (32 <= bufSize)%nat -> is_int8 a -> is_int8 b ->
  CalcResultString bufSize a b op = Ok (answer_text a b op ++ TRAILER).
Proof.
  intros Hsize Ha Hb.
  pose proof (sdec_length a Ha) as La.
  pose proof (sdec_length b Hb) as Lb.
  assert (Lo : (List.length (if is_NUL op then [] else [op]) <= 1)%nat)
    by (destruct (is_NUL op); cbn; lia).
  assert (Lr : forall v, (List.length (UTIL1.sdec (int8 v)) <= 4)%nat)
    by (intros v; apply sdec_length, int8_is_int8).
  unfold CalcResultString, answer_text, result_text, c_div.
  rewrite Num8sToStr_fits, (int8_id a Ha) by lia.
  rewrite (chcat_fits (UTIL1.sdec a)) by lia.
  change (if is_NUL " " then [] else [" "%char]) with (lit " ").
  set (o := if is_NUL op then [] else [op]) in *.
  assert (L1 : List.length (UTIL1.sdec a ++ lit " ") = S (List.length (UTIL1.sdec a)))
    by (rewrite length_app; change (List.length (lit " ")) with 1%nat; lia).
  rewrite (chcat_fits (UTIL1.sdec a ++ lit " ")) by lia. fold o.
  assert (L2 : (List.length ((UTIL1.sdec a ++ lit " ") ++ o) <= 6)%nat)
    by (rewrite length_app; lia).
  rewrite (chcat_fits ((UTIL1.sdec a ++ lit " ") ++ o)) by lia.
  change (if is_NUL " " then [] else [" "%char]) with (lit " ").
  set (p3 := ((UTIL1.sdec a ++ lit " ") ++ o) ++ lit " ").
  assert (L3 : (List.length p3 <= 7)%nat)
    by (subst p3; rewrite length_app; change (List.length (lit " ")) with 1%nat; lia).
  rewrite (strcatNum8s_fits p3), (int8_id b Hb) by lia.
  set (p4 := p3 ++ UTIL1.sdec b).
  assert (L4 : List.length p4 = (List.length p3 + List.length (UTIL1.sdec b))%nat)
    by (subst p4; apply length_app).
  rewrite (strcat_fits p4) by (change (List.length (lit " = ")) with 3%nat; lia).
  set (p5 := p4 ++ lit " = ").
  assert (L5 : List.length p5 = (List.length p4 + 3)%nat)
    by (subst p5; rewrite length_app; reflexivity).
  assert (Lt : List.length TRAILER = 13%nat) by reflexivity.
  assert (Hp5 : p5 = UTIL1.sdec a ++ lit " " ++ o ++ lit " " ++ UTIL1.sdec b ++ lit " = ")
    by (subst p5 p4 p3; rewrite <- !app_assoc; reflexivity).
  assert (Hend : forall r : cstr,
            (List.length p5 + List.length r <= 18)%nat ->
            Ok (UTIL1.strcat (p5 ++ r) bufSize TRAILER)
              = Ok ((UTIL1.sdec a ++ lit " " ++ o ++ lit " " ++ UTIL1.sdec b
                      ++ lit " = " ++ r) ++ TRAILER)).
  { intros r Hr. rewrite strcat_fits by (rewrite length_app; lia).
    rewrite Hp5, <- !app_assoc. reflexivity. }
  destruct (Ascii.eqb op "+");
    [cbn [bind]; rewrite strcatNum8s_fits by lia; apply Hend; specialize (Lr (a + b)); lia |].
  destruct (Ascii.eqb op "-");
    [cbn [bind]; rewrite strcatNum8s_fits by lia; apply Hend; specialize (Lr (a - b)); lia |].
  destruct (Ascii.eqb op "*");
    [cbn [bind]; rewrite strcatNum8s_fits by lia; apply Hend; specialize (Lr (a * b)); lia |].
  destruct (Ascii.eqb op "/").
  - destruct (Z.eqb_spec b 0) as [Hzero | Hnz]; cbn [negb bind].
    + assert (Lb0 : List.length (UTIL1.sdec b) = 1%nat) by (rewrite Hzero; reflexivity).
      assert (Le : List.length (lit "ERROR") = 5%nat) by reflexivity.
      rewrite (strcat_fits p5) by lia. apply Hend. lia.
    + rewrite strcatNum8s_fits by lia. apply Hend. specialize (Lr (Z.quot a b)). lia.
  - cbn [bind]. rewrite <- (app_nil_r p5) at 1. apply Hend.
    change (List.length (@nil ascii)) with 0%nat. lia.
Qed.

Lemma CalcResultString_cut :
  forall (bufSize : nat) (a b : Z) (op : ascii),
    is_int8 a -> is_int8 b ->
    CalcResultString bufSize a b op
      = Ok (firstn (bufSize - 1) (answer_text a b op ++ TRAILER)).
Proof.
  intros n a b o Ha Hb.
  assert (Hnum : forall dst v,
            UTIL1.strcatNum8s dst n v = firstn (n - 1) (dst ++ UTIL1.sdec (int8 v)))
    by (intros dst v; unfold UTIL1.strcatNum8s; rewrite Num8sToStr_fits by lia;
        reflexivity).
  assert (Hch : forall dst ch,
            UTIL1.chcat dst n ch
              = firstn (n - 1) (dst ++ (if is_NUL ch then [] else [ch])))
    by (intros dst ch; unfold UTIL1.chcat; destruct (is_NUL ch);
        [rewrite app_nil_r |]; reflexivity).
  unfold CalcResultString, answer_text, result_text, c_div.
  rewrite !Hch, !Hnum. unfold UTIL1.Num8sToStr, UTIL1.strcpy, UTIL1.strcat.
  rewrite (int8_id a Ha), (int8_id b Hb).
  change (if is_NUL " " then [] else [" "%char]) with (lit " ").
  destruct (Ascii.eqb o "+");
    [cbn [bind]; repeat (rewrite firstn_app_firstn, <- ?app_assoc); reflexivity |].
  destruct (Ascii.eqb o "-");
    [cbn [bind]; repeat (rewrite firstn_app_firstn, <- ?app_assoc); reflexivity |].
  destruct (Ascii.eqb o "*");
    [cbn [bind]; repeat (rewrite firstn_app_firstn, <- ?app_assoc); reflexivity |].
  destruct (Ascii.eqb o "/").
  - destruct (b =? 0); cbn [negb bind]; rewrite ?Hnum;
      repeat (rewrite firstn_app_firstn, <- ?app_assoc); reflexivity.
  - cbn [bind]. repeat (rewrite firstn_app_firstn, <- ?app_assoc).
    rewrite app_nil_l. reflexivity.
Qed.

(** C6 (as amended).  "3 + 4 = ?" is a contest message: a question with
    operands 3 and 4 and operator '+'.  The answer formatted for it is
    "3 + 4 = 7" followed by the trailer in every buffer of at least 23 bytes;
    the responder formats it in 36 bytes, and that is the text it prints and
    sends.  In a smaller buffer the text is shorter than that: from 5 bytes on
    it is its first [bufSize - 1] characters, and in the 16 bytes of the
    expected answer it is "3 + 4 = 7 Joe T". *)
Theorem contest_question_3_plus_4 :
  IsContestMessage (lit "3 + 4 = ?")
    = Some {| isQuestion := true; ap := 3; bp := 4; op := "+" |} /\
  (forall bufSize : nat,
     ((23 <= bufSize)%nat ->
        CalcResultString bufSize 3 4 "+" = Ok (lit "3 + 4 = 7" ++ TRAILER)) /\
     ((bufSize < 23)%nat ->
        exists text : cstr,
          CalcResultString bufSize 3 4 "+" = Ok text /\
          (List.length text < List.length (lit "3 + 4 = 7" ++ TRAILER))%nat /\
          ((5 <= bufSize)%nat ->
             text = firstn (bufSize - 1) (lit "3 + 4 = 7" ++ TRAILER)))) /\
  CalcResultString 16 3 4 "+" = Ok (lit "3 + 4 = 7 Joe T") /\
  forall (pl : Platform) (drv : Driver) (fuel : nat) (s : Radio),
    RespondWithAnswer pl drv fuel (lit "3 + 4 = ?") s
      = RADIO_SendStringRaw pl drv fuel (lit "3 + 4 = 7" ++ TRAILER)
          (call (CLS1_SendStr CRLF Stdio_stdOut)
             (call (CLS1_SendStr (lit "3 + 4 = 7" ++ TRAILER) Stdio_stdOut)
                (call (CLS1_SendStr (lit "Contest answer: ") Stdio_stdOut) s))).
Proof.
  assert (Hparse : IsContestMessage (lit "3 + 4 = ?")
            = Some {| isQuestion := true; ap := 3; bp := 4; op := "+" |})
    by (vm_compute; reflexivity).
  assert (H3 : is_int8 3) by (unfold is_int8; lia).
  assert (H4 : is_int8 4) by (unfold is_int8; lia).
  assert (Hfull : answer_text 3 4 "+" ++ TRAILER = lit "3 + 4 = 7" ++ TRAILER)
    by reflexivity.
  assert (Hlen : List.length (lit "3 + 4 = 7" ++ TRAILER) = 22%nat) by reflexivity.
  assert (Hcut : forall bufSize,
            CalcResultString bufSize 3 4 "+"
              = Ok (firstn (bufSize - 1) (lit "3 + 4 = 7" ++ TRAILER)))
    by (intros bufSize; rewrite (CalcResultString_cut bufSize 3 4 "+" H3 H4), Hfull;
        reflexivity).
  split; [exact Hparse |]. split; [| split].
  - intros bufSize. split.
    + intros Hsize. rewrite Hcut, firstn_all2 by (rewrite Hlen; lia). reflexivity.
    + intros Hsize. exists (firstn (bufSize - 1) (lit "3 + 4 = 7" ++ TRAILER)).
      split; [apply Hcut |]. split; [| reflexivity].
      rewrite length_firstn, Hlen. lia.
  - rewrite Hcut. reflexivity.
  - intros pl drv fuel s. unfold RespondWithAnswer.
    rewrite Hparse. cbn [isQuestion ap bp op].
    rewrite Hcut. reflexivity.
Qed.

(** The responder's 36 bytes hold the whole text; the 16 bytes of the expected
    answer do not. *)
Lemma contest_question_3_plus_4_witness :
  (23 <= 36)%nat /\
  CalcResultString 36 3 4 "+" = Ok (lit "3 + 4 = 7 Joe TheBest!") /\
  (16 < 23)%nat /\
  exists text : cstr,
    CalcResultString 16 3 4 "+" = Ok text /\
    (List.length text < 22)%nat.
Proof.
  assert (H36 : (23 <= 36)%nat) by lia.
  assert (H16 : (16 < 23)%nat) by lia.
  destruct contest_question_3_plus_4 as [_ [Hsize _]].
  split; [exact H36 |].
  split; [exact (proj1 (Hsize 36%nat) H36) |].
  split; [exact H16 |].
  destruct (proj2 (Hsize 16%nat) H16) as [text [Htext [Hshort _]]].
  exists text. split; [exact Htext | exact Hshort].
Defined.

(** The challenge command formats the answer to "3 + 4 = ?" in the 16 bytes of
    [ContestCalcExpectedResultStr]: the expected answer it caches is not
    "3 + 4 = 7" followed by the trailer. *)
Lemma challenge_3_plus_4_expects_a_cut_answer :
  IsContestMessage (after_sizeof (lit "radio challenge 3 + 4 = ?") "radio challenge")
    = Some {| isQuestion := true; ap := 3; bp := 4; op := "+" |} /\
  (exists s' : Radio,
     RADIO_ParseCommand SRB_platform willing_driver 2 (lit "radio challenge 3 + 4 = ?")
       false (set_isContest true Radio_static) = Ok (ERR_OK, true, s') /\
     ContestCalcExpectedResultStr s' = lit "3 + 4 = 7 Joe T" /\
     ContestCalcExpectedResultStr s' <> lit "3 + 4 = 7" ++ TRAILER) /\
  CalcResultString 16 3 4 "+"
    <> Ok (lit "3 + 4 = 7" ++ TRAILER).
Proof.
  split; [vm_compute; reflexivity |]. split.
  - eexists. split; [vm_compute; reflexivity |].
    split; [reflexivity | vm_compute; discriminate].
  - vm_compute. discriminate.
Qed.

(** C7 (as amended).  The formatter never evaluates a division by zero: for
    all operands and every operator it returns a text.  Its last step is the
    append of the trailer, bounded by the capacity of the buffer: the text
    never has more than [bufSize - 1] characters.  In a buffer of at least 32
    bytes (the responder's has 36) nothing is cut: the text is the answer
    followed by the whole trailer, where for operator '/' the answer ends in
    the token ERROR when the divisor is zero and in the quotient otherwise. *)
Theorem CalcResultString_division_and_trailer :
  forall (bufSize : nat) (a b : Z) (op : ascii),
    is_int8 a -> is_int8 b ->
    (exists text : cstr,
       CalcResultString bufSize a b op = Ok text /\
       (List.length text <= bufSize - 1)%nat /\
       exists body : cstr, text = UTIL1.strcat body bufSize TRAILER) /\
    ((32 <= bufSize)%nat ->
       CalcResultString bufSize a b op = Ok (answer_text a b op ++ TRAILER) /\
       (op = "/"%char -> b = 0 ->
          answer_text a b op = UTIL1.sdec a ++ lit " / 0 = ERROR") /\
       (op = "/"%char -> b <> 0 ->
          answer_text a b op
            = UTIL1.sdec a ++ lit " / " ++ UTIL1.sdec b ++ lit " = "
                ++ UTIL1.sdec (int8 (Z.quot a b)))).
Proof.
  intros bufSize a b op Ha Hb.
  split.
  - destruct (CalcResultString_total bufSize a b op) as [body Hbody].
    exists (UTIL1.strcat body bufSize TRAILER).
    split; [exact Hbody |]. split; [| exists body; reflexivity].
    unfold UTIL1.strcat. rewrite length_firstn. apply Nat.le_min_l.
  - intros Hsize.
    split; [apply CalcResultString_fits; assumption |].
    unfold answer_text, result_text.
    split; intros Hop Hdiv; rewrite Hop; cbn [Ascii.eqb Bool.eqb is_NUL NUL zero].
    + rewrite Hdiv. reflexivity.
    + destruct (Z.eqb_spec b 0) as [Hzero | _]; [contradiction | reflexivity].
Qed.

Lemma CalcResultString_division_and_trailer_witness :
  is_int8 5 /\ is_int8 0 /\ (32 <= 36)%nat /\
  CalcResultString 36 5 0 "/" = Ok (lit "5 / 0 = ERROR" ++ TRAILER).
Proof.
  assert (H5 : is_int8 5) by (unfold is_int8; lia).
  assert (H0 : is_int8 0) by (unfold is_int8; lia).
  assert (H36 : (32 <= 36)%nat) by lia.
  split; [exact H5 |]. split; [exact H0 |]. split; [exact H36 |].
  destruct (CalcResultString_division_and_trailer 36 5 0 "/" H5 H0) as [_ H].
  destruct (H H36) as [Hres [Herr _]].
  rewrite Hres, (Herr eq_refl eq_refl). reflexivity.
Defined.

(** In the 16 byte buffer of the expected answer the text is cut after 15
    characters: the trailer does not follow the answer. *)
Lemma CalcResultString_16_cuts_the_trailer :
  CalcResultString 16 3 4 "+" = Ok (lit "3 + 4 = 7 Joe T") /\
  ~ (exists body : cstr, CalcResultString 16 3 4 "+" = Ok (body ++ TRAILER)).
Proof.
  assert (Hres : CalcResultString 16 3 4 "+" = Ok (lit "3 + 4 = 7 Joe T"))
    by (vm_compute; reflexivity).
  split; [exact Hres |].
  intros [body Hbody]. rewrite Hres in Hbody.
  injection Hbody as Hbody.
  pose proof (f_equal (@List.length ascii) Hbody) as Hlen.
  rewrite length_app in Hlen.
  change (List.length TRAILER) with 13%nat in Hlen.
  cbn [List.length] in Hlen.
  destruct body as [| c1 [| c2 [| c3 body]]]; cbn [List.length] in Hlen; try lia.
  vm_compute in Hbody. discriminate Hbody.
Qed.

(** Nothing of the trailer is left when the answer alone fills the buffer. *)
Lemma CalcResultString_16_drops_the_trailer :
  CalcResultString 16 (-128) (-128) "*" = Ok (lit "-128 * -128 = 0").
Proof. vm_compute. reflexivity. Qed.

(** ** The consumer of contest answers *)

(** C1 (what the code does).  On a dequeued ContestAnswer message the handler
    compares the answer with the cached expected answer over the length of
    the cached string, and prints the winner message exactly when the
    comparison result is not zero, that is when the two differ; on a match it
    prints nothing. *)
Theorem contest_answer_win_on_mismatch :
  forall (pl : Platform) (drv : Driver) (fuel : nat) (msg : list ascii) (s : Radio),
    code (peek msg) = kind_value RADIO_QUEUE_MSG_CONTEST_ANSWER ->
    let answer := cstring (next (next msg)) in
    let expected := ContestCalcExpectedResultStr s in
    let cmp := UTIL1.strncmp answer expected (UTIL1.strlen expected) in
    (cmp = 0 -> RADIO_HandleMessage pl drv fuel msg s = Ok s) /\
    (cmp <> 0 ->
       RADIO_HandleMessage pl drv fuel msg s
         = Ok (call (CLS1_SendStr CRLF Stdio_stdOut)
                 (call (CLS1_SendStr answer Stdio_stdOut)
                    (call (CLS1_SendStr WINNER Stdio_stdOut) s)))).
Proof.
  intros pl drv fuel msg s Hkind answer expected cmp.
  unfold RADIO_HandleMessage. rewrite Hkind.
  cbn [kind_value Z.eqb Pos.eqb andb].
  rewrite andb_false_r.
  fold answer. fold expected. fold cmp.
  destruct (Z.eqb_spec cmp 0) as [Hz | Hnz]; cbn [negb];
    split; intros H; try contradiction; reflexivity.
Qed.

Lemma challenged_expects :
  ContestCalcExpectedResultStr challenged = lit "3 + 4 = 7 Joe T".
Proof. vm_compute. reflexivity. Qed.

Lemma answer_is_queued (data : list ascii) :
  data = right_answer \/ data = wrong_answer ->
  RADIO_MsgQueue
    (RADIO_DataIndicationPacket SRB_platform (fun _ => blank_stack)
       (answer_packet data) challenged)
    = [answer_slot data].
Proof.
  intros [-> | ->]; vm_compute; reflexivity.
Qed.

(** The right answer to the challenge wins nothing; a wrong one is announced
    as the winner. *)
Lemma contest_answer_win_on_mismatch_witness :
  RADIO_HandleMessage SRB_platform willing_driver 0 (answer_slot right_answer) challenged
    = Ok challenged /\
  RADIO_HandleMessage SRB_platform willing_driver 0 (answer_slot wrong_answer) challenged
    = Ok (call (CLS1_SendStr CRLF Stdio_stdOut)
            (call (CLS1_SendStr (lit "3 + 4 = 8 Joe TheBest!") Stdio_stdOut)
               (call (CLS1_SendStr WINNER Stdio_stdOut) challenged))).
Proof.
  split.
  - destruct (contest_answer_win_on_mismatch SRB_platform willing_driver 0
                (answer_slot right_answer) challenged eq_refl) as [H _].
    apply H. vm_compute. reflexivity.
  - destruct (contest_answer_win_on_mismatch SRB_platform willing_driver 0
                (answer_slot wrong_answer) challenged eq_refl) as [_ H].
    rewrite H; [reflexivity | vm_compute; discriminate].
Defined.

(** * Further properties of Radio.c *)

(** ** The state machine and the send operations *)

Lemma drain_ready (pl : Platform) (drv : Driver) (fuel : nat) (s : Radio) :
  RADIO_AppStatus s = RADIO_READY_FOR_TX_RX_DATA -> drain pl drv fuel s = Ok s.
Proof.
  intros H. destruct fuel; cbn [drain]; rewrite H; reflexivity.
Qed.

Lemma drain_frame (pl : Platform) (drv : Driver) (fuel : nat) :
  forall s s' : Radio,
    drain pl drv fuel s = Ok s' ->
    RADIO_AppStatus s' = RADIO_READY_FOR_TX_RX_DATA /\
    settings s' = settings s /\
    RADIO_MsgQueue s' = RADIO_MsgQueue s /\
    RADIO_TxDataBuffer s' = RADIO_TxDataBuffer s /\
    RADIO_TxPacket s' = RADIO_TxPacket s.
Proof.
  induction fuel as [| fuel IH]; intros s s' H; cbn [drain] in H.
  - destruct (RADIO_AppStatus s) eqn:E; try discriminate H.
    injection H as <-. repeat split; assumption.
  - destruct (RADIO_AppStatus s) eqn:E;
      try (injection H as <-; repeat split; assumption);
      apply IH in H; destruct H as [H1 [H2 [H3 [H4 H5]]]];
      destruct (RADIO_HandleState_frame pl drv s) as [F2 [F3 [F4 F5]]];
      (split; [exact H1 |]); (split; [congruence |]); (split; [congruence |]);
      split; congruence.
Qed.

(** X1. [RADIO_SendString] is [RADIO_SendStringRaw] of the prefix followed by
    the data, whatever the capacity of the transmit buffer is. *)
Theorem RADIO_SendString_is_raw_of_prefixed :
  forall (pl : Platform) (drv : Driver) (fuel : nat) (data : cstr) (s : Radio),
    RADIO_SendString pl drv fuel data s
      = RADIO_SendStringRaw pl drv fuel (RADIO_PREFIX_STR ++ data) s.
Proof.
  intros pl drv fuel data s. unfold RADIO_SendString, RADIO_SendStringRaw.
  destruct (RADIO_isOn s); cbn [negb]; [| reflexivity].
  destruct (drain pl drv fuel s) as [s1 | |]; cbn [bind]; try reflexivity.
  unfold UTIL1.strcat, UTIL1.strcpy. rewrite firstn_app_firstn. reflexivity.
Qed.

(** X2. From every state but TransmitData and WaitingForAck the busy loop of
    the send operations ends within three steps of the state machine, in
    ReadyForTxRx, with the flags, the queue, the transmit buffer and packet
    as they were. *)
Theorem busy_loop_ends_within_three_steps :
  forall (pl : Platform) (drv : Driver) (fuel : nat) (s : Radio),
    RADIO_AppStatus s <> RADIO_TRANSMIT_DATA ->
    RADIO_AppStatus s <> RADIO_WAITING_FOR_ACK ->
    (3 <= fuel)%nat ->
    exists s' : Radio,
      drain pl drv fuel s = Ok s' /\
      RADIO_AppStatus s' = RADIO_READY_FOR_TX_RX_DATA /\
      settings s' = settings s /\
      RADIO_MsgQueue s' = RADIO_MsgQueue s /\
      RADIO_TxDataBuffer s' = RADIO_TxDataBuffer s /\
      RADIO_TxPacket s' = RADIO_TxPacket s.
Proof.
  intros pl drv fuel s Htx Hwait Hfuel.
  assert (Hok : exists s', drain pl drv fuel s = Ok s').
  { destruct fuel as [| [| [| fuel]]]; try lia.
    destruct s as [c cs e n st ch pw on sn pk tb ab q t].
    cbn [RADIO_AppStatus] in Htx, Hwait.
    destruct st; try contradiction;
      cbn -[RADIO_TIMEOUT_COUNT]; rewrite ?drain_ready by reflexivity;
      eexists; reflexivity. }
  destruct Hok as [s' Hs']. exists s'. split; [exact Hs' |].
  apply (drain_frame pl drv fuel s s' Hs').
Qed.

Lemma busy_loop_ends_within_three_steps_witness :
  exists s' : Radio,
    drain SRB_platform willing_driver 3
      (set_AppStatus RADIO_RESET_STATE Radio_static) = Ok s' /\
    RADIO_AppStatus s' = RADIO_READY_FOR_TX_RX_DATA.
Proof.
  destruct (busy_loop_ends_within_three_steps SRB_platform willing_driver 3
              (set_AppStatus RADIO_RESET_STATE Radio_static))
    as [s' [H1 [H2 _]]]; [discriminate | discriminate | lia |].
  exists s'. split; assumption.
Defined.

Lemma drain_stuck_waiting (pl : Platform) (drv : Driver) (fuel : nat) (s : Radio) :
  RADIO_AppStatus s = RADIO_WAITING_FOR_ACK -> drain pl drv fuel s = OutOfFuel.
Proof.
  intros Hst. induction fuel as [| fuel IH]; cbn [drain]; rewrite Hst; [reflexivity |].
  unfold RADIO_HandleState. rewrite Hst. exact IH.
Qed.

(** X3. With the radio on and the state WaitingForAck, neither send operation
    returns, whatever number of steps its busy loop is given: a step of the
    state machine does not leave WaitingForAck, only an event does. *)
Theorem send_never_returns_in_WaitingForAck :
  forall (pl : Platform) (drv : Driver) (fuel : nat) (data : cstr) (s : Radio),
    RADIO_isOn s = true ->
    RADIO_AppStatus s = RADIO_WAITING_FOR_ACK ->
    RADIO_HandleState pl drv s = s /\
    RADIO_SendString pl drv fuel data s = OutOfFuel /\
    RADIO_SendStringRaw pl drv fuel data s = OutOfFuel.
Proof.
  intros pl drv fuel data s Hon Hst.
  split; [unfold RADIO_HandleState; rewrite Hst; reflexivity |].
  unfold RADIO_SendString, RADIO_SendStringRaw.
  rewrite Hon, (drain_stuck_waiting pl drv fuel s Hst). split; reflexivity.
Qed.

Lemma send_never_returns_in_WaitingForAck_witness :
  RADIO_HandleState SRB_platform willing_driver waiting_for_ack = waiting_for_ack /\
  RADIO_SendString SRB_platform willing_driver 1000 (lit "hello") waiting_for_ack
    = OutOfFuel /\
  RADIO_SendStringRaw SRB_platform willing_driver 1000 (lit "hello") waiting_for_ack
    = OutOfFuel.
Proof.
  exact (send_never_returns_in_WaitingForAck SRB_platform willing_driver 1000
           (lit "hello") waiting_for_ack eq_refl eq_refl).
Defined.

(** X4. In TransmitData, as long as the driver refuses to leave the receive
    mode, every step retries and stays in TransmitData without a transmit
    request; with a driver that always refuses, the busy loop of a send
    operation never ends. *)
Theorem TransmitData_retries_forever :
  forall (pl : Platform) (drv : Driver) (fuel : nat) (data : cstr) (s : Radio),
    (forall t, smac_answer drv (t ++ [SMAC1_MLMERXDisableRequest]) <> SMAC1_SUCCESS) ->
    RADIO_isOn s = true ->
    RADIO_AppStatus s = RADIO_TRANSMIT_DATA ->
    RADIO_AppStatus (RADIO_HandleState pl drv s) = RADIO_TRANSMIT_DATA /\
    trace (RADIO_HandleState pl drv s) = trace s ++ [SMAC1_MLMERXDisableRequest] /\
    RADIO_SendString pl drv fuel data s = OutOfFuel /\
    RADIO_SendStringRaw pl drv fuel data s = OutOfFuel.
Proof.
  intros pl drv fuel data s Hdrv Hon Hst.
  assert (Hstep : forall s0, RADIO_AppStatus s0 = RADIO_TRANSMIT_DATA ->
            RADIO_AppStatus (RADIO_HandleState pl drv s0) = RADIO_TRANSMIT_DATA /\
            trace (RADIO_HandleState pl drv s0) = trace s0 ++ [SMAC1_MLMERXDisableRequest]).
  { intros s0 H0. unfold RADIO_HandleState, request. rewrite H0. fields.
    specialize (Hdrv (trace s0)).
    destruct (smac_answer drv (trace s0 ++ [SMAC1_MLMERXDisableRequest]));
      try contradiction; cbn [is_SUCCESS negb]; fields; split; reflexivity. }
  assert (Hdrain : forall n s0, RADIO_AppStatus s0 = RADIO_TRANSMIT_DATA ->
            drain pl drv n s0 = OutOfFuel).
  { induction n as [| n IH]; intros s0 H0; cbn [drain]; rewrite H0; [reflexivity |].
    apply IH, Hstep, H0. }
  destruct (Hstep s Hst) as [H1 H2].
  split; [exact H1 |]. split; [exact H2 |].
  unfold RADIO_SendString, RADIO_SendStringRaw.
  rewrite Hon, (Hdrain fuel s Hst). split; reflexivity.
Qed.

Lemma TransmitData_retries_forever_witness :
  RADIO_AppStatus (RADIO_HandleState SRB_platform rx_stuck_driver (transmitting false))
    = RADIO_TRANSMIT_DATA /\
  RADIO_SendString SRB_platform rx_stuck_driver 1000 (lit "hello") (transmitting false)
    = OutOfFuel.
Proof.
  assert (Hdrv : forall t,
            smac_answer rx_stuck_driver (t ++ [SMAC1_MLMERXDisableRequest])
              <> SMAC1_SUCCESS)
    by (intros t; cbn [smac_answer rx_stuck_driver]; rewrite last_last; discriminate).
  destruct (TransmitData_retries_forever SRB_platform rx_stuck_driver 1000
              (lit "hello") (transmitting false) Hdrv eq_refl eq_refl)
    as [H1 [_ [H3 _]]].
  split; assumption.
Defined.

(** X5. A send operation called with the radio on in ReadyForTxRx needs no
    step of the busy loop.  It loads the text, cut to the capacity of the
    transmit buffer, sets the packet length to the length of the text plus one
    (as a byte) and takes one step: with a driver that accepts the
    transmission, exactly that packet and text are handed over, a bounded
    receive is armed, and the state is WaitingForAck (ReceiveAlwaysOn in
    contest mode).  Flags and queue are not touched. *)
Theorem send_from_Ready :
  forall (pl : Platform) (drv : Driver) (fuel : nat) (data : cstr) (s : Radio),
    RADIO_isOn s = true ->
    RADIO_AppStatus s = RADIO_READY_FOR_TX_RX_DATA ->
    let text := firstn (SMAC1_RADIO_BUF_SIZE pl - 1) data in
    let packet := {| tx_u8DataLength := uint8 (Z.of_nat (List.length text) + 1);
                     tx_pu8Data := RADIO_TxDataBuffer_ |} in
    exists s' : Radio,
      RADIO_SendStringRaw pl drv fuel data s = Ok s' /\
      RADIO_TxDataBuffer s' = text /\
      RADIO_TxPacket s' = packet /\
      settings s' = settings s /\
      RADIO_MsgQueue s' = RADIO_MsgQueue s /\
      (accepts_transmission drv s packet text ->
         RADIO_AppStatus s' =
           (if RADIO_isContest s then RADIO_RECEIVER_ALWAYS_ON
            else RADIO_WAITING_FOR_ACK) /\
         trace s' = trace s ++ [SMAC1_MLMERXDisableRequest; LED1_Neg;
                                SMAC1_MCPSDataRequest packet text;
                                SMAC1_MLMERXEnableRequest RADIO_TIMEOUT_COUNT]).
Proof.
  intros pl drv fuel data s Hon Hst text packet.
  unfold RADIO_SendStringRaw. rewrite Hon, (drain_ready pl drv fuel s Hst).
  cbn [negb bind]. unfold UTIL1.strcpy, UTIL1.strlen. fold text. fields. fold packet.
  set (s1 := set_AppStatus RADIO_TRANSMIT_DATA
               (set_TxPacket packet (set_TxDataBuffer text s))).
  exists (RADIO_HandleState pl drv s1).
  destruct (RADIO_HandleState_frame pl drv s1) as [F1 [F2 [F3 F4]]].
  split; [reflexivity |]. split; [exact F3 |]. split; [exact F4 |].
  split; [exact F1 |]. split; [exact F2 |].
  intros [Hdis Htx].
  unfold RADIO_HandleState, request. subst s1. fields.
  rewrite Hdis. cbn [is_SUCCESS negb]. fields.
  unfold tx_data. change (tx_pu8Data packet) with RADIO_TxDataBuffer_.
  cbv iota. fields.
  rewrite <- !app_assoc. cbn [app]. rewrite Htx. cbn [is_SUCCESS]. fields.
  destruct (RADIO_isContest s); fields; rewrite <- !app_assoc; split; reflexivity.
Qed.

Lemma send_from_Ready_witness :
  exists s' : Radio,
    RADIO_SendStringRaw SRB_platform willing_driver 0 (lit "3 + 4 = ?") ready = Ok s' /\
    RADIO_TxDataBuffer s' = lit "3 + 4 = ?" /\
    RADIO_TxPacket s' = {| tx_u8DataLength := 10; tx_pu8Data := RADIO_TxDataBuffer_ |} /\
    RADIO_AppStatus s' = RADIO_WAITING_FOR_ACK.
Proof.
  destruct (send_from_Ready SRB_platform willing_driver 0 (lit "3 + 4 = ?") ready
              eq_refl eq_refl) as [s' [H1 [H2 [H3 [_ [_ H6]]]]]].
  exists s'. split; [exact H1 |]. split; [exact H2 |]. split; [exact H3 |].
  apply H6. split; reflexivity.
Defined.

(** X6. Recovery from a reset of the transceiver: once the reset indication
    has raised its event and the event has been handled, the state machine is
    back in ReadyForTxRx after exactly three steps, from whatever state it was
    in; on the way the driver is re-initialised and the receiver is switched
    on without a timeout.  Flags, queue, transmit buffer and packet survive. *)
Theorem reset_recovery :
  forall (pl : Platform) (drv : Driver) (s : Radio),
    let s0 := RADIO_AppHandleEvent EVNT_RADIO_RESET (RADIO_ResetIndication s) in
    exists s' : Radio,
      drain pl drv 3 s0 = Ok s' /\
      drain pl drv 2 s0 = OutOfFuel /\
      RADIO_AppStatus s' = RADIO_READY_FOR_TX_RX_DATA /\
      trace s' = trace s ++ [EVNT_SetEvent EVNT_RADIO_RESET;
                             SHELL_SendMessage (lit "RADIO reset" ++ CRLF);
                             SMAC1_RadioInit; SMAC1_MLMERXEnableRequest 0] /\
      settings s' = settings s /\
      RADIO_MsgQueue s' = RADIO_MsgQueue s /\
      RADIO_TxDataBuffer s' = RADIO_TxDataBuffer s /\
      RADIO_TxPacket s' = RADIO_TxPacket s.
Proof.
  intros pl drv s s0. subst s0.
  destruct s as [c cs e n st ch pw on sn pk tb ab q t].
  eexists. split; [reflexivity |].
  split; [reflexivity |]. split; [reflexivity |].
  split; [cbn; rewrite <- !app_assoc; reflexivity |].
  repeat split.
Qed.

(** ** The receive callback and the queue *)

Lemma unchanged_refl (s : Radio) : unchanged_but_queue_and_trace s s.
Proof. repeat split. Qed.

Lemma unchanged_trans (s1 s2 s3 : Radio) :
  unchanged_but_queue_and_trace s1 s2 ->
  unchanged_but_queue_and_trace s2 s3 ->
  unchanged_but_queue_and_trace s1 s3.
Proof.
  unfold unchanged_but_queue_and_trace.
  intros [A1 [A2 [A3 [A4 A5]]]] [B1 [B2 [B3 [B4 B5]]]].
  repeat split; congruence.
Qed.

Lemma unchanged_call (c : Call) (s : Radio) :
  unchanged_but_queue_and_trace s (call c s).
Proof. repeat split. Qed.

Lemma unchanged_QueueMessage stack kind msg msgSize s :
  unchanged_but_queue_and_trace s (QueueMessage stack kind msg msgSize s).
Proof.
  destruct (QueueMessage_cases stack kind msg msgSize s) as [-> | [q ->]];
    repeat split.
Qed.

(** The array built by [QueueMessage] has 32 cells whatever the length
    argument is. *)
Lemma QueueMessage_buf_length (stack : Stack) (kind : RADIO_QueueMsgKind)
    (msg : list ascii) (msgSize : Z) :
  List.length (fst (QueueMessage_buf stack kind msg msgSize)) = RADIO_QUEUE_ITEM_SIZE.
Proof.
  unfold QueueMessage_buf.
  apply (QueueMessage_loop_spec RADIO_QUEUE_ITEM_SIZE).
  - rewrite !store_length, length_map, length_seq. reflexivity.
  - unfold RADIO_QUEUE_ITEM_SIZE. lia.
  - unfold uint8. pose proof (Z.mod_pos_bound msgSize 256). lia.
  - unfold RADIO_QUEUE_ITEM_SIZE. lia.
Qed.

(** The queue after [QueueMessage]: the old one, with the new slot at its
    back when there was room. *)
Lemma QueueMessage_queue stack kind msg msgSize s :
  queue_ok s ->
  queue_ok (QueueMessage stack kind msg msgSize s) /\
  exists added,
    RADIO_MsgQueue (QueueMessage stack kind msg msgSize s) = RADIO_MsgQueue s ++ added /\
    (added = [] \/ added = [fst (QueueMessage_buf stack kind msg msgSize)]).
Proof.
  intros [Hlen Hall]. unfold QueueMessage, FRTOS1_xQueueSendToBackFromISR, queue_ok.
  pose proof (QueueMessage_buf_length stack kind msg msgSize) as Hbuf.
  destruct (Nat.ltb_spec (List.length (RADIO_MsgQueue s)) RADIO_QUEUE_NOF_ITEMS)
    as [Hroom | Hfull]; fields.
  - rewrite firstn_all2 by lia. split.
    + split; [rewrite length_app; cbn [List.length]; lia |].
      apply Forall_app. split; [exact Hall | constructor; [exact Hbuf | constructor]].
    + eexists. split; [reflexivity | right; reflexivity].
  - split; [split; assumption |].
    exists []. rewrite app_nil_r. split; [reflexivity | left; reflexivity].
Qed.

(** X7. The receive callback, which runs in interrupt context, writes nothing
    but the queue and the trace: the radio state, the flags and settings, the
    cached expected answer, the transmit buffers and the transmit packet are
    the same after it, for every packet and status. *)
Theorem RADIO_DataIndicationPacket_frame :
  forall (pl : Platform) (stack : RADIO_QueueMsgKind -> Stack)
         (sRxPacket : tRxPacket) (s : Radio),
    unchanged_but_queue_and_trace s (RADIO_DataIndicationPacket pl stack sRxPacket s).
Proof.
  intros pl stack rx s. unfold RADIO_DataIndicationPacket.
  destruct (u8Status rx); try apply unchanged_refl.
  - set (s0 := if RADIO_isSniffing s then _ else s).
    assert (H0 : unchanged_but_queue_and_trace s s0)
      by (subst s0; destruct (RADIO_isSniffing s);
          [apply unchanged_QueueMessage | apply unchanged_refl]).
    apply (unchanged_trans _ _ _ H0).
    destruct (_ && _); [apply unchanged_call |].
    destruct (if RADIO_isContest s0 then _ else _) as [m |].
    + destruct (isQuestion m);
        (eapply unchanged_trans; [apply unchanged_QueueMessage | apply unchanged_call]).
    + destruct (_ =? 0); [| apply unchanged_call].
      destruct (PL_HAS_REMOTE pl && PL_HAS_MOTOR pl);
        [destruct (_ =? 0) |];
        try (eapply unchanged_trans; [apply unchanged_QueueMessage | apply unchanged_call]);
        apply unchanged_call.
  - repeat split.
  - repeat split.
Qed.

(** X8. The callback keeps the queue well formed and in order: if the queue
    holds at most eight slots of 32 bytes before, it does so after; the slots
    already queued stay where they are, and at most two slots (the sniff copy
    and one classified message) are appended behind them. *)
Theorem RADIO_DataIndicationPacket_queue :
  forall (pl : Platform) (stack : RADIO_QueueMsgKind -> Stack)
         (sRxPacket : tRxPacket) (s : Radio),
    queue_ok s ->
    queue_ok (RADIO_DataIndicationPacket pl stack sRxPacket s) /\
    exists added,
      RADIO_MsgQueue (RADIO_DataIndicationPacket pl stack sRxPacket s)
        = RADIO_MsgQueue s ++ added /\
      (List.length added <= 2)%nat.
Proof.
  intros pl stack rx s Hok.
  assert (Hnone : forall s1 : Radio, queue_ok s1 ->
            queue_ok s1 /\ exists added, RADIO_MsgQueue s1 = RADIO_MsgQueue s1 ++ added /\
                                         (List.length added <= 0)%nat)
    by (intros s1 H1; split; [exact H1 |]; exists []; rewrite app_nil_r; split;
        [reflexivity | cbn; lia]).
  assert (Hone : forall st k m n (s1 : Radio), queue_ok s1 ->
            queue_ok (QueueMessage st k m n s1) /\
            exists added, RADIO_MsgQueue (QueueMessage st k m n s1)
                            = RADIO_MsgQueue s1 ++ added /\
                          (List.length added <= 1)%nat).
  { intros st k m n s1 H1.
    destruct (QueueMessage_queue st k m n s1 H1) as [Q [added [E [-> | ->]]]];
      (split; [exact Q |]); eexists; (split; [exact E |]); cbn; lia. }
  assert (Hcall : forall c (s1 : Radio) (k : nat),
            (queue_ok s1 /\ exists added, RADIO_MsgQueue s1 = RADIO_MsgQueue s ++ added /\
                                          (List.length added <= k)%nat) ->
            (k <= 2)%nat ->
            queue_ok (call c s1) /\
            exists added, RADIO_MsgQueue (call c s1) = RADIO_MsgQueue s ++ added /\
                          (List.length added <= 2)%nat).
  { intros c s1 k [Q [added [E L]]] Hk. split; [exact Q |].
    exists added. split; [exact E | lia]. }
  assert (Hmore : forall st k m n (s1 : Radio) (j : nat),
            (queue_ok s1 /\ exists added, RADIO_MsgQueue s1 = RADIO_MsgQueue s ++ added /\
                                          (List.length added <= j)%nat) ->
            queue_ok (QueueMessage st k m n s1) /\
            exists added, RADIO_MsgQueue (QueueMessage st k m n s1)
                            = RADIO_MsgQueue s ++ added /\
                          (List.length added <= S j)%nat).
  { intros st k m n s1 j [Q [added [E L]]].
    destruct (Hone st k m n s1 Q) as [Q' [added' [E' L']]].
    split; [exact Q' |]. exists (added ++ added').
    rewrite E', E, app_assoc, length_app. split; [reflexivity | lia]. }
  unfold RADIO_DataIndicationPacket.
  assert (Hs : queue_ok s /\ exists added, RADIO_MsgQueue s = RADIO_MsgQueue s ++ added /\
                                           (List.length added <= 0)%nat)
    by (apply Hnone, Hok).
  destruct (u8Status rx).
  - set (s0 := if RADIO_isSniffing s then _ else s).
    assert (H0 : queue_ok s0 /\
                 exists added, RADIO_MsgQueue s0 = RADIO_MsgQueue s ++ added /\
                               (List.length added <= 1)%nat).
    { subst s0. destruct (RADIO_isSniffing s); [apply Hmore, Hs |].
      destruct Hs as [Q [added [E L]]]. split; [exact Q |].
      exists added. split; [exact E | lia]. }
    destruct (_ && _); [apply (Hcall _ _ 1%nat H0); lia |].
    destruct (if RADIO_isContest s0 then _ else _) as [m |].
    + destruct (isQuestion m); apply (Hcall _ _ 2%nat); try lia; apply Hmore, H0.
    + destruct (_ =? 0); [| apply (Hcall _ _ 1%nat H0); lia].
      destruct (PL_HAS_REMOTE pl && PL_HAS_MOTOR pl);
        [destruct (_ =? 0) |];
        try (apply (Hcall _ _ 1%nat H0); lia).
      apply (Hcall _ _ 2%nat); try lia; apply Hmore, H0.
  - apply (Hcall _ _ 0%nat); [| lia].
    destruct Hs as [Q [added [E L]]]. split; [exact Q |]. exists added. split; assumption.
  - apply (Hcall _ _ 0%nat); [| lia].
    destruct Hs as [Q [added [E L]]]. split; [exact Q |]. exists added. split; assumption.
  - destruct Hs as [Q [added [E L]]]. split; [exact Q |]. exists added. split; [exact E | lia].
  - destruct Hs as [Q [added [E L]]]. split; [exact Q |]. exists added. split; [exact E | lia].
Qed.

(** A contest question received while sniffing.  With six slots queued, the
    sniff copy and the question are appended and the queue is full; with seven
    slots queued, the sniff copy takes the last place and the question is
    dropped. *)
Lemma RADIO_DataIndicationPacket_queue_witness :
  queue_ok (queued 6) /\
  queue_ok (RADIO_DataIndicationPacket SRB_platform (fun _ => blank_stack)
              question_packet (queued 6)) /\
  RADIO_MsgQueue (RADIO_DataIndicationPacket SRB_platform (fun _ => blank_stack)
                    question_packet (queued 6))
    = RADIO_MsgQueue (queued 6)
        ++ [fst (QueueMessage_buf blank_stack RADIO_QUEUE_MSG_SNIFF
                   (pu8Data question_packet) 10);
            fst (QueueMessage_buf blank_stack RADIO_QUEUE_MSG_CONTEST_QUESTION
                   (pu8Data question_packet) 10)] /\
  queue_ok (queued 7) /\
  queue_ok (RADIO_DataIndicationPacket SRB_platform (fun _ => blank_stack)
              question_packet (queued 7)) /\
  RADIO_MsgQueue (RADIO_DataIndicationPacket SRB_platform (fun _ => blank_stack)
                    question_packet (queued 7))
    = RADIO_MsgQueue (queued 7)
        ++ [fst (QueueMessage_buf blank_stack RADIO_QUEUE_MSG_SNIFF
                   (pu8Data question_packet) 10)].
Proof.
  assert (H6 : queue_ok (queued 6))
    by (split; [apply Nat.leb_le; reflexivity | repeat constructor]).
  assert (H7 : queue_ok (queued 7))
    by (split; [apply Nat.leb_le; reflexivity | repeat constructor]).
  split; [exact H6 |].
  split; [exact (proj1 (RADIO_DataIndicationPacket_queue SRB_platform
                          (fun _ => blank_stack) question_packet (queued 6) H6)) |].
  split; [reflexivity |].
  split; [exact H7 |].
  split; [exact (proj1 (RADIO_DataIndicationPacket_queue SRB_platform
                          (fun _ => blank_stack) question_packet (queued 7) H7)) |].
  reflexivity.
Defined.

(** ** The contest protocol: frames written and read back *)

Lemma int8_values_complete (z : Z) : is_int8 z -> In z int8_values.
Proof.
  intros H. unfold is_int8 in H. unfold int8_values.
  apply in_map_iff. exists (Z.to_nat (z + 128)). split; [lia |].
  apply in_seq. lia.
Qed.

(** A number written by the formatting routine and followed by a blank is
    read back by [UTIL1.xatoi], which stops at the blank. *)
Lemma xatoi_sdec (rest : cstr) (z : Z) :
  is_int8 z ->
  UTIL1.xatoi (UTIL1.sdec z ++ " "%char :: rest) = Some (z, " "%char :: rest).
Proof.
  intros H. apply int8_values_complete in H. revert z H.
  apply Forall_forall.
  let l := eval vm_compute in int8_values in change int8_values with l.
  repeat (apply Forall_cons; [reflexivity |]). apply Forall_nil.
Qed.

Lemma base_operation_cases (op : ascii) :
  is_base_operation op = true ->
  op = "+"%char \/ op = "-"%char \/ op = "*"%char \/ op = "/"%char.
Proof.
  unfold is_base_operation. intros H.
  destruct (Ascii.eqb_spec op "+"); [auto |].
  destruct (Ascii.eqb_spec op "-"); [auto |].
  destruct (Ascii.eqb_spec op "*"); [auto |].
  destruct (Ascii.eqb_spec op "/"); [auto | discriminate H].
Qed.

Lemma xatoi_blank (m : cstr) : UTIL1.xatoi (" "%char :: m) = UTIL1.xatoi m.
Proof. reflexivity. Qed.

(** What [IsContestMessage] does with a text that begins "a op b = ": the
    decision is left to what follows. *)
Lemma IsContestMessage_after_equals (a b : Z) (o : ascii) (tail : cstr) :
  is_int8 a -> is_int8 b -> is_base_operation o = true ->
  IsContestMessage
    (UTIL1.sdec a ++ " "%char :: o :: " "%char :: UTIL1.sdec b
       ++ " "%char :: "="%char :: " "%char :: tail)
    = if Ascii.eqb (peek (UTIL1.skip_spaces tail)) "?"
      then Some {| isQuestion := true; ap := a; bp := b; op := o |}
      else match UTIL1.xatoi (UTIL1.skip_spaces tail) with
           | Some _ => Some {| isQuestion := false; ap := a; bp := b; op := o |}
           | None => None
           end.
Proof.
  intros Ha Hb Hop. unfold IsContestMessage.
  rewrite (xatoi_sdec _ a Ha).
  destruct (base_operation_cases o Hop) as [-> | [-> | [-> | ->]]];
    contest_steps; rewrite xatoi_blank, (xatoi_sdec _ b Hb);
    contest_steps; rewrite int8_id, int8_id by assumption; reflexivity.
Qed.

Lemma IsContestMessage_question_text :
  forall (a b : Z) (op : ascii),
    is_int8 a -> is_int8 b -> is_base_operation op = true ->
    IsContestMessage (question_text a b op)
      = Some {| isQuestion := true; ap := a; bp := b; op := op |}.
Proof.
  intros a b o Ha Hb Hop.
  unfold question_text. flatten_text.
  rewrite (IsContestMessage_after_equals a b o _ Ha Hb Hop). reflexivity.
Qed.

(** X9. A challenge round trip: for all operands of type [int8_t] and each of
    the four operators, the text "a op b = ?" is accepted by
    [IsContestMessage] as a question with exactly these operands and this
    operator. *)
Theorem question_round_trip :
  forall (a b : Z) (op : ascii),
    is_int8 a -> is_int8 b -> is_base_operation op = true ->
    IsContestMessage (question_text a b op)
      = Some {| isQuestion := true; ap := a; bp := b; op := op |}.
Proof.
  intros a b o Ha Hb Hop.
  unfold question_text. flatten_text.
  rewrite (IsContestMessage_after_equals a b o _ Ha Hb Hop).
  cbn [UTIL1.skip_spaces peek hd]. reflexivity.
Qed.

Lemma question_round_trip_witness :
  IsContestMessage (question_text (-128) 127 "*")
    = Some {| isQuestion := true; ap := -128; bp := 127; op := "*" |}.
Proof.
  apply question_round_trip; [unfold is_int8; lia | unfold is_int8; lia | reflexivity].
Defined.

(** A formatted number does not begin with a blank or a question mark. *)
Lemma sdec_head (rest : cstr) (z : Z) :
  is_int8 z ->
  UTIL1.skip_spaces (UTIL1.sdec z ++ rest) = UTIL1.sdec z ++ rest /\
  Ascii.eqb (peek (UTIL1.sdec z ++ rest)) "?" = false.
Proof.
  intros H. apply int8_values_complete in H. revert z H.
  apply Forall_forall.
  let l := eval vm_compute in int8_values in change int8_values with l.
  repeat (apply Forall_cons; [split; reflexivity |]). apply Forall_nil.
Qed.

Lemma xatoi_ERROR (rest : cstr) : UTIL1.xatoi ("E"%char :: rest) = None.
Proof. reflexivity. Qed.

Lemma answer_text_flat (a b : Z) (o : ascii) (r : cstr) :
  (UTIL1.sdec a ++ lit " " ++ [o] ++ lit " " ++ UTIL1.sdec b ++ lit " = " ++ r)
    ++ TRAILER
  = UTIL1.sdec a ++ " "%char :: o :: " "%char :: UTIL1.sdec b
      ++ " "%char :: "="%char :: " "%char :: r ++ TRAILER.
Proof. flatten_text. reflexivity. Qed.

(** A text "a op b = <number>" followed by the trailer is an answer. *)
Lemma IsContestMessage_number_result (a b v : Z) (o : ascii) :
  is_int8 a -> is_int8 b -> is_base_operation o = true ->
  IsContestMessage
    (UTIL1.sdec a ++ " "%char :: o :: " "%char :: UTIL1.sdec b
       ++ " "%char :: "="%char :: " "%char :: UTIL1.sdec (int8 v) ++ TRAILER)
    = Some {| isQuestion := false; ap := a; bp := b; op := o |}.
Proof.
  intros Ha Hb Hop. rewrite (IsContestMessage_after_equals a b o _ Ha Hb Hop).
  destruct (sdec_head TRAILER (int8 v) (int8_is_int8 v)) as [-> ->].
  unfold TRAILER. flatten_text.
  rewrite (xatoi_sdec _ (int8 v) (int8_is_int8 v)). reflexivity.
Qed.

(** A text "a op b = ERROR" followed by the trailer is no contest
    message. *)
Lemma IsContestMessage_ERROR_result (a b : Z) (o : ascii) :
  is_int8 a -> is_int8 b -> is_base_operation o = true ->
  IsContestMessage
    (UTIL1.sdec a ++ " "%char :: o :: " "%char :: UTIL1.sdec b
       ++ " "%char :: "="%char :: " "%char :: lit "ERROR" ++ TRAILER)
    = None.
Proof.
  intros Ha Hb Hop. rewrite (IsContestMessage_after_equals a b o _ Ha Hb Hop).
  reflexivity.
Qed.

(** X10. An answer round trip, and where it fails: for all operands of type
    [int8_t] and each of the four operators, the complete answer (text and
    trailer) is accepted by [IsContestMessage] as an answer with the same
    operands and operator, except the answer to a division by zero, which is
    no contest message at all: ERROR is not a number. *)
Theorem answer_round_trip :
  forall (a b : Z) (op : ascii),
    is_int8 a -> is_int8 b -> is_base_operation op = true ->
    IsContestMessage (answer_text a b op ++ TRAILER)
      = if Ascii.eqb op "/" && (b =? 0) then None
        else Some {| isQuestion := false; ap := a; bp := b; op := op |}.
Proof.
  intros a b o Ha Hb Hop.
  unfold answer_text, result_text.
  destruct (base_operation_cases o Hop) as [-> | [-> | [-> | ->]]];
    cbv beta iota zeta delta [is_NUL NUL zero Ascii.eqb Bool.eqb andb];
    try destruct (b =? 0);
    rewrite answer_text_flat;
    first [apply IsContestMessage_number_result
          | apply IsContestMessage_ERROR_result]; (assumption || reflexivity).
Qed.

Lemma answer_round_trip_witness :
  IsContestMessage (answer_text 5 0 "/" ++ TRAILER) = None /\
  IsContestMessage (answer_text 5 2 "/" ++ TRAILER)
    = Some {| isQuestion := false; ap := 5; bp := 2; op := "/" |}.
Proof.
  split.
  - exact (answer_round_trip 5 0 "/" ltac:(unfold is_int8; lia)
             ltac:(unfold is_int8; lia) eq_refl).
  - exact (answer_round_trip 5 2 "/" ltac:(unfold is_int8; lia)
             ltac:(unfold is_int8; lia) eq_refl).
Defined.

Lemma strncmp_firstn (x : cstr) :
  forall n : nat, UTIL1.strncmp x (firstn n x) (List.length (firstn n x)) = 0.
Proof.
  induction x as [| c x IH]; intros [| n]; cbn; try reflexivity.
  rewrite Ascii.eqb_refl. apply IH.
Qed.

(** X11. The text [CalcResultString] leaves in a buffer of any capacity is
    the complete answer followed by the trailer, cut to the capacity less one:
    cutting after every append is the same as cutting once at the end.  So the
    expected answer of the challenge command (16 bytes) is the first 15
    characters of the answer the responder sends (36 bytes), and the bounded
    comparison of the two, over the length of the expected answer, is zero. *)
Theorem CalcResultString_is_cut_answer :
  forall (bufSize : nat) (a b : Z) (op : ascii),
    is_int8 a -> is_int8 b ->
    CalcResultString bufSize a b op
      = Ok (firstn (bufSize - 1) (answer_text a b op ++ TRAILER)) /\
    exists expected sent : cstr,
      CalcResultString 16 a b op = Ok expected /\
      CalcResultString 36 a b op = Ok sent /\
      expected = firstn 15 sent /\
      UTIL1.strncmp sent expected (UTIL1.strlen expected) = 0.
Proof.
  intros n a b o Ha Hb.
  split; [apply CalcResultString_cut; assumption |].
  exists (firstn 15 (answer_text a b o ++ TRAILER)),
         (firstn 35 (answer_text a b o ++ TRAILER)).
  split; [apply (CalcResultString_cut 16); assumption |].
  split; [apply (CalcResultString_cut 36); assumption |].
  assert (Hpre : firstn 15 (answer_text a b o ++ TRAILER)
                 = firstn 15 (firstn 35 (answer_text a b o ++ TRAILER)))
    by (rewrite firstn_firstn; reflexivity).
  split; [exact Hpre |].
  rewrite Hpre. apply strncmp_firstn.
Qed.

Lemma CalcResultString_is_cut_answer_witness :
  CalcResultString 16 (-128) 0 "/" = Ok (lit "-128 / 0 = ERRO").
Proof.
  rewrite (proj1 (CalcResultString_is_cut_answer 16 (-128) 0 "/"
                    ltac:(unfold is_int8; lia) ltac:(unfold is_int8; lia))).
  reflexivity.
Defined.

Lemma sdec_not_NUL_op (op : ascii) : is_base_operation op = true -> is_NUL op = false.
Proof.
  intros H. destruct (base_operation_cases op H) as [-> | [-> | [-> | ->]]]; reflexivity.
Qed.

Lemma question_text_length (a b : Z) (op : ascii) :
  is_int8 a -> is_int8 b -> (List.length (question_text a b op) <= 15)%nat.
Proof.
  intros Ha Hb. unfold question_text.
  pose proof (sdec_length a Ha). pose proof (sdec_length b Hb).
  rewrite !length_app.
  change (List.length (lit " ")) with 1%nat.
  change (List.length (lit " = ?")) with 4%nat.
  cbn [List.length]. lia.
Qed.

(** X12. The responder on a question: for all operands of type [int8_t] and
    each of the four operators, [RespondWithAnswer] given "a op b = ?" prints
    and then sends raw the complete answer with the whole trailer; nothing is
    cut in its 36 byte buffer.  (By X10 the answer to a division by zero, which
    it also sends, is not a contest message for the receiver.) *)
Theorem RespondWithAnswer_sends_the_answer :
  forall (pl : Platform) (drv : Driver) (fuel : nat) (a b : Z) (op : ascii) (s : Radio),
    is_int8 a -> is_int8 b -> is_base_operation op = true ->
    RespondWithAnswer pl drv fuel (question_text a b op) s
      = RADIO_SendStringRaw pl drv fuel (answer_text a b op ++ TRAILER)
          (call (CLS1_SendStr CRLF Stdio_stdOut)
             (call (CLS1_SendStr (answer_text a b op ++ TRAILER) Stdio_stdOut)
                (call (CLS1_SendStr (lit "Contest answer: ") Stdio_stdOut) s))).
Proof.
  intros pl drv fuel a b o s Ha Hb Hop. unfold RespondWithAnswer.
  rewrite (IsContestMessage_question_text a b o Ha Hb Hop). cbn [isQuestion ap bp op].
  rewrite (CalcResultString_fits 36 a b o) by (assumption || lia).
  reflexivity.
Qed.

Lemma RespondWithAnswer_sends_the_answer_witness :
  RespondWithAnswer SRB_platform willing_driver 0 (question_text 5 0 "/") radio_off
    = Ok (call (CLS1_SendStr CRLF Stdio_stdOut)
            (call (CLS1_SendStr (lit "5 / 0 = ERROR Joe TheBest!") Stdio_stdOut)
               (call (CLS1_SendStr (lit "Contest answer: ") Stdio_stdOut) radio_off))).
Proof.
  rewrite (RespondWithAnswer_sends_the_answer SRB_platform willing_driver 0 5 0 "/"
             radio_off)
    by (reflexivity || (unfold is_int8; lia)).
  reflexivity.
Defined.

(** X13. The responder never answers an answer: given the complete answer to
    any challenge (operands of type [int8_t], one of the four operators) it
    prints nothing, sends nothing and returns the state as it is, whatever the
    state of the radio. *)
Theorem RespondWithAnswer_ignores_answers :
  forall (pl : Platform) (drv : Driver) (fuel : nat) (a b : Z) (op : ascii) (s : Radio),
    is_int8 a -> is_int8 b -> is_base_operation op = true ->
    RespondWithAnswer pl drv fuel (answer_text a b op ++ TRAILER) s = Ok s.
Proof.
  intros pl drv fuel a b o s Ha Hb Hop. unfold RespondWithAnswer.
  unfold answer_text, result_text.
  destruct (base_operation_cases o Hop) as [-> | [-> | [-> | ->]]];
    cbv beta iota zeta delta [is_NUL NUL zero Ascii.eqb Bool.eqb andb];
    try destruct (b =? 0);
    rewrite answer_text_flat;
    first [rewrite IsContestMessage_number_result
          | rewrite IsContestMessage_ERROR_result];
    try assumption; reflexivity.
Qed.

Lemma RespondWithAnswer_ignores_answers_witness :
  RespondWithAnswer SRB_platform willing_driver 0 (answer_text 3 4 "+" ++ TRAILER)
    waiting_for_ack = Ok waiting_for_ack.
Proof.
  apply RespondWithAnswer_ignores_answers;
    [unfold is_int8; lia | unfold is_int8; lia | reflexivity].
Defined.

(** The frame the challenge command builds in its 16 byte buffer. *)
Lemma challenge_frame (a b : Z) (op : ascii) :
  is_int8 a -> is_int8 b -> is_base_operation op = true ->
  UTIL1.strcat
    (UTIL1.strcatNum8s
       (UTIL1.chcat (UTIL1.chcat (UTIL1.chcat (UTIL1.Num8sToStr 16 a) 16 " ") 16 op)
          16 " ") 16 b) 16 (lit " = ?")
    = question_text a b op.
Proof.
  intros Ha Hb Hop.
  pose proof (question_text_length a b op Ha Hb) as Hlen.
  unfold UTIL1.strcatNum8s. rewrite (Num8sToStr_fits 5 b) by lia.
  unfold UTIL1.chcat, UTIL1.Num8sToStr, UTIL1.strcpy, UTIL1.strcat.
  rewrite (sdec_not_NUL_op op Hop), (int8_id a Ha), (int8_id b Hb).
  change (is_NUL " ") with false. cbv iota.
  repeat (rewrite firstn_app_firstn, <- ?app_assoc).
  apply firstn_all2. exact Hlen.
Qed.

(** X14. The challenge command: for all operands of type [int8_t] and each of
    the four operators, "radio challenge a op b = ?" sends the question raw,
    uncut, and then caches as expected answer the first 15 characters of the
    complete answer; the command is handled and returns ERR_OK.  If the send
    does not return, nothing is cached. *)
Theorem challenge_command :
  forall (pl : Platform) (drv : Driver) (fuel : nat) (handled : bool)
         (a b : Z) (op : ascii) (s : Radio),
    is_int8 a -> is_int8 b -> is_base_operation op = true ->
    let cmd := lit "radio challenge " ++ question_text a b op in
    str_eq cmd (CLS1_CMD_HELP pl) = false ->
    str_eq cmd (CLS1_CMD_STATUS pl) = false ->
    RADIO_ParseCommand pl drv fuel cmd handled s
      = (s1 <- RADIO_SendStringRaw pl drv fuel (question_text a b op) s ;;
         Ok (ERR_OK, true,
             set_ExpectedResultStr (firstn 15 (answer_text a b op ++ TRAILER)) s1)).
Proof.
  intros pl drv fuel handled a b o s Ha Hb Hop cmd Hhelp Hstatus.
  unfold RADIO_ParseCommand. rewrite Hhelp, Hstatus. subst cmd.
  set (q := question_text a b o).
  cbn [orb]. decide_command. cbv iota.
  change (after_sizeof (lit "radio challenge " ++ q) "radio challenge") with q.
  subst q. rewrite (IsContestMessage_question_text a b o Ha Hb Hop). cbn [isQuestion ap bp op].
  rewrite (challenge_frame a b o Ha Hb Hop).
  rewrite (CalcResultString_cut 16 a b o Ha Hb).
  reflexivity.
Qed.

Lemma challenge_command_witness :
  RADIO_ParseCommand SRB_platform willing_driver 0
    (lit "radio challenge " ++ question_text 3 4 "+") false radio_off
    = Ok (ERR_OK, true, set_ExpectedResultStr (lit "3 + 4 = 7 Joe T") radio_off).
Proof.
  rewrite (challenge_command SRB_platform willing_driver 0 false 3 4 "+" radio_off)
    by (reflexivity || (unfold is_int8; lia)).
  reflexivity.
Defined.

(** ** Frames sent and frames classified *)

(** X15. The acknowledge round trip.  With a transmit buffer of at least 7
    bytes, the TransmitAck step hands the driver the frame "ESTack" with
    length 7, whatever the driver answers, and goes to ReceiveAlwaysOn; and
    that frame, received with Success status by a station in WaitingForAck,
    raises the Ack event there, whose handling ends the wait. *)
Theorem acknowledge_round_trip :
  forall (pl : Platform) (drv : Driver) (s : Radio),
    (7 <= SMAC1_RADIO_BUF_SIZE pl)%nat ->
    RADIO_AppStatus s = RADIO_TRANSMIT_ACK ->
    let s' := RADIO_HandleState pl drv s in
    let packet := {| tx_u8DataLength := 7; tx_pu8Data := ackTxDataBuffer_ |} in
    trace s' = trace s ++ [SMAC1_MCPSDataRequest packet RADIO_PREFIX_ACK_STR] /\
    RADIO_AppStatus s' = RADIO_RECEIVER_ALWAYS_ON /\
    forall (pl2 : Platform) (stack : RADIO_QueueMsgKind -> Stack) (len : Z)
           (behind : list ascii) (peer : Radio),
      RADIO_AppStatus peer = RADIO_WAITING_FOR_ACK ->
      let peer' := RADIO_DataIndicationPacket pl2 stack
                     (received RADIO_PREFIX_ACK_STR len behind) peer in
      trace peer' = trace peer ++ [EVNT_SetEvent EVNT_RADIO_ACK] /\
      RADIO_AppStatus (RADIO_AppHandleEvent EVNT_RADIO_ACK peer')
        = RADIO_RECEIVER_ALWAYS_ON.
Proof.
  intros pl drv s Hcap Hst s' packet. subst s'.
  unfold RADIO_HandleState. rewrite Hst.
  assert (Hcpy : UTIL1.strcpy (SMAC1_RADIO_BUF_SIZE pl) (RADIO_PREFIX_STR ++ RADIO_ACK_STR)
                 = RADIO_PREFIX_ACK_STR)
    by (unfold UTIL1.strcpy; apply firstn_all2; cbn; lia).
  rewrite Hcpy. fields. unfold tx_data. cbn [tx_pu8Data]. fields.
  split; [reflexivity |]. split; [reflexivity |].
  intros pl2 stack len behind peer Hpeer. cbv zeta.
  split; [| reflexivity].
  rewrite success_trace by reflexivity.
  unfold success_event. rewrite Hpeer. reflexivity.
Qed.

Lemma acknowledge_round_trip_witness :
  trace (RADIO_HandleState SRB_platform tx_failing_driver
           (set_AppStatus RADIO_TRANSMIT_ACK Radio_static))
    = [SMAC1_MCPSDataRequest {| tx_u8DataLength := 7; tx_pu8Data := ackTxDataBuffer_ |}
         (lit "ESTack")] /\
  trace (RADIO_DataIndicationPacket SRB_platform (fun _ => blank_stack)
           (received RADIO_PREFIX_ACK_STR 7 (lit "old")) waiting_for_ack)
    = [EVNT_SetEvent EVNT_RADIO_ACK].
Proof.
  destruct (acknowledge_round_trip SRB_platform tx_failing_driver
              (set_AppStatus RADIO_TRANSMIT_ACK Radio_static)
              ltac:(cbn; lia) eq_refl) as [H1 [_ H3]].
  split; [exact H1 |].
  exact (proj1 (H3 SRB_platform (fun _ => blank_stack) 7 (lit "old") waiting_for_ack
                  eq_refl)).
Defined.

Lemma cstring_prefixed (text behind : list ascii) :
  cstring ((RADIO_PREFIX_STR ++ text) ++ behind)
    = "E"%char :: "S"%char :: "T"%char :: cstring (text ++ behind).
Proof. reflexivity. Qed.

Lemma strncmp_prefixed (rest : cstr) :
  UTIL1.strncmp ("E"%char :: "S"%char :: "T"%char :: rest) RADIO_PREFIX_STR
    (List.length RADIO_PREFIX_STR) = 0.
Proof. destruct rest; reflexivity. Qed.

(** A text that begins with a capital letter is no contest message. *)
Lemma IsContestMessage_letter (c : ascii) (rest : cstr) :
  (65 <=? code c) && (code c <=? 90) = true ->
  IsContestMessage (c :: rest) = None.
Proof.
  intros H. apply andb_prop in H. destruct H as [H1 H2].
  apply Z.leb_le in H1. apply Z.leb_le in H2.
  unfold IsContestMessage, UTIL1.xatoi. cbn [UTIL1.skip_spaces].
  destruct (Ascii.eqb_spec c " ") as [-> | _]; [cbn in H1; lia |].
  cbn [peek hd].
  destruct (Ascii.eqb_spec c "-") as [-> | _]; [cbn in H1; lia |].
  cbn [peek hd].
  destruct (Z.eqb_spec (code c) 48) as [E | _]; [lia |].
  destruct (Z.ltb_spec (code c) 48) as [E | _]; [lia |].
  destruct (Z.gtb_spec (code c) 57) as [_ | E]; [reflexivity | lia].
Qed.

(** X16. What [RADIO_SendString] loads is recognised by the receiver: with a
    transmit buffer of at least 4 bytes, whenever [RADIO_SendString] returns
    with the radio on, the transmit buffer holds the prefix followed by the
    data that fits; received with Success status by a station that is not
    waiting for an acknowledge (contest mode on or off, sniffing on or off),
    that text raises the Data event, never Unknown; handling the event puts
    the receiver in TransmitAck. *)
Theorem sent_frame_is_data :
  forall (pl : Platform) (drv : Driver) (fuel : nat) (data : cstr) (s s' : Radio),
    (4 <= SMAC1_RADIO_BUF_SIZE pl)%nat ->
    RADIO_isOn s = true ->
    RADIO_SendString pl drv fuel data s = Ok s' ->
    RADIO_TxDataBuffer s'
      = RADIO_PREFIX_STR ++ firstn (SMAC1_RADIO_BUF_SIZE pl - 4) data /\
    forall (pl2 : Platform) (stack : RADIO_QueueMsgKind -> Stack) (len : Z)
           (behind : list ascii) (peer : Radio),
      RADIO_AppStatus peer <> RADIO_WAITING_FOR_ACK ->
      let peer' := RADIO_DataIndicationPacket pl2 stack
                     (received (RADIO_TxDataBuffer s') len behind) peer in
      trace peer' = trace peer ++ [EVNT_SetEvent EVNT_RADIO_DATA] /\
      RADIO_AppStatus (RADIO_AppHandleEvent EVNT_RADIO_DATA peer') = RADIO_TRANSMIT_ACK.
Proof.
  intros pl drv fuel data s s' Hcap Hon Hsend.
  assert (Hbuf : RADIO_TxDataBuffer s'
                 = RADIO_PREFIX_STR ++ firstn (SMAC1_RADIO_BUF_SIZE pl - 4) data).
  { unfold RADIO_SendString in Hsend. rewrite Hon in Hsend. cbn [negb] in Hsend.
    destruct (drain pl drv fuel s) as [s1 | |]; cbn [bind] in Hsend; try discriminate.
    injection Hsend as <-.
    rewrite (proj1 (proj2 (proj2 (RADIO_HandleState_frame pl drv _)))). fields.
    unfold UTIL1.strcat, UTIL1.strcpy. rewrite firstn_app_firstn.
    replace (SMAC1_RADIO_BUF_SIZE pl - 1)%nat
      with (3 + (SMAC1_RADIO_BUF_SIZE pl - 4))%nat by lia.
    reflexivity. }
  split; [exact Hbuf |].
  intros pl2 stack len behind peer Hpeer. cbv zeta.
  split; [| reflexivity].
  rewrite success_trace by reflexivity.
  rewrite Hbuf. unfold success_event.
  assert (Hw : match RADIO_AppStatus peer with
               | RADIO_WAITING_FOR_ACK => true | _ => false end = false)
    by (destruct (RADIO_AppStatus peer); congruence).
  rewrite Hw. cbn [andb pu8Data received].
  rewrite cstring_prefixed, IsContestMessage_letter, strncmp_prefixed by reflexivity.
  destruct (RADIO_isContest peer); reflexivity.
Qed.

Lemma sent_frame_is_data_witness :
  exists s' : Radio,
    RADIO_SendString SRB_platform willing_driver 0 (lit "hello") ready = Ok s' /\
    RADIO_TxDataBuffer s' = lit "ESThello" /\
    trace (RADIO_DataIndicationPacket SRB_platform (fun _ => blank_stack)
             (received (RADIO_TxDataBuffer s') 9 []) ready)
      = [EVNT_SetEvent EVNT_RADIO_DATA].
Proof.
  eexists. split; [reflexivity |].
  destruct (sent_frame_is_data SRB_platform willing_driver 0 (lit "hello") ready _
              ltac:(cbn; lia) eq_refl eq_refl) as [H1 H2].
  split; [exact H1 |].
  exact (proj1 (H2 SRB_platform (fun _ => blank_stack) 9 [] ready
                  ltac:(discriminate))).
Defined.

(** ** From the producer to the consumer *)

Lemma cstring_of_cells (text : cstr) :
  forall mem : list ascii,
    no_NUL text ->
    (forall j, (j < List.length text)%nat -> nth j mem NUL = nth j text NUL) ->
    nth (List.length text) mem NUL = NUL ->
    cstring mem = text.
Proof.
  induction text as [| c text IH]; intros mem Hno Hcells Hend.
  - destruct mem as [| m mem]; [reflexivity |].
    cbn in Hend. subst m. reflexivity.
  - inversion Hno as [| c' t' Hc Ht]; subst.
    destruct mem as [| m mem].
    + specialize (Hcells 0%nat ltac:(cbn; lia)). cbn in Hcells. subst c.
      discriminate Hc.
    + pose proof (Hcells 0%nat ltac:(cbn; lia)) as H0. cbn in H0. subst m.
      cbn [cstring]. rewrite Hc. f_equal.
      apply IH; [exact Ht | | exact Hend].
      intros j Hj. apply (Hcells (S j)). cbn. lia.
Qed.

Lemma nth_text_terminated (text behind : list ascii) (j : nat) :
  (j <= List.length text)%nat ->
  nth j (text ++ NUL :: behind) NUL = nth j text NUL.
Proof.
  intros Hj. destruct (Nat.eq_dec j (List.length text)) as [-> | Hne].
  - rewrite nth_middle, nth_overflow by lia. reflexivity.
  - apply app_nth1. lia.
Qed.

(** What the consumer reads from a slot whose recorded length covers the
    text and its terminator. *)
Lemma slot_read_back (stack : Stack) (kind : RADIO_QueueMsgKind) (text : cstr)
    (behind after : list ascii) (msgSize : Z) :
  no_NUL text ->
  (List.length text <= 29)%nat ->
  Z.of_nat (List.length text) + 1 <= msgSize < 256 ->
  let slot := fst (QueueMessage_buf stack kind (text ++ NUL :: behind) msgSize) in
  let msg := slot ++ after in
  code (peek msg) = kind_value kind /\
  code (peek (next msg)) = msgSize /\
  cstring (next (next msg)) = text.
Proof.
  intros Hno Hlen Hsz0 slot msg.
  assert (Hsize : 0 <= msgSize < 256) by lia.
  destruct (QueueMessage_buf_spec stack kind (text ++ NUL :: behind) msgSize Hsize)
    as [_ [Hl [Hkind [Hsz [Hcopy _]]]]].
  fold slot in Hl, Hkind, Hsz, Hcopy. unfold RADIO_QUEUE_ITEM_SIZE in Hl.
  assert (Hn : (S (List.length text) <= Nat.min (Z.to_nat msgSize) 30)%nat) by lia.
  assert (Hnth : forall j, nth j msg NUL = nth j slot NUL \/ (32 <= j)%nat).
  { intros j. destruct (Nat.lt_ge_cases j 32) as [H | H]; [left | right; exact H].
    subst msg. apply app_nth1. lia. }
  split; [| split].
  - subst msg. destruct slot as [| c0 rest]; [cbn in Hl; lia |].
    cbn [app peek hd]. cbn in Hkind. rewrite Hkind. apply code_chr.
    destruct kind; cbn; lia.
  - subst msg. destruct slot as [| c0 [| c1 rest]]; cbn in Hl; try lia.
    cbn [app peek next hd tl]. cbn in Hsz. rewrite Hsz. apply code_chr. exact Hsize.
  - apply cstring_of_cells; [exact Hno | |].
    + intros j Hj. rewrite !nth_next.
      destruct (Hnth (S (S j))) as [-> | H]; [| lia].
      change (S (S j)) with (2 + j)%nat.
      rewrite (Hcopy j) by lia. apply nth_text_terminated. lia.
    + rewrite !nth_next.
      destruct (Hnth (S (S (List.length text)))) as [-> | H]; [| lia].
      change (S (S (List.length text))) with (2 + List.length text)%nat.
      rewrite (Hcopy (List.length text)) by lia. apply nth_middle.
Qed.

(** X17. The queue round trip.  A text without NUL of at most 29 characters,
    queued with its terminator (length = characters + 1, the way frames are
    sent), is read back unchanged by the consumer: the first byte of the slot
    is the kind, the second the length, and the C string at the third byte is
    the text, whatever the array held before and whatever lies behind the
    slot. *)
Theorem queue_round_trip :
  forall (stack : Stack) (kind : RADIO_QueueMsgKind) (text : cstr)
         (behind after : list ascii),
    no_NUL text ->
    (List.length text <= 29)%nat ->
    let msgSize := Z.of_nat (List.length text) + 1 in
    let slot := fst (QueueMessage_buf stack kind (text ++ NUL :: behind) msgSize) in
    let msg := slot ++ after in
    code (peek msg) = kind_value kind /\
    code (peek (next msg)) = msgSize /\
    cstring (next (next msg)) = text.
Proof.
  intros stack kind text behind after Hno Hlen msgSize.
  apply slot_read_back; [exact Hno | exact Hlen |].
  subst msgSize. lia.
Qed.

Lemma queue_round_trip_witness :
  cstring (next (next (fst (QueueMessage_buf blank_stack RADIO_QUEUE_MSG_CONTEST_QUESTION
                              (lit "3 + 4 = ?" ++ NUL :: lit "old") 10)
                       ++ lit "behind")))
    = lit "3 + 4 = ?".
Proof.
  assert (Hno : no_NUL (lit "3 + 4 = ?")) by (repeat constructor).
  assert (Hlen : (List.length (lit "3 + 4 = ?") <= 29)%nat) by (cbn; lia).
  exact (proj2 (proj2 (queue_round_trip blank_stack RADIO_QUEUE_MSG_CONTEST_QUESTION
                         (lit "3 + 4 = ?") (lit "old") (lit "behind") Hno Hlen))).
Defined.

(** [RADIO_HandleMessage] does not touch the queue. *)
Lemma drain_queue (pl : Platform) (drv : Driver) (fuel : nat) (s s' : Radio) :
  drain pl drv fuel s = Ok s' -> RADIO_MsgQueue s' = RADIO_MsgQueue s.
Proof.
  intros H. apply drain_frame in H. apply H.
Qed.

Lemma RADIO_SendStringRaw_queue (pl : Platform) (drv : Driver) (fuel : nat)
    (data : cstr) (s s' : Radio) :
  RADIO_SendStringRaw pl drv fuel data s = Ok s' ->
  RADIO_MsgQueue s' = RADIO_MsgQueue s.
Proof.
  unfold RADIO_SendStringRaw. destruct (RADIO_isOn s); cbn [negb].
  - destruct (drain pl drv fuel s) as [s1 | |] eqn:E; cbn [bind]; try discriminate.
    intros H. injection H as <-.
    rewrite (proj1 (proj2 (RADIO_HandleState_frame pl drv _))). fields.
    apply (drain_queue pl drv fuel s s1 E).
  - intros H. injection H as <-. reflexivity.
Qed.

Lemma RADIO_HandleMessage_queue (pl : Platform) (drv : Driver) (fuel : nat)
    (msg : list ascii) (s s' : Radio) :
  RADIO_HandleMessage pl drv fuel msg s = Ok s' ->
  RADIO_MsgQueue s' = RADIO_MsgQueue s.
Proof.
  unfold RADIO_HandleMessage.
  destruct (_ && _); [intros H; injection H as <-; reflexivity |].
  destruct (_ =? _).
  { unfold RespondWithAnswer.
    destruct (IsContestMessage _) as [m |]; [| intros H; injection H as <-; reflexivity].
    destruct (isQuestion m); [| intros H; injection H as <-; reflexivity].
    destruct (CalcResultString _ _ _ _) as [buf | |]; cbn [bind]; try discriminate.
    intros H. apply RADIO_SendStringRaw_queue in H. exact H. }
  destruct (_ =? _).
  { destruct (negb _); intros H; injection H as <-; reflexivity. }
  destruct (_ && _); intros H; injection H as <-; reflexivity.
Qed.

(** X18. One poll, one message: whenever [RADIO_Handle] returns, the queue has
    lost its oldest slot and nothing else (an empty queue stays empty); the
    slots behind keep their order.  With the radio off and the queue empty the
    poll does nothing at all. *)
Theorem RADIO_Handle_takes_the_oldest :
  forall (pl : Platform) (drv : Driver) (fuel : nat) (after : list ascii)
         (s s' : Radio),
    RADIO_Handle pl drv fuel after s = Ok s' ->
    RADIO_MsgQueue s' = tl (RADIO_MsgQueue s) /\
    (RADIO_isOn s = false -> RADIO_MsgQueue s = [] -> s' = s).
Proof.
  intros pl drv fuel after s s' H. unfold RADIO_Handle in H.
  set (s0 := if RADIO_isOn s then RADIO_HandleState pl drv s else s) in H.
  assert (Hq : RADIO_MsgQueue s0 = RADIO_MsgQueue s)
    by (subst s0; destruct (RADIO_isOn s);
        [apply (RADIO_HandleState_frame pl drv s) | reflexivity]).
  unfold FRTOS1_xQueueReceive in H. rewrite Hq in H.
  destruct (RADIO_MsgQueue s) as [| slot q] eqn:E.
  - injection H as <-. split; [rewrite Hq; reflexivity |].
    intros Hoff _. subst s0. rewrite Hoff. reflexivity.
  - apply RADIO_HandleMessage_queue in H. fields. split; [exact H |].
    intros _ Hempty. discriminate Hempty.
Qed.

Lemma RADIO_Handle_takes_the_oldest_witness :
  exists s' : Radio,
    RADIO_Handle SRB_platform willing_driver 0 []
      (set_MsgQueue [answer_slot right_answer; answer_slot wrong_answer] challenged)
      = Ok s' /\
    RADIO_MsgQueue s' = [answer_slot wrong_answer].
Proof.
  eexists. split; [vm_compute; reflexivity |].
  match goal with
  | |- RADIO_MsgQueue ?x = _ =>
      exact (proj1 (RADIO_Handle_takes_the_oldest SRB_platform willing_driver 0 []
                      (set_MsgQueue [answer_slot right_answer; answer_slot wrong_answer]
                         challenged) x ltac:(vm_compute; reflexivity)))
  end.
Defined.

(** ** The sniff dump *)

(** X19. The text part of the sniff dump shows the payload bytes
    [msg[0]], ..., up to the recorded size and at most 32 of them, with the
    NUL bytes left out (a NUL does not end the text), and of what remains the
    first 31 characters. *)
Theorem sniff_ascii_dump_text :
  forall (msg : list ascii) (size : Z),
    fst (sniff_ascii_dump msg size)
      = firstn 31 (filter (fun c => negb (is_NUL c))
                     (loaded msg (Z.to_nat (Z.min size 32)))).
Proof.
  intros msg size. unfold sniff_ascii_dump, loaded.
  exact (ascii_dump_fold msg _ [] []).
Qed.

Lemma flat_map_hex_length (bytes : list ascii) :
  List.length (flat_map hex_byte bytes) = (3 * List.length bytes)%nat.
Proof.
  induction bytes as [| c bytes IH]; [reflexivity |].
  cbn [flat_map hex_byte app List.length]. rewrite IH. lia.
Qed.

(** X20. The hex part of the sniff dump is the first 31 characters of
    " hex: " followed by two digits and a blank for each payload byte up to
    the recorded size.  So the dump shows eight bytes and the first digit of
    the ninth: from nine bytes on, the text no longer depends on the size or
    on the bytes that follow. *)
Theorem sniff_hex_dump_text :
  forall (msg : list ascii) (size : Z),
    fst (sniff_hex_dump msg size)
      = firstn 31 (lit " hex: " ++ flat_map hex_byte (loaded msg (Z.to_nat size))) /\
    (9 <= size -> fst (sniff_hex_dump msg size) = fst (sniff_hex_dump msg 9)).
Proof.
  intros msg size.
  assert (Htext : forall sz,
            fst (sniff_hex_dump msg sz)
              = firstn 31 (lit " hex: "
                             ++ flat_map hex_byte (loaded msg (Z.to_nat sz))))
    by (intros sz; unfold sniff_hex_dump, loaded;
        exact (hex_dump_fold msg _ (lit " hex: ") [])).
  split; [apply Htext |].
  intros Hsize. rewrite !Htext.
  replace (Z.to_nat size) with (9 + (Z.to_nat size - 9))%nat by lia.
  change (Z.to_nat 9) with 9%nat.
  unfold loaded. rewrite seq_app, map_app, flat_map_app, app_assoc.
  set (shown := lit " hex: " ++ flat_map hex_byte (map (fun i => nth i msg NUL) (seq 0 9))).
  assert (Hlen : List.length shown = 33%nat).
  { subst shown. rewrite length_app, flat_map_hex_length, length_map, length_seq.
    reflexivity. }
  rewrite firstn_app.
  replace (31 - List.length shown)%nat with 0%nat by lia.
  cbn [firstn]. apply app_nil_r.
Qed.

Lemma sniff_hex_dump_text_witness :
  9 <= 40 /\
  fst (sniff_hex_dump forty_bytes 40) = lit " hex: 30 31 32 33 34 35 36 37 3".
Proof.
  assert (H : 9 <= 40) by lia. split; [exact H |].
  rewrite (proj2 (sniff_hex_dump_text forty_bytes 40) H).
  reflexivity.
Defined.

(** ** Commands *)

(** X21. [RADIO_SetChannel] and [RADIO_SetOutputPower] never reject a value:
    what is stored and passed to the driver is the value modulo 16, which lies
    in 0..15 and is the value itself when that is in range. *)
Theorem channel_and_power_are_masked :
  forall (v : Z) (s : Radio),
    RADIO_Channel (RADIO_SetChannel v s) = v mod 16 /\
    trace (RADIO_SetChannel v s) = trace s ++ [SMAC1_MLMESetChannelRequest (v mod 16)] /\
    RADIO_OutputPower (RADIO_SetOutputPower v s) = v mod 16 /\
    trace (RADIO_SetOutputPower v s)
      = trace s ++ [SMAC1_MLMEMC13192PAOutputAdjust (v mod 16)] /\
    0 <= v mod 16 <= 15 /\
    (0 <= v <= 15 -> v mod 16 = v).
Proof.
  intros v s.
  assert (Hland : Z.land v 15 = v mod 16)
    by (change 15 with (Z.ones 4); rewrite Z.land_ones by lia; reflexivity).
  unfold RADIO_SetChannel, RADIO_SetOutputPower. fields. rewrite Hland.
  repeat split; try reflexivity.
  - apply Z.mod_pos_bound. lia.
  - pose proof (Z.mod_pos_bound v 16). lia.
  - intros H. apply Z.mod_small. lia.
Qed.

Lemma has_prefix_app (prefix : string) (rest : cstr) :
  has_prefix (lit prefix ++ rest) prefix = true.
Proof.
  unfold has_prefix. apply Z.eqb_eq.
  induction (lit prefix) as [| c p IH]; cbn.
  - destruct rest; reflexivity.
  - rewrite Ascii.eqb_refl. exact IH.
Qed.

(** X22. The channel command validates its argument: after
    "radio channel" and one separating character, an argument that
    [UTIL1.xatoi] reads as a number in 0..15 is set as the channel (the
    driver is told, the command is handled); any other argument leaves
    channel, power and driver alone, writes the error message to the error
    stream, returns ERR_FAILED and does not mark the command handled. *)
Theorem channel_command :
  forall (pl : Platform) (drv : Driver) (fuel : nat) (handled : bool)
         (sep : ascii) (arg : cstr) (s : Radio),
    let cmd := lit "radio channel" ++ sep :: arg in
    str_eq cmd (CLS1_CMD_HELP pl) = false ->
    str_eq cmd (CLS1_CMD_STATUS pl) = false ->
    (forall val rest,
       UTIL1.xatoi arg = Some (val, rest) -> 0 <= val <= 15 ->
       RADIO_ParseCommand pl drv fuel cmd handled s
         = Ok (ERR_OK, true, RADIO_SetChannel val s) /\
       RADIO_Channel (RADIO_SetChannel val s) = val) /\
    ((UTIL1.xatoi arg = None \/
      exists val rest, UTIL1.xatoi arg = Some (val, rest) /\ (val < 0 \/ 15 < val)) ->
       RADIO_ParseCommand pl drv fuel cmd handled s
         = Ok (ERR_FAILED, handled, call (CLS1_SendStr WRONG_ARGUMENT io_stdErr) s)).
Proof.
  intros pl drv fuel handled sep arg s cmd Hhelp Hstatus.
  assert (Hcmd : RADIO_ParseCommand pl drv fuel cmd handled s
                 = match UTIL1.xatoi arg with
                   | Some (val, _) =>
                       if (0 <=? val) && (val <=? 15)
                       then Ok (ERR_OK, true, RADIO_SetChannel (uint8 val) s)
                       else Ok (ERR_FAILED, handled,
                                call (CLS1_SendStr WRONG_ARGUMENT io_stdErr) s)
                   | None => Ok (ERR_FAILED, handled,
                                 call (CLS1_SendStr WRONG_ARGUMENT io_stdErr) s)
                   end).
  { unfold RADIO_ParseCommand. rewrite Hhelp, Hstatus. subst cmd.
    cbn [orb]. decide_command. cbv iota.
    change (after_sizeof (lit "radio channel" ++ sep :: arg) "radio channel") with arg.
    reflexivity. }
  rewrite Hcmd. split.
  - intros val rest Hx Hrange. rewrite Hx.
    destruct (Z.leb_spec 0 val); [| lia]. destruct (Z.leb_spec val 15); [| lia].
    cbn [andb]. unfold uint8. rewrite Z.mod_small by lia.
    split; [reflexivity |].
    unfold RADIO_SetChannel. fields.
    change 15 with (Z.ones 4). rewrite Z.land_ones by lia. apply Z.mod_small. lia.
  - intros [-> | [val [rest [-> Hout]]]]; [reflexivity |].
    destruct (Z.leb_spec 0 val); destruct (Z.leb_spec val 15); cbn [andb];
      try reflexivity; lia.
Qed.

Lemma channel_command_witness :
  RADIO_ParseCommand SRB_platform willing_driver 0 (lit "radio channel 11") false
    Radio_static
    = Ok (ERR_OK, true, RADIO_SetChannel 11 Radio_static) /\
  RADIO_ParseCommand SRB_platform willing_driver 0 (lit "radio channel 16") false
    Radio_static
    = Ok (ERR_FAILED, false, call (CLS1_SendStr WRONG_ARGUMENT io_stdErr) Radio_static).
Proof.
  split.
  - destruct (channel_command SRB_platform willing_driver 0 false " " (lit "11")
                Radio_static eq_refl eq_refl) as [H _].
    exact (proj1 (H 11 [] eq_refl ltac:(lia))).
  - destruct (channel_command SRB_platform willing_driver 0 false " " (lit "16")
                Radio_static eq_refl eq_refl) as [_ H].
    apply H. right. exists 16, []. split; [reflexivity | lia].
Defined.

(** X23. The contest number is not validated: after "radio contest " any
    text other than "on" and "off" is accepted; the number set is the code
    of its first character minus the code of '0', as a byte.  A digit gives
    its value; no character at all gives 208. *)
Theorem contest_number_command :
  forall (pl : Platform) (drv : Driver) (fuel : nat) (handled : bool)
         (arg : cstr) (s : Radio),
    let cmd := lit "radio contest " ++ arg in
    str_eq cmd (CLS1_CMD_HELP pl) = false ->
    str_eq cmd (CLS1_CMD_STATUS pl) = false ->
    str_eq cmd (lit "radio contest on") = false ->
    str_eq cmd (lit "radio contest off") = false ->
    RADIO_ParseCommand pl drv fuel cmd handled s
      = Ok (ERR_OK, true, set_contestNo ((code (peek arg) - 48) mod 256) s) /\
    (arg = [] -> (code (peek arg) - 48) mod 256 = 208) /\
    (48 <= code (peek arg) <= 57 ->
       (code (peek arg) - 48) mod 256 = code (peek arg) - 48).
Proof.
  intros pl drv fuel handled arg s cmd Hhelp Hstatus Hon Hoff.
  split; [| split].
  - unfold RADIO_ParseCommand. rewrite Hhelp, Hstatus, Hon, Hoff. subst cmd.
    cbn [orb]. rewrite (has_prefix_app "radio contest " arg).
    decide_command. cbv iota. reflexivity.
  - intros ->. reflexivity.
  - intros H. apply Z.mod_small. lia.
Qed.

Lemma contest_number_command_witness :
  RADIO_ParseCommand SRB_platform willing_driver 0 (lit "radio contest x") false
    Radio_static
    = Ok (ERR_OK, true, set_contestNo 72 Radio_static).
Proof.
  exact (proj1 (contest_number_command SRB_platform willing_driver 0 false (lit "x")
                  Radio_static eq_refl eq_refl eq_refl eq_refl)).
Defined.

Lemma channel_and_power_are_masked_witness :
  RADIO_Channel (RADIO_SetChannel 37 Radio_static) = 5 /\
  RADIO_OutputPower (RADIO_SetOutputPower 15 Radio_static) = 15.
Proof.
  destruct (channel_and_power_are_masked 37 Radio_static) as [H1 _].
  destruct (channel_and_power_are_masked 15 Radio_static) as [_ [_ [H3 [_ [_ H6]]]]].
  split; [exact H1 |]. rewrite H3. apply H6. lia.
Defined.

(** ** A contest question from the air to the answer *)

Lemma cstring_terminated (text behind : list ascii) :
  no_NUL text -> cstring (text ++ NUL :: behind) = text.
Proof.
  intros H. induction H as [| c text Hc _ IH]; [reflexivity |].
  cbn [app cstring]. rewrite Hc, IH. reflexivity.
Qed.

(** A formatted number holds no NUL and does not begin like the
    acknowledge frame. *)
Lemma sdec_text (rest : cstr) (z : Z) :
  is_int8 z ->
  no_NUL (UTIL1.sdec z) /\
  (UTIL1.strncmp (UTIL1.sdec z ++ rest) RADIO_PREFIX_ACK_STR
     (List.length RADIO_PREFIX_ACK_STR) =? 0) = false.
Proof.
  intros H. apply int8_values_complete in H. revert z H.
  apply Forall_forall.
  let l := eval vm_compute in int8_values in change int8_values with l.
  repeat (apply Forall_cons; [split; [repeat constructor | reflexivity] |]).
  apply Forall_nil.
Qed.

Lemma question_text_no_NUL (a b : Z) (op : ascii) :
  is_int8 a -> is_int8 b -> is_base_operation op = true ->
  no_NUL (question_text a b op).
Proof.
  intros Ha Hb Hop. unfold question_text, no_NUL.
  repeat (apply Forall_app; split);
    try (apply (sdec_text [] _ Ha)); try (apply (sdec_text [] _ Hb));
    try (repeat constructor).
  apply sdec_not_NUL_op, Hop.
Qed.

(** X24. A contest question from the callback to the responder.  With
    contest mode on, sniffing off and the queue empty, a received challenge
    "a op b = ?" (operands of type [int8_t], one of the four operators; any
    radio state, also WaitingForAck) raises the Data event and is queued as
    the one slot of the queue; polled from there, that slot makes the handler
    print the question and hand it to the responder, which prints and sends
    the complete answer with the trailer. *)
Theorem contest_question_is_answered :
  forall (pl : Platform) (stack : RADIO_QueueMsgKind -> Stack) (behind : list ascii)
         (a b : Z) (op : ascii) (s : Radio),
    is_int8 a -> is_int8 b -> is_base_operation op = true ->
    RADIO_isContest s = true ->
    RADIO_isSniffing s = false ->
    RADIO_MsgQueue s = [] ->
    let q := question_text a b op in
    let s1 := RADIO_DataIndicationPacket pl stack
                (received q (Z.of_nat (List.length q) + 1) behind) s in
    trace s1 = trace s ++ [EVNT_SetEvent EVNT_RADIO_DATA] /\
    exists slot : list ascii,
      RADIO_MsgQueue s1 = [slot] /\
      forall (drv : Driver) (fuel : nat) (after : list ascii) (s2 : Radio),
        RADIO_HandleMessage pl drv fuel (slot ++ after) s2
          = RADIO_SendStringRaw pl drv fuel (answer_text a b op ++ TRAILER)
              (call (CLS1_SendStr CRLF Stdio_stdOut)
                 (call (CLS1_SendStr (answer_text a b op ++ TRAILER) Stdio_stdOut)
                    (call (CLS1_SendStr (lit "Contest answer: ") Stdio_stdOut)
                       (call (CLS1_SendStr CRLF Stdio_stdOut)
                          (call (CLS1_SendStr q Stdio_stdOut)
                             (call (CLS1_SendStr (CRLF ++ lit "Contest question: ")
                                      Stdio_stdOut) s2)))))).
Proof.
  intros pl stack behind a b o s Ha Hb Hop Hcontest Hsniff Hqueue q s1.
  pose proof (question_text_no_NUL a b o Ha Hb Hop) as Hno. fold q in Hno.
  pose proof (question_text_length a b o Ha Hb) as Hlen. fold q in Hlen.
  pose proof (IsContestMessage_question_text a b o Ha Hb Hop) as Hparse. fold q in Hparse.
  assert (Hack : (UTIL1.strncmp q RADIO_PREFIX_ACK_STR
                    (List.length RADIO_PREFIX_ACK_STR) =? 0) = false)
    by (apply (sdec_text _ a Ha)).
  set (slot := fst (QueueMessage_buf (stack RADIO_QUEUE_MSG_CONTEST_QUESTION)
                      RADIO_QUEUE_MSG_CONTEST_QUESTION (q ++ NUL :: behind)
                      (Z.of_nat (List.length q) + 1))).
  assert (Hs1 : s1 = call (EVNT_SetEvent EVNT_RADIO_DATA) (set_MsgQueue [slot] s)).
  { subst s1. unfold RADIO_DataIndicationPacket.
    cbn [u8Status pu8Data u8DataLength received].
    rewrite Hsniff, (cstring_terminated q behind Hno), Hack, andb_false_r, Hcontest,
      Hparse.
    cbn [isQuestion]. unfold QueueMessage, FRTOS1_xQueueSendToBackFromISR.
    rewrite Hqueue. cbn [List.length Nat.ltb Nat.leb RADIO_QUEUE_NOF_ITEMS app].
    fold slot. rewrite firstn_all2
      by (subst slot; rewrite QueueMessage_buf_length; reflexivity).
    reflexivity. }
  rewrite Hs1. split; [reflexivity |].
  exists slot. split; [reflexivity |].
  intros drv fuel after s2.
  destruct (slot_read_back (stack RADIO_QUEUE_MSG_CONTEST_QUESTION)
              RADIO_QUEUE_MSG_CONTEST_QUESTION q behind after
              (Z.of_nat (List.length q) + 1) Hno ltac:(lia) ltac:(lia))
    as [Hkind [_ Htext]].
  fold slot in Hkind, Htext.
  unfold RADIO_HandleMessage. rewrite Hkind, Htext.
  cbn [kind_value Z.eqb Pos.eqb]. rewrite andb_false_r.
  unfold RespondWithAnswer. rewrite Hparse. cbn [isQuestion ap bp op].
  rewrite (CalcResultString_fits 36 a b o) by (assumption || lia).
  reflexivity.
Qed.

Lemma contest_question_is_answered_witness :
  trace (RADIO_DataIndicationPacket SRB_platform (fun _ => blank_stack)
           (received (question_text 3 4 "+")
              (Z.of_nat (List.length (question_text 3 4 "+")) + 1) [])
           (set_isContest true waiting_for_ack))
    = [EVNT_SetEvent EVNT_RADIO_DATA].
Proof.
  exact (proj1 (contest_question_is_answered SRB_platform (fun _ => blank_stack) []
                  3 4 "+" (set_isContest true waiting_for_ack)
                  ltac:(unfold is_int8; lia) ltac:(unfold is_int8; lia)
                  eq_refl eq_refl eq_refl eq_refl)).
Defined.

(** ** Sniffing, and the radio switched off *)

Lemma QueueMessage_appends stack kind msg msgSize (s : Radio) :
  exists added,
    RADIO_MsgQueue (QueueMessage stack kind msg msgSize s) = RADIO_MsgQueue s ++ added /\
    (List.length added <= 1)%nat.
Proof.
  unfold QueueMessage, FRTOS1_xQueueSendToBackFromISR.
  destruct (_ <? _)%nat; fields.
  - eexists. split; [reflexivity | cbn; lia].
  - exists []. rewrite app_nil_r. split; [reflexivity | cbn; lia].
Qed.

(** X25. With sniffing on and room in the queue, every packet received with
    Success status is queued as a Sniff slot, whatever its classification is
    (acknowledge, contest message, data or unknown): the sniff slot comes
    first, and at most one classified message follows it.  With sniffing off,
    contest mode off and no remote control compiled in, the callback never
    queues anything. *)
Theorem sniffing_copies_every_packet :
  forall (pl : Platform) (stack : RADIO_QueueMsgKind -> Stack)
         (sRxPacket : tRxPacket) (s : Radio),
    u8Status sRxPacket = SMAC1_SUCCESS ->
    let s' := RADIO_DataIndicationPacket pl stack sRxPacket s in
    let copy := fst (QueueMessage_buf (stack RADIO_QUEUE_MSG_SNIFF) RADIO_QUEUE_MSG_SNIFF
                       (pu8Data sRxPacket) (u8DataLength sRxPacket)) in
    (RADIO_isSniffing s = true ->
     (List.length (RADIO_MsgQueue s) < RADIO_QUEUE_NOF_ITEMS)%nat ->
       exists more,
         RADIO_MsgQueue s' = RADIO_MsgQueue s ++ copy :: more /\
         (List.length more <= 1)%nat) /\
    (RADIO_isSniffing s = false -> RADIO_isContest s = false ->
     PL_HAS_REMOTE pl && PL_HAS_MOTOR pl = false ->
       RADIO_MsgQueue s' = RADIO_MsgQueue s).
Proof.
  intros pl stack rx s Hstatus s' copy. subst s'.
  unfold RADIO_DataIndicationPacket. rewrite Hstatus. split.
  - intros Hsniff Hroom. rewrite Hsniff.
    set (s0 := QueueMessage _ _ _ _ s).
    assert (H0 : RADIO_MsgQueue s0 = RADIO_MsgQueue s ++ [copy]).
    { subst s0. unfold QueueMessage, FRTOS1_xQueueSendToBackFromISR.
      destruct (Nat.ltb_spec (List.length (RADIO_MsgQueue s)) RADIO_QUEUE_NOF_ITEMS);
        [| lia].
      fields. fold copy.
      rewrite firstn_all2 by (subst copy; rewrite QueueMessage_buf_length; reflexivity).
      reflexivity. }
    assert (Hnone : exists more, RADIO_MsgQueue s0 = RADIO_MsgQueue s ++ copy :: more /\
                                 (List.length more <= 1)%nat)
      by (exists []; split; [exact H0 | cbn; lia]).
    assert (Hone : forall st k m n,
              exists more, RADIO_MsgQueue (QueueMessage st k m n s0)
                             = RADIO_MsgQueue s ++ copy :: more /\
                           (List.length more <= 1)%nat).
    { intros st k m n.
      destruct (QueueMessage_appends st k m n s0) as [added [E L]].
      exists added. rewrite E, H0, <- app_assoc. split; [reflexivity | exact L]. }
    destruct (_ && _); [exact Hnone |].
    destruct (if RADIO_isContest s0 then _ else _) as [m |].
    + destruct (isQuestion m); apply Hone.
    + destruct (_ =? 0); [| exact Hnone].
      destruct (PL_HAS_REMOTE pl && PL_HAS_MOTOR pl);
        [destruct (_ =? 0) |]; first [apply Hone | exact Hnone].
  - intros Hsniff Hcontest Hremote. rewrite Hsniff, Hcontest, Hremote.
    clear Hremote.
    destruct (_ && _); [reflexivity |].
    destruct (_ =? 0); reflexivity.
Qed.

Lemma sniffing_copies_every_packet_witness :
  exists more,
    RADIO_MsgQueue (RADIO_DataIndicationPacket SRB_platform (fun _ => blank_stack)
                      ack_packet (set_isSniffing true waiting_for_ack))
      = fst (QueueMessage_buf blank_stack RADIO_QUEUE_MSG_SNIFF
               (pu8Data ack_packet) (u8DataLength ack_packet)) :: more /\
    (List.length more <= 1)%nat.
Proof.
  destruct (sniffing_copies_every_packet SRB_platform (fun _ => blank_stack) ack_packet
              (set_isSniffing true waiting_for_ack) eq_refl) as [H _].
  apply H; [reflexivity | apply Nat.ltb_lt; reflexivity].
Defined.

(** X26. Switching the radio off by command: "radio off" clears the radio
    flag and changes nothing else; from then on both send operations return
    at once without any effect, in whatever state the machine is (also in
    WaitingForAck, where they would otherwise not return), and a poll with an
    empty queue does nothing. *)
Theorem radio_off_command :
  forall (pl : Platform) (drv : Driver) (fuel : nat) (handled : bool) (s : Radio),
    str_eq (lit "radio off") (CLS1_CMD_HELP pl) = false ->
    str_eq (lit "radio off") (CLS1_CMD_STATUS pl) = false ->
    RADIO_ParseCommand pl drv fuel (lit "radio off") handled s
      = Ok (ERR_OK, true, set_isOn false s) /\
    forall (fuel' : nat) (data after : cstr),
      RADIO_SendString pl drv fuel' data (set_isOn false s) = Ok (set_isOn false s) /\
      RADIO_SendStringRaw pl drv fuel' data (set_isOn false s) = Ok (set_isOn false s) /\
      (RADIO_MsgQueue s = [] ->
         RADIO_Handle pl drv fuel' after (set_isOn false s) = Ok (set_isOn false s)).
Proof.
  intros pl drv fuel handled s Hhelp Hstatus. split.
  - unfold RADIO_ParseCommand. rewrite Hhelp, Hstatus. reflexivity.
  - intros fuel' data after. split; [reflexivity |]. split; [reflexivity |].
    intros Hq. unfold RADIO_Handle. fields. rewrite Hq. reflexivity.
Qed.

Lemma radio_off_command_witness :
  RADIO_ParseCommand SRB_platform willing_driver 0 (lit "radio off") false
    waiting_for_ack
    = Ok (ERR_OK, true, set_isOn false waiting_for_ack) /\
  RADIO_SendString SRB_platform willing_driver 0 (lit "hello")
    (set_isOn false waiting_for_ack) = Ok (set_isOn false waiting_for_ack).
Proof.
  destruct (radio_off_command SRB_platform willing_driver 0 false waiting_for_ack
              eq_refl eq_refl) as [H1 H2].
  split; [exact H1 |]. exact (proj1 (H2 0%nat (lit "hello") [])).
Defined.

(** X27. The power command validates its argument like the channel command:
    a number in 0..15 after "radio power" and one separating character is
    set as output power and passed to the driver; any other argument leaves
    the state alone but for the error message, returns ERR_FAILED and does
    not mark the command handled. *)
Theorem power_command :
  forall (pl : Platform) (drv : Driver) (fuel : nat) (handled : bool)
         (sep : ascii) (arg : cstr) (s : Radio),
    let cmd := lit "radio power" ++ sep :: arg in
    str_eq cmd (CLS1_CMD_HELP pl) = false ->
    str_eq cmd (CLS1_CMD_STATUS pl) = false ->
    (forall val rest,
       UTIL1.xatoi arg = Some (val, rest) -> 0 <= val <= 15 ->
       RADIO_ParseCommand pl drv fuel cmd handled s
         = Ok (ERR_OK, true, RADIO_SetOutputPower val s) /\
       RADIO_OutputPower (RADIO_SetOutputPower val s) = val) /\
    ((UTIL1.xatoi arg = None \/
      exists val rest, UTIL1.xatoi arg = Some (val, rest) /\ (val < 0 \/ 15 < val)) ->
       RADIO_ParseCommand pl drv fuel cmd handled s
         = Ok (ERR_FAILED, handled, call (CLS1_SendStr WRONG_ARGUMENT io_stdErr) s)).
Proof.
  intros pl drv fuel handled sep arg s cmd Hhelp Hstatus.
  assert (Hcmd : RADIO_ParseCommand pl drv fuel cmd handled s
                 = match UTIL1.xatoi arg with
                   | Some (val, _) =>
                       if (0 <=? val) && (val <=? 15)
                       then Ok (ERR_OK, true, RADIO_SetOutputPower (uint8 val) s)
                       else Ok (ERR_FAILED, handled,
                                call (CLS1_SendStr WRONG_ARGUMENT io_stdErr) s)
                   | None => Ok (ERR_FAILED, handled,
                                 call (CLS1_SendStr WRONG_ARGUMENT io_stdErr) s)
                   end).
  { unfold RADIO_ParseCommand. rewrite Hhelp, Hstatus. subst cmd.
    cbn [orb]. decide_command. cbv iota.
    change (after_sizeof (lit "radio power" ++ sep :: arg) "radio power") with arg.
    reflexivity. }
  rewrite Hcmd. split.
  - intros val rest Hx Hrange. rewrite Hx.
    destruct (Z.leb_spec 0 val); [| lia]. destruct (Z.leb_spec val 15); [| lia].
    cbn [andb]. unfold uint8. rewrite Z.mod_small by lia.
    split; [reflexivity |].
    unfold RADIO_SetOutputPower. fields.
    change 15 with (Z.ones 4). rewrite Z.land_ones by lia. apply Z.mod_small. lia.
  - intros [-> | [val [rest [-> Hout]]]]; [reflexivity |].
    destruct (Z.leb_spec 0 val); destruct (Z.leb_spec val 15); cbn [andb];
      try reflexivity; lia.
Qed.

Lemma power_command_witness :
  RADIO_ParseCommand SRB_platform willing_driver 0 (lit "radio power -1") true
    Radio_static
    = Ok (ERR_FAILED, true, call (CLS1_SendStr WRONG_ARGUMENT io_stdErr) Radio_static).
Proof.
  destruct (power_command SRB_platform willing_driver 0 true " " (lit "-1")
              Radio_static eq_refl eq_refl) as [_ H].
  apply H. right. exists (-1), []. split; [reflexivity | lia].
Defined.
